(** * Orchestration core of the autonomous browser agent

    A shallow embedding of the workflow engine of
    [src/browser_agent/orchestration.py] and of the modules it is built
    from ([llm/router.py], [llm/rate_limiter.py], [browser/manager.py],
    [agents/planner.py], [agents/redirector.py], [agents/rag.py]).

    Conventions of the embedding.
    - A Python call that may raise is a computation in [result]: [Ok v]
      is a normal return, [Raise msg] an exception of class [Exception]
      whose [str(e)] is [msg].  These are the exceptions the [except
      Exception] handlers of the source catch; asynchronous interrupts
      ([KeyboardInterrupt], [SystemExit]) are not part of the model.
    - Text is [string]; [str.lower] acts on the ASCII letters.
    - Values decoded from a model's JSON answer are [pyval]; a Python
      [dict] is an association list in insertion order.
    - Answers of external collaborators (language models, the browser
      page, the vector store, the process environment) are supplied as
      arguments of the function that consults them.
    - [print] and the logger only write to the console and to log files;
      they are left out, but the evaluation of their arguments is kept
      where it can raise. *)

From Stdlib Require Import ZArith Lia.
From stdpp Require Import base option list strings pretty.

Local Open Scope string_scope.
Local Open Scope list_scope.

(** ** Exceptions *)

Module Py.

Inductive result (A : Type) : Type :=
| Ok (a : A)
| Raise (msg : string).
Arguments Ok {A} a.
Arguments Raise {A} msg.

Definition bind {A B : Type} (m : result A) (k : A -> result B) : result B :=
  match m with
  | Ok a => k a
  | Raise e => Raise e
  end.

(** [try: m  except Exception as e: h e] *)
Definition try_except {A : Type} (m : result A) (h : string -> result A) : result A :=
  match m with
  | Ok a => Ok a
  | Raise e => h e
  end.

End Py.

Export Py.

#[export] Instance result_ret : MRet result := @Ok.
#[export] Instance result_bind : MBind result := fun A B k m => bind m k.

(** ** Text *)

Module Text.

Definition lower_ascii (c : Ascii.ascii) : Ascii.ascii :=
  let n := Ascii.nat_of_ascii c in
  if (65 <=? n)%nat && (n <=? 90)%nat then Ascii.ascii_of_nat (n + 32) else c.

(** [s.lower()] *)
Fixpoint lower (s : string) : string :=
  match s with
  | EmptyString => EmptyString
  | String c s' => String (lower_ascii c) (lower s')
  end.

(** [w in s] on strings *)
Fixpoint contains (w s : string) : bool :=
  String.prefix w s ||
  match s with
  | EmptyString => false
  | String _ s' => contains w s'
  end.

(** [s.replace(old, new)]: the occurrences of [old] are replaced from left
    to right without overlap.  [skip] counts the characters of a match
    that are still to be dropped. *)
Fixpoint replace_from (skip : nat) (old new s : string) : string :=
  match s with
  | EmptyString => EmptyString
  | String c s' =>
      match skip with
      | S k => replace_from k old new s'
      | O =>
          if negb (String.eqb old EmptyString) && String.prefix old s
          then new +:+ replace_from (String.length old - 1) old new s'
          else String c (replace_from 0 old new s')
      end
  end.

Definition replace (old new s : string) : string := replace_from 0 old new s.

(** [s[:n]] *)
Fixpoint take_str (n : nat) (s : string) : string :=
  match n, s with
  | S k, String c s' => String c (take_str k s')
  | _, _ => EmptyString
  end.

(** [str(n)] for a non-negative integer *)
Definition str_nat (n : nat) : string := pretty n.

End Text.

Export Text.

(** ** Provider rotation ([llm/rate_limiter.py], [llm/router.py]) *)

Module Rotation.

(** [keys[start_index:] + keys[:start_index]]; a slice clamps its bound to
    the length of the list. *)
Definition rotate {A : Type} (l : list A) (start_index : nat) : list A :=
  drop start_index l ++ take start_index l.

(** [APIKeyRotator.rotate_keys] *)
Definition rotate_keys (keys : list string) (start_index : nat) : list string :=
  if bool_decide (keys = []) || (start_index =? 0)%nat then keys
  else rotate keys start_index.

(** A chat model handle, as built by a provider. *)
Record llm := {
  made_by : string;
  model : string;
  api_key : option string
}.

(** [BaseLLMProvider]: an object with the two methods of the interface. *)
Record provider := {
  get_provider_name : string;
  get_model : option string -> result llm
}.

(** [LLMRouter] with the keys held by [api_key_rotator] and the cached
    liveness of the local provider ([OllamaProvider.check_availability]). *)
Record router := {
  gemini_provider : provider;
  groq_provider : provider;
  sambanova_provider : provider;
  ollama_provider : provider;
  gemini_keys : list string;
  groq_keys : list string;
  sambanova_keys : list string;
  ollama_available : bool
}.

(** [for idx, key in enumerate(keys, start=1)]: a key whose model cannot be
    initialised is skipped. *)
Fixpoint add_keys (p : provider) (name : string) (idx : nat)
    (keys : list string) : list (string * llm) :=
  match keys with
  | [] => []
  | key :: rest =>
      match get_model p (Some key) with
      | Ok m => (name +:+ str_nat idx, m) :: add_keys p name (S idx) rest
      | Raise _ => add_keys p name (S idx) rest
      end
  end.

Definition provider_is (provider : option string) (name : string) : bool :=
  bool_decide (provider = Some name).

Definition is_none {A : Type} (o : option A) : bool :=
  match o with None => true | Some _ => false end.

(** The list built before rotation. *)
Definition build_main (r : router) (provider : option string) : list (string * llm) :=
  (if is_none provider || provider_is provider "gemini"
   then add_keys (gemini_provider r) "gemini_llm" 1 (gemini_keys r) else [])
  ++
  (if is_none provider || provider_is provider "groq"
   then add_keys (groq_provider r) "groq_llm" 1 (groq_keys r) else [])
  ++
  (if provider_is provider "sambanova"
   then add_keys (sambanova_provider r) "sambanova" 1 (sambanova_keys r) else [])
  ++
  (if provider_is provider "ollama" && ollama_available r
   then match get_model (ollama_provider r) None with
        | Ok m => [("ollama_text", m)]
        | Raise _ => []
        end
   else []).

(** [LLMRouter.get_main_llm_with_rotation] *)
Definition get_main_llm_with_rotation (r : router)
    (start_index : nat) (provider : option string) : result (list (string * llm)) :=
  let rotation_list := build_main r provider in
  if bool_decide (rotation_list = []) then
    Raise ("No valid API keys found for main LLM rotation" +:+
           match provider with
           | Some p => if bool_decide (p = "") then "" else " for provider '" +:+ p +:+ "'"
           | None => ""
           end)
  else
    Ok (if (0 <? start_index)%nat then rotate rotation_list start_index
        else rotation_list).

(** [LLMConfig.get_execution_llm_with_rotation(start_index, provider=provider)]:
    [LLMRouter] defines no method of this name (it has the two rotations,
    [get_main_llm] and [get_vision_llm]), so the attribute lookup on the
    instance raises [AttributeError] whatever the arguments. *)
Definition get_execution_llm_with_rotation (r : router)
    (start_index : nat) (provider : option string) : result (list (string * llm)) :=
  Raise "'LLMRouter' object has no attribute 'get_execution_llm_with_rotation'".

End Rotation.

Export Rotation.

(** ** Python values ([json.loads] results, plan steps, message contents) *)

Module Values.

#[warnings="-register-all"]
Inductive pyval : Type :=
| PNone
| PBool (b : bool)
| PInt (n : Z)
| PStr (s : string)
| PList (l : list pyval)
| PDict (d : list (string * pyval)).

(** Built-ins of the Python runtime and of its standard library that the
    workflow calls and that are not part of the repository. *)
Class Builtins := {
  (** [repr(v)] of a list or a dict *)
  py_repr : pyval -> string;
  (** [urlparse(url).netloc] *)
  urlparse_netloc : string -> result string;
  (** [json.loads(extract_json_from_markdown(text))] *)
  load_json : string -> result pyval;
  (** [json.dumps(v)], which accepts every value of [pyval] *)
  json_dumps : pyval -> string
}.

(** Truth value of an object in a condition. *)
Definition truthy (v : pyval) : bool :=
  match v with
  | PNone => false
  | PBool b => b
  | PInt n => negb (n =? 0)%Z
  | PStr s => negb (String.eqb s "")
  | PList l => negb (bool_decide (length l = 0))
  | PDict d => negb (bool_decide (length d = 0))
  end.

(** [v == "text"] *)
Definition eq_str (v : pyval) (t : string) : bool :=
  match v with
  | PStr s => String.eqb s t
  | _ => false
  end.

(** [str(v)], as an f-string formats a value. *)
Definition py_str `{!Builtins} (v : pyval) : string :=
  match v with
  | PNone => "None"
  | PBool true => "True"
  | PBool false => "False"
  | PInt n => pretty n
  | PStr s => s
  | PList _ | PDict _ => py_repr v
  end.

Definition type_name (v : pyval) : string :=
  match v with
  | PNone => "NoneType"
  | PBool _ => "bool"
  | PInt _ => "int"
  | PStr _ => "str"
  | PList _ => "list"
  | PDict _ => "dict"
  end.

Fixpoint dict_get (d : list (string * pyval)) (k : string) : option pyval :=
  match d with
  | [] => None
  | (k', v) :: rest => if String.eqb k' k then Some v else dict_get rest k
  end.

(** [d[k] = v]: an existing key keeps its place, a new key goes last. *)
Fixpoint dict_set (d : list (string * pyval)) (k : string) (v : pyval)
    : list (string * pyval) :=
  match d with
  | [] => [(k, v)]
  | (k', v') :: rest =>
      if String.eqb k' k then (k', v) :: rest else (k', v') :: dict_set rest k v
  end.

(** [v[k]] for a string key *)
Definition getitem (v : pyval) (k : string) : result pyval :=
  match v with
  | PDict d =>
      match dict_get d k with
      | Some x => Ok x
      | None => Raise ("'" +:+ k +:+ "'")
      end
  | PList _ => Raise "list indices must be integers or slices, not str"
  | PStr _ => Raise "string indices must be integers, not 'str'"
  | _ => Raise ("'" +:+ type_name v +:+ "' object is not subscriptable")
  end.

(** [v[k] = x] for a string key *)
Definition setitem (v : pyval) (k : string) (x : pyval) : result pyval :=
  match v with
  | PDict d => Ok (PDict (dict_set d k x))
  | PList _ => Raise "list indices must be integers or slices, not str"
  | _ => Raise ("'" +:+ type_name v +:+ "' object does not support item assignment")
  end.

(** [v.get(k, default)] *)
Definition py_get (v : pyval) (k : string) (dflt : pyval) : result pyval :=
  match v with
  | PDict d => Ok (default dflt (dict_get d k))
  | _ => Raise ("'" +:+ type_name v +:+ "' object has no attribute 'get'")
  end.

(** [v[:n]] is evaluated for logging: only its failure matters. *)
Definition check_sliceable (v : pyval) : result unit :=
  match v with
  | PStr _ | PList _ => Ok tt
  | PDict _ => Raise "unhashable type: 'slice'"
  | _ => Raise ("'" +:+ type_name v +:+ "' object is not subscriptable")
  end.

Definition is_Some_b {A : Type} (o : option A) : bool :=
  match o with Some _ => true | None => false end.

(** [l[i]] for an index that is not negative *)
Definition list_item {A : Type} (l : list A) (i : nat) : result A :=
  match l !! i with
  | Some x => Ok x
  | None => Raise "list index out of range"
  end.

(** [l[-1]] *)
Definition last_item {A : Type} (l : list A) : result A :=
  match last l with
  | Some x => Ok x
  | None => Raise "list index out of range"
  end.

End Values.

Export Values.

(** ** The browser singleton ([browser/manager.py]) *)

Module Browser.

(** What the workflow reads of a Playwright page: whether it is closed,
    and its [url] attribute, whose read may fail. *)
Record page := {
  is_closed : bool;
  url : result string
}.

(** [BrowserManager] *)
Record browser_manager := {
  _page : option page;
  _browser : option unit;
  _playwright : option unit;
  _current_site_name : option string;
  _headless_mode : bool
}.

Definition get_page (bm : browser_manager) : option page := _page bm.

Definition is_browser_open (bm : browser_manager) : bool :=
  match _page bm with
  | Some p => negb (is_closed p)
  | None => false
  end.

(** [BrowserManager.close_browser]: the three [close]/[stop] calls swallow
    their own failures; then every handle is dropped. *)
Definition close_browser (bm : browser_manager) : browser_manager * string :=
  ({| _page := None; _browser := None; _playwright := None;
      _current_site_name := None; _headless_mode := _headless_mode bm |},
   "Browser closed").

End Browser.

Export Browser.

(** ** The vector store ([langchain] collaborator) and the process state *)

Module Memory.

(** [Document] *)
Record document := {
  page_content : string;
  metadata : list (string * pyval)
}.

(** The backing store: the documents it holds and, for each document, the
    error that adding it raises, if any. *)
Record vector_store := {
  documents : list document;
  add_error : document -> option string
}.

(** [vector_db.add_documents([doc])] *)
Definition add_documents (vs : vector_store) (doc : document) : result vector_store :=
  match add_error vs doc with
  | Some e => Raise e
  | None => Ok {| documents := documents vs ++ [doc]; add_error := add_error vs |}
  end.

End Memory.

Export Memory.

Module World.

(** The process-wide singletons the workers share: [browser_manager], the
    lazily created store returned by [get_vector_db] ([None] when the
    dependencies are missing or its construction failed), and the
    environment variable [TAVILY_API_KEY]. *)
Record world := {
  browser : browser_manager;
  vector_db : option vector_store;
  tavily_api_key : option string
}.

Definition set_browser (bm : browser_manager) (w : world) : world :=
  {| browser := bm; vector_db := vector_db w; tavily_api_key := tavily_api_key w |}.

Definition set_vector_db (v : option vector_store) (w : world) : world :=
  {| browser := browser w; vector_db := v; tavily_api_key := tavily_api_key w |}.

(** A computation over a mutable store [St] that may raise; what was
    written before an exception stays written. *)
Definition ST (St A : Type) : Type := St -> result A * St.

Section ST.
Context {St : Type}.

Definition st_ret {A : Type} (a : A) : ST St A := fun w => (Ok a, w).

Definition raise {A : Type} (msg : string) : ST St A := fun w => (Raise msg, w).

Definition st_bind {A B : Type} (m : ST St A) (k : A -> ST St B) : ST St B :=
  fun w =>
    match m w with
    | (Ok a, w') => k a w'
    | (Raise e, w') => (Raise e, w')
    end.

Definition lift {A : Type} (r : result A) : ST St A := fun w => (r, w).

Definition get : ST St St := fun w => (Ok w, w).

Definition put (w' : St) : ST St unit := fun _ => (Ok tt, w').

Definition modify (f : St -> St) : ST St unit := fun w => (Ok tt, f w).

(** [try: m  except Exception as e: h e] *)
Definition try_catch {A : Type} (m : ST St A) (h : string -> ST St A) : ST St A :=
  fun w =>
    match m w with
    | (Ok a, w') => (Ok a, w')
    | (Raise e, w') => h e w'
    end.

(** [try: m  finally: f] *)
Definition try_finally {A : Type} (m : ST St A) (f : ST St unit) : ST St A :=
  fun w =>
    match m w with
    | (r, w') =>
        match f w' with
        | (Ok _, w'') => (r, w'')
        | (Raise e, w'') => (Raise e, w'')
        end
    end.

End ST.

(** The workers run over the singletons. *)
Abbreviation M := (ST world).

(** The answer of an external call (a model invocation with its tool
    loop): what it returns or raises, and the browser it leaves behind. *)
Record attempt (A : Type) := {
  outcome : result A;
  browser_after : browser_manager
}.
Arguments outcome {A} a.
Arguments browser_after {A} a.

Definition call {A : Type} (a : attempt A) : M A :=
  fun w => (outcome a, set_browser (browser_after a) w).

End World.

Export World.

#[export] Instance ST_ret {St : Type} : MRet (ST St) := @st_ret St.
#[export] Instance ST_bind {St : Type} : MBind (ST St) := fun A B k m => st_bind m k.

(** ** The workflow state ([AgentState]) and the commands of the workers *)

Module State.

Inductive role : Type :=
| Human
| AI
| Chat (name : string).

(** [HumanMessage], [AIMessage], [ChatMessage] *)
Record message := {
  msg_role : role;
  content : pyval
}.

(** A message content is a string or a list of strings and dicts; the
    message classes reject any other value. *)
Definition valid_content (v : pyval) : bool :=
  match v with
  | PStr _ => true
  | PList l =>
      forallb (fun x => match x with PStr _ | PDict _ => true | _ => false end) l
  | _ => false
  end.

Definition new_message (r : role) (v : pyval) : result message :=
  if valid_content v then Ok {| msg_role := r; content := v |}
  else Raise "1 validation error for message content".

Definition text_message (r : role) (s : string) : message :=
  {| msg_role := r; content := PStr s |}.

(** [AgentState] *)
Record AgentState := {
  user_input : string;
  urls : list pyval;
  site_names : list pyval;
  step_index : nat;
  plan : list pyval;
  messages : list message;
  execution_messages : list message;
  rag_messages : list message;
  output_agent_messages : list message;
  output_content : list pyval;
  Output : string;
  last_error : option string;
  current_model_index : nat;
  llm_provider : option string
}.

Inductive node : Type :=
| planner
| executor
| output_agent
| redirector_node
| rag_agent
| END.

(** The partial state a worker returns.  A key the worker leaves out is
    [None]; for the list channels that are only ever extended, leaving the
    key out and giving the empty list have the same effect. *)
Record update := {
  u_plan : option (list pyval);
  u_step_index : option nat;
  u_last_error : option (option string);
  u_urls : option pyval;
  u_site_names : option pyval;
  u_current_model_index : option nat;
  u_messages : list message;
  u_execution_messages : list message;
  u_rag_messages : list message;
  u_output_agent_messages : list message;
  u_output_content : list pyval;
  u_Output : option string
}.

Definition no_update : update :=
  {| u_plan := None; u_step_index := None; u_last_error := None;
     u_urls := None; u_site_names := None; u_current_model_index := None;
     u_messages := []; u_execution_messages := []; u_rag_messages := [];
     u_output_agent_messages := []; u_output_content := []; u_Output := None |}.


(** The keys of a dict literal [{key: value, ...}], one setter per key. *)
Definition with_plan (x : list pyval) (u : update) : update :=
  {| u_plan := Some x; u_step_index := u_step_index u; u_last_error := u_last_error u;
     u_urls := u_urls u; u_site_names := u_site_names u;
     u_current_model_index := u_current_model_index u; u_messages := u_messages u;
     u_execution_messages := u_execution_messages u; u_rag_messages := u_rag_messages u;
     u_output_agent_messages := u_output_agent_messages u;
     u_output_content := u_output_content u; u_Output := u_Output u |}.

Definition with_step_index (x : nat) (u : update) : update :=
  {| u_plan := u_plan u; u_step_index := Some x; u_last_error := u_last_error u;
     u_urls := u_urls u; u_site_names := u_site_names u;
     u_current_model_index := u_current_model_index u; u_messages := u_messages u;
     u_execution_messages := u_execution_messages u; u_rag_messages := u_rag_messages u;
     u_output_agent_messages := u_output_agent_messages u;
     u_output_content := u_output_content u; u_Output := u_Output u |}.

Definition with_last_error (x : option string) (u : update) : update :=
  {| u_plan := u_plan u; u_step_index := u_step_index u; u_last_error := Some x;
     u_urls := u_urls u; u_site_names := u_site_names u;
     u_current_model_index := u_current_model_index u; u_messages := u_messages u;
     u_execution_messages := u_execution_messages u; u_rag_messages := u_rag_messages u;
     u_output_agent_messages := u_output_agent_messages u;
     u_output_content := u_output_content u; u_Output := u_Output u |}.

Definition with_urls (x : pyval) (u : update) : update :=
  {| u_plan := u_plan u; u_step_index := u_step_index u; u_last_error := u_last_error u;
     u_urls := Some x; u_site_names := u_site_names u;
     u_current_model_index := u_current_model_index u; u_messages := u_messages u;
     u_execution_messages := u_execution_messages u; u_rag_messages := u_rag_messages u;
     u_output_agent_messages := u_output_agent_messages u;
     u_output_content := u_output_content u; u_Output := u_Output u |}.

Definition with_site_names (x : pyval) (u : update) : update :=
  {| u_plan := u_plan u; u_step_index := u_step_index u; u_last_error := u_last_error u;
     u_urls := u_urls u; u_site_names := Some x;
     u_current_model_index := u_current_model_index u; u_messages := u_messages u;
     u_execution_messages := u_execution_messages u; u_rag_messages := u_rag_messages u;
     u_output_agent_messages := u_output_agent_messages u;
     u_output_content := u_output_content u; u_Output := u_Output u |}.

Definition with_current_model_index (x : nat) (u : update) : update :=
  {| u_plan := u_plan u; u_step_index := u_step_index u; u_last_error := u_last_error u;
     u_urls := u_urls u; u_site_names := u_site_names u; u_current_model_index := Some x;
     u_messages := u_messages u; u_execution_messages := u_execution_messages u;
     u_rag_messages := u_rag_messages u;
     u_output_agent_messages := u_output_agent_messages u;
     u_output_content := u_output_content u; u_Output := u_Output u |}.

Definition with_messages (x : list message) (u : update) : update :=
  {| u_plan := u_plan u; u_step_index := u_step_index u; u_last_error := u_last_error u;
     u_urls := u_urls u; u_site_names := u_site_names u;
     u_current_model_index := u_current_model_index u; u_messages := x;
     u_execution_messages := u_execution_messages u; u_rag_messages := u_rag_messages u;
     u_output_agent_messages := u_output_agent_messages u;
     u_output_content := u_output_content u; u_Output := u_Output u |}.

Definition with_execution_messages (x : list message) (u : update) : update :=
  {| u_plan := u_plan u; u_step_index := u_step_index u; u_last_error := u_last_error u;
     u_urls := u_urls u; u_site_names := u_site_names u;
     u_current_model_index := u_current_model_index u; u_messages := u_messages u;
     u_execution_messages := x; u_rag_messages := u_rag_messages u;
     u_output_agent_messages := u_output_agent_messages u;
     u_output_content := u_output_content u; u_Output := u_Output u |}.

Definition with_rag_messages (x : list message) (u : update) : update :=
  {| u_plan := u_plan u; u_step_index := u_step_index u; u_last_error := u_last_error u;
     u_urls := u_urls u; u_site_names := u_site_names u;
     u_current_model_index := u_current_model_index u; u_messages := u_messages u;
     u_execution_messages := u_execution_messages u; u_rag_messages := x;
     u_output_agent_messages := u_output_agent_messages u;
     u_output_content := u_output_content u; u_Output := u_Output u |}.

Definition with_output_agent_messages (x : list message) (u : update) : update :=
  {| u_plan := u_plan u; u_step_index := u_step_index u; u_last_error := u_last_error u;
     u_urls := u_urls u; u_site_names := u_site_names u;
     u_current_model_index := u_current_model_index u; u_messages := u_messages u;
     u_execution_messages := u_execution_messages u; u_rag_messages := u_rag_messages u;
     u_output_agent_messages := x; u_output_content := u_output_content u;
     u_Output := u_Output u |}.

Definition with_output_content (x : list pyval) (u : update) : update :=
  {| u_plan := u_plan u; u_step_index := u_step_index u; u_last_error := u_last_error u;
     u_urls := u_urls u; u_site_names := u_site_names u;
     u_current_model_index := u_current_model_index u; u_messages := u_messages u;
     u_execution_messages := u_execution_messages u; u_rag_messages := u_rag_messages u;
     u_output_agent_messages := u_output_agent_messages u; u_output_content := x;
     u_Output := u_Output u |}.

Definition with_Output (x : string) (u : update) : update :=
  {| u_plan := u_plan u; u_step_index := u_step_index u; u_last_error := u_last_error u;
     u_urls := u_urls u; u_site_names := u_site_names u;
     u_current_model_index := u_current_model_index u; u_messages := u_messages u;
     u_execution_messages := u_execution_messages u; u_rag_messages := u_rag_messages u;
     u_output_agent_messages := u_output_agent_messages u;
     u_output_content := u_output_content u; u_Output := Some x |}.

(** [Command(goto=..., update=...)] *)
Record Command := {
  goto : node;
  cmd_update : update
}.

(** [operator.add] on a list channel and the value of an update *)
Definition add_list (old : list pyval) (new : option pyval) : result (list pyval) :=
  match new with
  | None => Ok old
  | Some (PList l) => Ok (old ++ l)
  | Some v =>
      Raise ("can only concatenate list (not " +:+ String (Ascii.ascii_of_nat 34) (type_name v)
             +:+ String (Ascii.ascii_of_nat 34) ") to list")
  end.

(** The reducers declared by [AgentState]: [operator.add] for the
    annotated lists, [add_messages] for [messages], replacement for the
    other keys. *)
Definition apply_update (s : AgentState) (u : update) : result AgentState :=
  new_urls ← add_list (urls s) (u_urls u);
  new_sites ← add_list (site_names s) (u_site_names u);
  mret {| user_input := user_input s;
          urls := new_urls;
          site_names := new_sites;
          step_index := default (step_index s) (u_step_index u);
          plan := default (plan s) (u_plan u);
          messages := messages s ++ u_messages u;
          execution_messages := execution_messages s ++ u_execution_messages u;
          rag_messages := rag_messages s ++ u_rag_messages u;
          output_agent_messages := output_agent_messages s ++ u_output_agent_messages u;
          output_content := output_content s ++ u_output_content u;
          Output := default (Output s) (u_Output u);
          last_error := default (last_error s) (u_last_error u);
          current_model_index := default (current_model_index s) (u_current_model_index u);
          llm_provider := llm_provider s |}.

End State.

Export State.

(** ** Workers *)

Module Orchestration.

Section Workers.
Context `{!Builtins}.

(** [get_current_browser_info] (the same text in [orchestration.py] and in
    [agents/planner.py]) *)
Definition get_current_browser_info (bm : browser_manager) : result (string * string) :=
  let page := get_page bm in
  match page with
  | Some p =>
      if negb (is_closed p) then
        try_except
          (current_url ← url p;
           netloc ← urlparse_netloc current_url;
           let site_name := replace "www." "" netloc in
           let site_name :=
             if String.eqb site_name "" then "local_or_unknown" else site_name in
           mret (current_url, site_name))
          (fun _ => Ok ("unknown_url", "unknown_site"))
      else Ok ("unknown_url", "unknown_site")
  | None => Ok ("unknown_url", "unknown_site")
  end.

(** [redirector].  [log_slice] tells whether the step is also logged with
    [step['query'][:80]], as [orchestration.py] does and
    [agents/redirector.py] does not. *)
Definition redirector_of (log_slice : bool) (state : AgentState) : result Command :=
  let index := step_index state in
  if (length (plan state) <=? index)%nat then
    Ok {| goto := END; cmd_update := no_update |}
  else
    step ← list_item (plan state) index;
    agent ← getitem step "agent";
    query ← getitem step "query";
    (if log_slice then check_sliceable query else Ok tt);;
    if eq_str agent "PLANNER" then
      Ok {| goto := planner;
            cmd_update :=
              with_step_index 0
                (with_messages
                   [text_message Human
                      "Phase 1 complete. Data extracted. Please plan Phase 2."]
                   no_update) |}
    else if eq_str agent "RAG" then
      rag_message ← getitem step "rag_message";
      let message_content := if truthy rag_message then rag_message else query in
      new_msg ← new_message Human message_content;
      Ok {| goto := rag_agent;
            cmd_update :=
              with_step_index (index + 1) (with_rag_messages [new_msg] no_update) |}
    else if eq_str agent "EXECUTION" then
      new_msg ← new_message Human query;
      Ok {| goto := executor;
            cmd_update :=
              with_step_index (index + 1)
                (with_execution_messages [new_msg] no_update) |}
    else if eq_str agent "OUTPUT_FORMATTING" then
      new_msg ← new_message Human query;
      content_to_append ← py_get step "content" (PStr "");
      let new_content_list :=
        if truthy content_to_append
        then output_content state ++ [content_to_append]
        else output_content state in
      Ok {| goto := output_agent;
            cmd_update :=
              with_step_index (index + 1)
                (with_output_agent_messages [new_msg]
                   (with_output_content new_content_list no_update)) |}
    else if eq_str agent "end" then
      Ok {| goto := END;
            cmd_update :=
              with_plan [] (with_step_index 0 no_update) |}
    else
      let error_msg :=
        "Error at step " +:+ str_nat index +:+ ": Unknown agent " +:+ py_str agent in
      Ok {| goto := planner;
            cmd_update :=
              with_messages [text_message (Chat "redirector") error_msg] no_update |}.

Definition redirector : AgentState -> result Command := redirector_of true.

(** [f"{v[:n]}"] *)
Definition format_slice (n : nat) (v : pyval) : result string :=
  match v with
  | PStr t => Ok (take_str n t)
  | PList l => Ok (py_repr (PList (take n l)))
  | _ => check_sliceable v;; Ok ""
  end.

(** [rag] (the same text in [orchestration.py] and in [agents/rag.py]) *)
Definition rag (state : AgentState) : M Command :=
  rag_msg ← lift (last_item (rag_messages state));
  let rag_content := content rag_msg in
  w ← get;
  '(url, site_name) ← lift (get_current_browser_info (browser w));
  let index := step_index state in
  '(task, agent) ← lift
    (if (index <? length (plan state))%nat then
       step ← list_item (plan state) index;
       task ← getitem step "query";
       agent ← getitem step "agent";
       mret (task, agent)
     else mret (PStr "Unknown", PStr "Unknown"));
  let doc :=
    {| page_content := py_str rag_content;
       metadata := [("url", PStr url); ("site_name", PStr site_name);
                    ("task", task); ("agent", agent)] |} in
  match vector_db w with
  | Some vs =>
      vs' ← lift (add_documents vs doc);
      modify (set_vector_db (Some vs'))
  | None => mret tt
  end;;
  shown ← lift (format_slice 50 rag_content);
  mret {| goto := redirector_node;
          cmd_update :=
            with_messages
              [text_message (Chat "RAG Agent") ("Memory Saved: '" +:+ shown +:+ "...'")]
              no_update |}.

(** *** Execution worker *)

(** [AgentExecutor.invoke] result: its ["output"] and, if present, its
    ["intermediate_steps"] as pairs of a tool name and an observation. *)
Record agent_result := {
  res_output : option string;
  res_intermediate_steps : option (list (string * pyval))
}.

Definition failure_keywords : list string :=
  ["unable"; "error"; "couldn't"; "failed"; "execution failed"].

(** [next((w for w in keywords if w in output_lower), None)] *)
Definition trigger_word (output_lower : string) : option string :=
  find (fun w => contains w output_lower) failure_keywords.

Definition extraction_tools : list string :=
  ["scrape_data_using_text"; "analyze_using_vision"; "extract_and_analyze_selectors"].

Fixpoint collect_extracted (steps : list (string * pyval)) : list pyval :=
  match steps with
  | [] => []
  | (tool, observation) :: rest =>
      if existsb (String.eqb tool) extraction_tools then
        let text := match observation with
                    | PDict _ | PList _ => json_dumps observation
                    | _ => py_str observation
                    end in
        PStr text :: collect_extracted rest
      else collect_extracted rest
  end.

Definition any_in (patterns : list string) (text : string) : bool :=
  existsb (fun p => contains p text) patterns.

Definition execution_rate_limit : list string :=
  ["429"; "413"; "rate limit"; "quota"; "resource_exhausted"; "request too large"].

Definition execution_tool_error : list string :=
  ["failed to call a function"; "tool_call"; "model_not_found"; "does not exist"].

(** The failures after which [execution_agent] tries the next model. *)
Definition rotates_on (e : string) : bool :=
  any_in execution_rate_limit (lower e) || any_in execution_tool_error (lower e).

(** [f"{last_error}"] for a local that starts as [None] *)
Definition str_opt (e : option string) : string := default "None" e.

(** What follows a successful [agent_executor.invoke] in the [try]. *)
Definition execution_success (start_index len idx : nat) (r : agent_result) : Command :=
  let successful_index := ((start_index + idx) `mod` len)%nat in
  let output_text := default "" (res_output r) in
  let output_lower := lower output_text in
  if is_Some_b (trigger_word output_lower) && negb (contains "no error" output_lower) then
    {| goto := planner;
       cmd_update :=
         with_last_error (Some output_text)
           (with_current_model_index successful_index no_update) |}
  else
    let new_msg := text_message (Chat "execution_agent") output_text in
    let extracted_data := match res_intermediate_steps r with
                          | Some steps => collect_extracted steps
                          | None => []
                          end in
    let extracted_data :=
      if bool_decide (extracted_data = []) && (20 <? String.length output_text)%nat
         && (contains "{" output_text || contains "[" output_text)
      then [PStr output_text] else extracted_data in
    {| goto := redirector_node;
       cmd_update :=
         with_execution_messages [new_msg]
           (with_messages [new_msg]
              (with_current_model_index successful_index
                 (with_output_content extracted_data no_update))) |}.

(** The [for idx, (model_name, current_llm) in enumerate(llm_rotation)]
    loop of [execution_agent], entered at position [idx]. *)
Fixpoint execution_loop (state : AgentState) (invoke : nat -> attempt agent_result)
    (start_index len idx : nat) (rotation : list (string * llm))
    (last_err : option string) : M Command :=
  match rotation with
  | [] =>
      let final_msg :=
        text_message (Chat "execution_agent")
          ("All API keys exhausted due to rate limits. Last error: " +:+ str_opt last_err) in
      mret {| goto := END;
              cmd_update :=
                with_messages [final_msg]
                  (with_last_error (Some ("ALL KEYS EXHAUSTED: " +:+ str_opt last_err))
                     no_update) |}
  | _ :: rest =>
      try_catch
        (r ← call (invoke idx);
         mret (execution_success start_index len idx r))
        (fun e =>
           let error_str := lower e in
           if any_in execution_rate_limit error_str then
             execution_loop state invoke start_index len (S idx) rest (Some e)
           else if any_in execution_tool_error error_str then
             execution_loop state invoke start_index len (S idx) rest (Some e)
           else
             let error_msg := "AGENT CRASHED: " +:+ e in
             let new_msg := text_message (Chat "execution_agent") error_msg in
             mret {| goto := planner;
                     cmd_update :=
                       with_execution_messages [new_msg]
                         (with_messages [new_msg]
                            (with_step_index (step_index state)
                               (with_last_error (Some error_msg) no_update))) |})
  end.

(** [os.getenv("TAVILY_API_KEY")] and the check that follows it *)
Definition require_tavily_key : M unit :=
  w ← get;
  match tavily_api_key w with
  | Some k =>
      if String.eqb k "" then raise "TAVILY_API_KEY not found in environment variables"
      else mret tt
  | None => raise "TAVILY_API_KEY not found in environment variables"
  end.

(** [execution_agent].  [execution_rotation] is the answer of
    [LLMConfig.get_execution_llm_with_rotation(start_index,
    provider=provider)]: in the repository as it stands that is
    [get_execution_llm_with_rotation], which raises. *)
Definition execution_agent (execution_rotation : result (list (string * llm)))
    (invoke : nat -> attempt agent_result) (state : AgentState) : M Command :=
  task_msg ← lift (last_item (execution_messages state));
  match content task_msg with
  | PStr _ => mret tt
  | PList _ => raise "'list' object has no attribute 'replace'"
  | v => lift (check_sliceable v)
  end;;
  require_tavily_key;;
  let start_index := current_model_index state in
  llm_rotation ← lift execution_rotation;
  execution_loop state invoke start_index (length llm_rotation) 0 llm_rotation None.

(** *** Output formatter *)

Definition formatting_rate_limit : list string :=
  ["429"; "rate limit"; "quota"; "resource_exhausted"].

Fixpoint formatting_loop (invoke : nat -> attempt string)
    (start_index len idx : nat) (rotation : list (string * llm))
    (last_err : option string) : M Command :=
  match rotation with
  | [] =>
      mret {| goto := redirector_node;
              cmd_update := with_Output ("Formatting failed: " +:+ str_opt last_err) no_update |}
  | _ :: rest =>
      try_catch
        (formatted_output ← call (invoke idx);
         let successful_index := ((start_index + idx) `mod` len)%nat in
         mret {| goto := redirector_node;
                 cmd_update :=
                   with_Output formatted_output
                     (with_current_model_index successful_index no_update) |})
        (fun e =>
           let error_str := lower e in
           if any_in formatting_rate_limit error_str then
             formatting_loop invoke start_index len (S idx) rest (Some e)
           else
             mret {| goto := redirector_node;
                     cmd_update := with_Output ("Formatting failed: " +:+ e) no_update |})
  end.

(** [output_formatting_agent] *)
Definition output_formatting_agent (LLMConfig : router)
    (invoke : nat -> attempt string) (state : AgentState) : M Command :=
  lift (last_item (output_agent_messages state));;
  let start_index := current_model_index state in
  llm_rotation ← lift (get_main_llm_with_rotation LLMConfig start_index (llm_provider state));
  formatting_loop invoke start_index (length llm_rotation) 0 llm_rotation None.

(** *** Planner *)

(** The points where [central_agent1] of [orchestration.py] and its copy
    in [agents/planner.py] differ. *)
Record planner_variant := {
  (** [if not tavily_key: raise ValueError(...)] *)
  checks_tavily_key : bool;
  (** [msg.content if msg.content is not None else ""] *)
  accepts_none_content : bool;
  (** [if not raw_output: raise ValueError(...)] *)
  rejects_empty_output : bool;
  (** [for s in new_steps: logger.debug(... s.get('query','?')[:80] ...)] *)
  logs_new_steps : bool;
  (** the signatures after which the next candidate is tried *)
  retry_signatures : list string;
  (** [detected_urls if 'detected_urls' in locals() else []] *)
  guards_fallback_locals : bool
}.

Definition orchestration_variant : planner_variant :=
  {| checks_tavily_key := true;
     accepts_none_content := true;
     rejects_empty_output := true;
     logs_new_steps := true;
     retry_signatures :=
       ["429"; "413"; "rate limit"; "quota"; "resource_exhausted";
        "request too large"; "empty output"];
     guards_fallback_locals := true |}.

Definition agents_variant : planner_variant :=
  {| checks_tavily_key := false;
     accepts_none_content := false;
     rejects_empty_output := false;
     logs_new_steps := false;
     retry_signatures := ["429"; "rate limit"; "quota"; "resource_exhausted"];
     guards_fallback_locals := false |}.

(** What the rotation loop of the planner can change and an exception
    does not undo: the singletons, the step dicts of the current plan
    (which [completed_steps] and [final_plan] share with it), and the
    locals the fall-back reads. *)
Record frame := {
  f_world : world;
  f_current_plan : list pyval;
  f_detected_urls : option pyval;
  f_detected_sites : option pyval;
  f_new_steps : option (list pyval)
}.

Definition set_world (w : world) (f : frame) : frame :=
  {| f_world := w; f_current_plan := f_current_plan f;
     f_detected_urls := f_detected_urls f; f_detected_sites := f_detected_sites f;
     f_new_steps := f_new_steps f |}.

Definition set_current_plan (p : list pyval) (f : frame) : frame :=
  {| f_world := f_world f; f_current_plan := p;
     f_detected_urls := f_detected_urls f; f_detected_sites := f_detected_sites f;
     f_new_steps := f_new_steps f |}.

Definition set_detected_urls (v : pyval) (f : frame) : frame :=
  {| f_world := f_world f; f_current_plan := f_current_plan f;
     f_detected_urls := Some v; f_detected_sites := f_detected_sites f;
     f_new_steps := f_new_steps f |}.

Definition set_detected_sites (v : pyval) (f : frame) : frame :=
  {| f_world := f_world f; f_current_plan := f_current_plan f;
     f_detected_urls := f_detected_urls f; f_detected_sites := Some v;
     f_new_steps := f_new_steps f |}.

Definition set_new_steps (l : list pyval) (f : frame) : frame :=
  {| f_world := f_world f; f_current_plan := f_current_plan f;
     f_detected_urls := f_detected_urls f; f_detected_sites := f_detected_sites f;
     f_new_steps := Some l |}.

Definition in_world {A : Type} (m : M A) : ST frame A :=
  fun f => match m (f_world f) with (r, w') => (r, set_world w' f) end.

(** Run a computation of the planner's loop from its entry frame. *)
Definition with_frame {A : Type} (current_plan : list pyval) (m : ST frame A) : M A :=
  fun w =>
    match m {| f_world := w; f_current_plan := current_plan;
               f_detected_urls := None; f_detected_sites := None;
               f_new_steps := None |} with
    | (r, f) => (r, f_world f)
    end.

(** [if last_error:] *)
Definition truthy_opt (e : option string) : bool :=
  match e with
  | Some t => negb (String.eqb t "")
  | None => false
  end.

(** [for i, step in enumerate(final_plan): step['step_number'] = i + 1],
    entered at position [i]: the list as the loop leaves it, and the
    exception that stopped it, if any. *)
Fixpoint renumber (i : nat) (l : list pyval) : list pyval * option string :=
  match l with
  | [] => ([], None)
  | step :: rest =>
      match setitem step "step_number" (PInt (Z.of_nat (i + 1))) with
      | Ok step' =>
          match renumber (S i) rest with
          | (rest', e) => (step' :: rest', e)
          end
      | Raise e => (step :: rest, Some e)
      end
  end.

(** The keys read from each listed step while the prompt is built. *)
Fixpoint read_steps (keys : list string) (steps : list pyval) : result unit :=
  match steps with
  | [] => Ok tt
  | step :: rest =>
      (fix read (ks : list string) : result unit :=
         match ks with
         | [] => Ok tt
         | k :: ks' => getitem step k;; read ks'
         end) keys;;
      read_steps keys rest
  end.

Fixpoint log_new_steps (new_steps : list pyval) : result unit :=
  match new_steps with
  | [] => Ok tt
  | s :: rest =>
      py_get s "step_number" (PStr "?");;
      py_get s "agent" (PStr "?");;
      query ← py_get s "query" (PStr "?");
      check_sliceable query;;
      log_new_steps rest
  end.

Fixpoint sanitize_history (v : planner_variant) (msgs : list message) : result unit :=
  match msgs with
  | [] => Ok tt
  | msg :: rest =>
      match content msg with
      | PStr _ => Ok tt
      | PNone =>
          if accepts_none_content v then Ok tt
          else Raise "'NoneType' object has no attribute 'replace'"
      | c => Raise ("'" +:+ type_name c +:+ "' object has no attribute 'replace'")
      end;;
      sanitize_history v rest
  end.

(** "Store error resolution in RAG": best effort. *)
Definition save_error_resolution (state : AgentState) (new_steps : list pyval) : M unit :=
  w ← get;
  match vector_db w with
  | Some vs =>
      try_catch
        ('(url, site_name) ← lift (get_current_browser_info (browser w));
         first ← lift (list_item new_steps 0);
         fix_action ← lift (py_get first "query" (PStr "Unknown Action"));
         let rag_content :=
           "Error Encountered: " +:+ str_opt (last_error state) +:+
           "\nSuccessful Fix/Next Step: " +:+ py_str fix_action in
         let doc :=
           {| page_content := rag_content;
              metadata := [("url", PStr url); ("site_name", PStr site_name);
                           ("type", PStr "error_resolution");
                           ("related_step_index", PInt (Z.of_nat (step_index state)))] |} in
         vs' ← lift (add_documents vs doc);
         modify (set_vector_db (Some vs')))
        (fun _ => mret tt)
  | None => mret tt
  end.

(** "Parse response": from the model call to the new steps; the locals the
    fall-back reads are assigned on the way. *)
Definition parse_response (v : planner_variant) (invoke : nat -> attempt (option string))
    (idx : nat) : ST frame (pyval * pyval * list pyval) :=
  response ← in_world (call (invoke idx));
  raw_output ←
    match response with
    | Some t =>
        if rejects_empty_output v && String.eqb t ""
        then raise "Planner LLM returned empty output — retrying with next key"
        else mret t
    | None =>
        if rejects_empty_output v
        then raise "Planner LLM returned empty output — retrying with next key"
        else raise "expected string or bytes-like object, got 'NoneType'"
    end;
  result ← lift (load_json raw_output);
  detected_urls ← lift (py_get result "target_urls" (PList []));
  modify (set_detected_urls detected_urls);;
  detected_sites ← lift (py_get result "site_names" (PList []));
  modify (set_detected_sites detected_sites);;
  steps ← lift (py_get result "steps" result);
  let new_steps := match steps with PList l => l | _ => [] end in
  modify (set_new_steps new_steps);;
  mret (detected_urls, detected_sites, new_steps).

(** "Combine with completed steps": the plan is numbered in place, then
    returned.  [keep] is the bound of the slice [current_plan[:current_index]]
    that gave [completed_steps] (0 outside error recovery). *)
Definition combine_with_completed (v : planner_variant) (keep successful_index : nat)
    (detected_urls detected_sites : pyval) (new_steps : list pyval) : ST frame update :=
  f ← get;
  let completed_steps := take keep (f_current_plan f) in
  let final_plan := completed_steps ++ new_steps in
  match renumber 0 final_plan with
  | (numbered, stopped) =>
      modify (set_current_plan
                (take (length completed_steps) numbered ++
                 drop (length completed_steps) (f_current_plan f)));;
      modify (set_new_steps (drop (length completed_steps) numbered));;
      match stopped with
      | Some e => raise e
      | None =>
          (if logs_new_steps v
           then lift (log_new_steps (drop (length completed_steps) numbered))
           else mret tt);;
          mret (with_plan numbered
                  (with_step_index (length completed_steps)
                     (with_last_error None
                        (with_urls detected_urls
                           (with_site_names detected_sites
                              (with_current_model_index successful_index
                                 (with_messages
                                    [text_message Human
                                       ("[Planner]: Plan updated. Phase steps: " +:+
                                        str_nat (length new_steps) +:+ ".")]
                                    no_update)))))))
      end
  end.

(** The body of the [try] for the candidate at position [idx]. *)
Definition planner_attempt (v : planner_variant) (state : AgentState) (keep : nat)
    (invoke : nat -> attempt (option string)) (start_index len idx : nat)
    : ST frame update :=
  '(detected_urls, detected_sites, new_steps) ← parse_response v invoke idx;
  let successful_index := ((start_index + idx) `mod` len)%nat in
  (if truthy_opt (last_error state) && (0 <? length new_steps)%nat
   then in_world (save_error_resolution state new_steps)
   else mret tt);;
  combine_with_completed v keep successful_index detected_urls detected_sites new_steps.

(** The rotation loop: [Some u] when a candidate made the planner return
    [u], [None] when the loop ended (exhausted, or left by [break]). *)
Fixpoint planner_loop (v : planner_variant) (state : AgentState) (keep : nat)
    (invoke : nat -> attempt (option string)) (start_index len idx : nat)
    (rotation : list (string * llm)) : ST frame (option update) :=
  match rotation with
  | [] => mret None
  | _ :: rest =>
      try_catch
        (u ← planner_attempt v state keep invoke start_index len idx;
         mret (Some u))
        (fun e =>
           let error_str := lower e in
           if any_in (retry_signatures v) error_str
           then planner_loop v state keep invoke start_index len (S idx) rest
           else mret None)
  end.

Definition read_local {A : Type} (guarded : bool) (name : string) (dflt : A)
    (x : option A) : result A :=
  match x with
  | Some a => Ok a
  | None =>
      if guarded then Ok dflt
      else Raise ("cannot access local variable '" +:+ name +:+
                  "' where it is not associated with a value")
  end.

(** "All keys exhausted": the return after the loop. *)
Definition planner_fallback (v : planner_variant) (keep : nat) : ST frame update :=
  f ← get;
  let final_plan := f_current_plan f in
  let completed_steps := take keep (f_current_plan f) in
  detected_urls ← lift (read_local (guards_fallback_locals v) "detected_urls"
                          (PList []) (f_detected_urls f));
  detected_sites ← lift (read_local (guards_fallback_locals v) "detected_sites"
                           (PList []) (f_detected_sites f));
  text ←
    (if guards_fallback_locals v
     then mret "[Planner]: Planning failed. Using existing plan."
     else
       new_steps ← lift (read_local false "new_steps" [] (f_new_steps f));
       mret ("[Planner]: Plan updated. Phase steps: " +:+
             str_nat (length new_steps) +:+ "."));
  mret (with_plan final_plan
          (with_step_index (length completed_steps)
             (with_last_error None
                (with_urls detected_urls
                   (with_site_names detected_sites
                      (with_messages [text_message Human text] no_update)))))).

Definition data_driven (state : AgentState) : bool :=
  negb (bool_decide (output_content state = [])) && (step_index state =? 0)%nat.

Definition error_recovery (state : AgentState) : bool :=
  negb (data_driven state) && truthy_opt (last_error state).

(** What [central_agent1] does before its rotation loop: the steps it reads
    for the prompt of its mode, the rotation, the search key, the message
    history.  The text of the prompt goes to the model, whose answers are
    the argument [invoke] of the loop; of the code that builds it only what
    can raise is kept. *)
Definition planner_prologue (v : planner_variant) (LLMConfig : router)
    (state : AgentState) : M (list (string * llm)) :=
  let current_plan := plan state in
  let current_index := step_index state in
  lift (if data_driven state
        then read_steps ["step_number"; "query"; "agent"] current_plan
        else if error_recovery state
        then read_steps ["step_number"; "query"] (take current_index current_plan)
        else Ok tt);;
  let start_index := current_model_index state in
  llm_rotation ← lift (get_main_llm_with_rotation LLMConfig start_index (llm_provider state));
  (if checks_tavily_key v then require_tavily_key else mret tt);;
  lift (sanitize_history v (messages state));;
  mret llm_rotation.

(** [len(completed_steps)] is taken from [current_plan[:keep]]. *)
Definition retained (state : AgentState) : nat :=
  if error_recovery state then step_index state else 0%nat.

(** [central_agent1] *)
Definition central_agent1_of (v : planner_variant) (LLMConfig : router)
    (invoke : nat -> attempt (option string)) (state : AgentState) : M update :=
  llm_rotation ← planner_prologue v LLMConfig state;
  with_frame (plan state)
    (done ← planner_loop v state (retained state) invoke (current_model_index state)
              (length llm_rotation) 0 llm_rotation;
     match done with
     | Some u => mret u
     | None => planner_fallback v (retained state)
     end).

Definition central_agent1 : router -> (nat -> attempt (option string)) ->
                            AgentState -> M update :=
  central_agent1_of orchestration_variant.

(** *** The graph ([create_agent]) and the entry point ([run_agent]) *)

(** The answers of the external collaborators during one node run. *)
Record env := {
  planner_invoke : nat -> attempt (option string);
  execution_rotation : result (list (string * llm));
  execution_invoke : nat -> attempt agent_result;
  formatter_invoke : nat -> attempt string
}.

(** One node of the graph.  The planner returns a plain update and has
    the static edge to the redirector; the other workers return a
    [Command]. *)
Definition run_node (LLMConfig : router) (e : env) (n : node) (s : AgentState)
    : M Command :=
  match n with
  | planner =>
      u ← central_agent1 LLMConfig (planner_invoke e) s;
      mret {| goto := redirector_node; cmd_update := u |}
  | redirector_node => lift (redirector s)
  | executor => execution_agent (execution_rotation e) (execution_invoke e) s
  | output_agent => output_formatting_agent LLMConfig (formatter_invoke e) s
  | rag_agent => rag s
  | END => mret {| goto := END; cmd_update := no_update |}
  end.

(** [app.invoke(state)]: nodes run one after the other from the entry
    edge [START -> planner] until [END]; the graph library raises once
    [recursion_limit] nodes have run without reaching it. *)
Fixpoint invoke_from (LLMConfig : router) (envs : nat -> env) (recursion_limit : nat)
    (step_no : nat) (n : node) (s : AgentState) : M AgentState :=
  match n with
  | END => mret s
  | _ =>
      match recursion_limit with
      | O => raise "Recursion limit reached without hitting a stop condition"
      | S limit =>
          cmd ← run_node LLMConfig (envs step_no) n s;
          s' ← lift (apply_update s (cmd_update cmd));
          invoke_from LLMConfig envs limit (S step_no) (goto cmd) s'
      end
  end.

Definition initial_state (input_str : string) : AgentState :=
  {| user_input := input_str;
     site_names := [];
     urls := [];
     plan := [];
     messages := [];
     step_index := 0;
     execution_messages := [];
     rag_messages := [];
     output_agent_messages := [];
     output_content := [];
     Output := "";
     last_error := None;
     current_model_index := 0;
     llm_provider := None |}.

(** [run_agent]: the dict it returns, as its list of items. *)
Definition run_agent (LLMConfig : router) (envs : nat -> env) (recursion_limit : nat)
    (input_str : string) : M (list (string * string)) :=
  let state := initial_state input_str in
  try_finally
    (try_catch
       (response ← invoke_from LLMConfig envs recursion_limit 0 planner state;
        mret [("output", Output response)])
       (fun e => mret [("error", "Error during agent running: " +:+ e)]))
    (w ← get;
     if is_browser_open (browser w)
     then modify (set_browser (fst (close_browser (browser w))))
     else mret tt).

(** The states a run passes through, each with the node about to run. *)
Inductive reachable (LLMConfig : router) : node -> AgentState -> world -> Prop :=
| reach_start input_str w :
    reachable LLMConfig planner (initial_state input_str) w
| reach_step n s w e cmd w' s' :
    reachable LLMConfig n s w ->
    run_node LLMConfig e n s w = (Ok cmd, w') ->
    apply_update s (cmd_update cmd) = Ok s' ->
    reachable LLMConfig (goto cmd) s' w'.

End Workers.

End Orchestration.

Export Orchestration.

(** ** The copies under [agents/] *)

Module Agents.

Section Workers.
Context `{!Builtins}.

(** [agents/planner.py] *)
Definition central_agent1 : router -> (nat -> attempt (option string)) ->
                            AgentState -> M update :=
  central_agent1_of agents_variant.

(** [agents/redirector.py] *)
Definition redirector : AgentState -> result Command := redirector_of false.

End Workers.

End Agents.

(** ** Key loading ([llm/rate_limiter.py]) *)

Module Keys.

(** [for i in range(i, i + count): key = os.getenv(f"{name}{i}"); if key:
    keys.append(key)] *)
Fixpoint load_range (getenv : string -> option string) (name : string)
    (i count : nat) : list string :=
  match count with
  | O => []
  | S count' =>
      match getenv (name +:+ str_nat i) with
      | Some key =>
          if String.eqb key "" then load_range getenv name (S i) count'
          else key :: load_range getenv name (S i) count'
      | None => load_range getenv name (S i) count'
      end
  end.

(** [APIKeyRotator] *)
Record APIKeyRotator := {
  _gemini_keys : list string;
  _groq_keys : list string;
  _sambanova_keys : list string
}.

(** [APIKeyRotator._load_keys], from the process environment *)
Definition _load_keys (getenv : string -> option string) : APIKeyRotator :=
  {| _gemini_keys := load_range getenv "GOOGLE_API_KEY" 1 16;
     _groq_keys := load_range getenv "GROQ_API_KEY" 1 5;
     _sambanova_keys := load_range getenv "SAMBANOVA_API_KEY" 1 3 |}.

(** [APIKeyRotator.get_keys_for_provider] *)
Definition get_keys_for_provider (r : APIKeyRotator) (provider : string) : list string :=
  if String.eqb provider "gemini" then _gemini_keys r
  else if String.eqb provider "groq" then _groq_keys r
  else if String.eqb provider "sambanova" then _sambanova_keys r
  else [].

(** The router over the keys of [api_key_rotator]. *)
Definition router_of (keys : APIKeyRotator) (gemini groq sambanova ollama : provider)
    (ollama_is_available : bool) : router :=
  {| gemini_provider := gemini; groq_provider := groq;
     sambanova_provider := sambanova; ollama_provider := ollama;
     gemini_keys := _gemini_keys keys; groq_keys := _groq_keys keys;
     sambanova_keys := _sambanova_keys keys;
     ollama_available := ollama_is_available |}.

End Keys.

Export Keys.

(** ** The local provider and the vision rotation ([llm/providers/ollama.py],
    [llm/router.py]) *)

Module Vision.

(** The class attributes of [OllamaProvider]. *)
Record ollama_class := {
  _availability_checked : bool;
  _is_available : bool
}.

(** [OllamaProvider.check_availability]; [probe] is the answer of
    [requests.get(base_url, timeout=timeout)]: a status code or an
    exception. *)
Definition check_availability (probe : result nat) (c : ollama_class)
    : bool * ollama_class :=
  if _availability_checked c then (_is_available c, c)
  else
    let available :=
      match probe with
      | Ok status_code => (status_code =? 200)%nat
      | Raise _ => false
      end in
    (available, {| _availability_checked := true; _is_available := available |}).

(** What [get_vision_llm_with_rotation] consults: the liveness of the
    local provider, its vision model, the Groq keys and the Groq vision
    model of a key. *)
Record vision_sources := {
  vision_ollama_available : bool;
  vision_ollama_model : result llm;
  vision_groq_keys : list string;
  vision_groq_model : string -> result llm
}.

Fixpoint add_vision_keys (get : string -> result llm) (idx : nat) (keys : list string)
    : list (string * llm) :=
  match keys with
  | [] => []
  | key :: rest =>
      match get key with
      | Ok m => ("groq_llm" +:+ str_nat idx +:+ "_vision", m) :: add_vision_keys get (S idx) rest
      | Raise _ => add_vision_keys get (S idx) rest
      end
  end.

(** The list built before rotation: the local model first. *)
Definition build_vision (s : vision_sources) : list (string * llm) :=
  (if vision_ollama_available s
   then match vision_ollama_model s with
        | Ok m => [("ollama_vision", m)]
        | Raise _ => []
        end
   else [])
  ++ add_vision_keys (vision_groq_model s) 1 (vision_groq_keys s).

(** [LLMRouter.get_vision_llm_with_rotation] *)
Definition get_vision_llm_with_rotation (s : vision_sources) (start_index : nat)
    : result (list (string * llm)) :=
  let rotation_list := build_vision s in
  if bool_decide (rotation_list = []) then
    Raise "No valid vision LLM available (Ollama or Groq)"
  else
    Ok (if (0 <? start_index)%nat && (1 <? length rotation_list)%nat
        then rotate rotation_list start_index
        else rotation_list).

End Vision.

Export Vision.

(** ** Opening a session ([browser/manager.py], [browser/analysis/helpers.py]) *)

Module Session.

(** What [start_browser] asks of Playwright and of the file system. *)
Record playwright := {
  (** [page.goto(url, ...)]: the page after the navigation *)
  goto_page : page -> string -> result page;
  (** [os.path.exists(dir)] and [os.makedirs(dir)] *)
  ensure_dir : string -> result unit;
  (** [sync_playwright().start()] *)
  start_playwright : result unit;
  (** [chromium.launch_persistent_context(...)] and its [pages[0]] *)
  launch_persistent_context : string -> bool -> result page
}.

Section StartBrowser.
(** [str.isalnum] on one character, and the Playwright of the process. *)
Variable isalnum : Ascii.ascii -> bool.
Variable pw : playwright.

Definition is_space (c : Ascii.ascii) : bool :=
  let n := Ascii.nat_of_ascii c in
  ((9 <=? n) && (n <=? 13) || (28 <=? n) && (n <=? 32))%nat.

Fixpoint lstrip (s : string) : string :=
  match s with
  | String c s' => if is_space c then lstrip s' else s
  | EmptyString => EmptyString
  end.

Fixpoint rstrip (s : string) : string :=
  match s with
  | String c s' =>
      match rstrip s' with
      | EmptyString => if is_space c then EmptyString else String c EmptyString
      | t => String c t
      end
  | EmptyString => EmptyString
  end.

(** [s.strip()] *)
Definition strip (s : string) : string := rstrip (lstrip s).

Fixpoint keep_chars (f : Ascii.ascii -> bool) (s : string) : string :=
  match s with
  | String c s' => if f c then String c (keep_chars f s') else keep_chars f s'
  | EmptyString => EmptyString
  end.

Definition allowed_char (c : Ascii.ascii) : bool :=
  isalnum c || Ascii.eqb c (Ascii.ascii_of_nat 45) || Ascii.eqb c (Ascii.ascii_of_nat 95).

(** ["".join([c for c in site_name if c.isalnum() or c in ('-','_',)]).strip()],
    then ["default"] if nothing is left *)
Definition safe_site_name (site_name : string) : string :=
  let safe := strip (keep_chars allowed_char site_name) in
  if String.eqb safe "" then "default" else safe.

Definition set_page (p : option page) (bm : browser_manager) : browser_manager :=
  {| _page := p; _browser := _browser bm; _playwright := _playwright bm;
     _current_site_name := _current_site_name bm; _headless_mode := _headless_mode bm |}.

Definition set_playwright (bm : browser_manager) : browser_manager :=
  {| _page := _page bm; _browser := _browser bm; _playwright := Some tt;
     _current_site_name := _current_site_name bm; _headless_mode := _headless_mode bm |}.

Definition set_context (name : string) (bm : browser_manager) : browser_manager :=
  {| _page := _page bm; _browser := Some tt; _playwright := _playwright bm;
     _current_site_name := Some name; _headless_mode := _headless_mode bm |}.

Definition closing : ST browser_manager unit := modify (fun bm => (close_browser bm).1).

(** The body of the outer [try] of [start_browser]. *)
Definition start_browser_body (url site_name : string) : ST browser_manager string :=
  let safe_site_name := safe_site_name site_name in
  bm ← get;
  (if is_Some_b (_browser bm) &&
      negb (bool_decide (_current_site_name bm = Some safe_site_name))
   then closing else mret tt);;
  bm ← get;
  navigated ←
    match _page bm with
    | Some p =>
        if negb (is_closed p) then
          try_catch
            (p' ← lift (goto_page pw p url);
             modify (set_page (Some p'));;
             mret (Some ("Navigated to " +:+ url)))
            (fun _ => closing;; mret None)
        else mret None
    | None => mret None
    end;
  match navigated with
  | Some status => mret status
  | None =>
      let user_data_dir := "./profiles/" +:+ safe_site_name +:+ "_profile" in
      lift (ensure_dir pw user_data_dir);;
      bm ← get;
      (if is_Some_b (_playwright bm) then mret tt
       else lift (start_playwright pw);; modify set_playwright);;
      bm ← get;
      first_page ← lift (launch_persistent_context pw user_data_dir (_headless_mode bm));
      modify (set_context safe_site_name);;
      modify (set_page (Some first_page));;
      p' ← lift (goto_page pw first_page url);
      modify (set_page (Some p'));;
      mret ("Browser started for " +:+ safe_site_name)
  end.

(** [BrowserManager.start_browser] *)
Definition start_browser (url site_name : string) : ST browser_manager string :=
  try_catch (start_browser_body url site_name)
    (fun e => closing;; mret ("Error opening browser: " +:+ e)).

End StartBrowser.

End Session.

Export Session.

(** ** Retrieval of past errors ([orchestration.py], [agents/rag.py]) *)

Module Retrieval.

Section Retrieval.
Context `{!Builtins}.

Definition nl : string := String (Ascii.ascii_of_nat 10) EmptyString.

(** [_vector_db_instance] with [get_vector_db] of [orchestration.py];
    [construct] is what building the embeddings and the Chroma client
    gives. *)
Definition get_vector_db (has_chromadb : bool) (construct : result vector_store)
    : ST (option vector_store) (option vector_store) :=
  if negb has_chromadb then mret None
  else
    instance ← get;
    match instance with
    | Some vs => mret (Some vs)
    | None =>
        match construct with
        | Ok vs => put (Some vs);; mret (Some vs)
        | Raise _ => put None;; mret None
        end
    end.

(** The lines of one site: [for i, doc in enumerate(results)] *)
Fixpoint digest_lines (i : nat) (results : list document) : string :=
  match results with
  | [] => ""
  | doc :: rest =>
      let prev_task := default (PStr "General Task") (dict_get (metadata doc) "task") in
      str_nat (i + 1) +:+ ". [Task: " +:+ py_str prev_task +:+ "]: " +:+
      page_content doc +:+ nl +:+ digest_lines (S i) rest
  end.

(** The loop over the sites: the text added and whether anything was
    found.  [similarity_search] answers for the filter [{"site_name":
    site}] with [k=3]. *)
Fixpoint digest_sites (similarity_search : pyval -> result (list document))
    (sites : list pyval) : string * bool :=
  match sites with
  | [] => ("", false)
  | site :: rest =>
      match digest_sites similarity_search rest with
      | (more, found_more) =>
          match similarity_search site with
          | Ok (doc :: docs) =>
              (nl +:+ "--- For " +:+ py_str site +:+ " ---" +:+ nl +:+
               digest_lines 0 (doc :: docs) +:+ more, true)
          | Ok [] => (more, found_more)
          | Raise _ => (more, found_more)
          end
      end
  end.

(** [retrieve_errors] *)
Definition retrieve_errors (similarity_search : pyval -> result (list document))
    (state : AgentState) (w : world) : string :=
  let current_sites := site_names state in
  if bool_decide (current_sites = []) then "No specific sites identified yet."
  else
    match vector_db w with
    | None => "Vector database not available."
    | Some _ =>
        match digest_sites similarity_search current_sites with
        | (text, found_any) =>
            if found_any then "PAST ERRORS/LESSONS:" +:+ nl +:+ text
            else "No previous errors found for these sites."
        end
    end.

End Retrieval.

End Retrieval.

Export Retrieval.

(** ** The words of the specification *)

Module Spec.

(** The closed set of agent tags of a step. *)
Definition known_tags : list string :=
  ["RAG"; "EXECUTION"; "OUTPUT_FORMATTING"; "PLANNER"; "end"].

Definition known_tag (agent : pyval) : bool := existsb (eq_str agent) known_tags.

(** "step_number == position + 1 for every step", for a list whose first
    element stands at position [i]. *)
Definition numbered_from (i : nat) (p : list pyval) : Prop :=
  forall j step, p !! j = Some step ->
    exists d, step = PDict d /\
              dict_get d "step_number" = Some (PInt (Z.of_nat (i + j + 1))).

(** "step_index advanced by 1" and "step_index reset to 0", as changes a
    command asks for. *)
Definition advances (s : AgentState) (c : Command) : Prop :=
  u_step_index (cmd_update c) = Some (step_index s + 1).

Definition resets (c : Command) : Prop :=
  u_step_index (cmd_update c) = Some 0.

Definition well_numbered (p : list pyval) : Prop := numbered_from 0 p.

(** What a return of the planner does to a prior plan [P] of which the
    first [keep] steps are retained: the new plan starts with them, the
    index points behind them, the error is cleared; the plan is either
    numbered afresh or the prior plan itself. *)
Definition replanned (P : list pyval) (keep : nat) (u : update) : Prop :=
  exists suffix,
    u_plan u = Some (take keep P ++ suffix) /\
    u_step_index u = Some (length (take keep P)) /\
    u_last_error u = Some None /\
    (well_numbered (take keep P ++ suffix) \/ take keep P ++ suffix = P).

End Spec.

Export Spec.

(** ** Concrete configurations used to exercise the model *)

Module Samples.

Definition sample_provider (name model : string) : provider :=
  {| get_provider_name := name;
     get_model := fun key =>
       Ok {| made_by := name; model := model; api_key := key |} |}.

Definition sample_router : router :=
  {| gemini_provider := sample_provider "gemini" "gemini-2.0-flash";
     groq_provider := sample_provider "groq" "llama-3.3-70b-versatile";
     sambanova_provider := sample_provider "sambanova" "Meta-Llama-3.3-70B-Instruct";
     ollama_provider := sample_provider "ollama" "llama3.2";
     gemini_keys := ["g-key-1"; "g-key-2"; "g-key-3"];
     groq_keys := [];
     sambanova_keys := [];
     ollama_available := false |}.

(** A step as a model writes it, before the planner numbers it. *)
Definition raw_step (agent query : string) : pyval :=
  PDict [("step_number", PInt 0); ("agent", PStr agent); ("query", PStr query);
         ("content", PNone); ("rag_message", PNone)].

(** Two answers of the planning model, by the text that stands for them. *)
Definition sample_load_json (text : string) : result pyval :=
  if String.eqb text "first plan" then
    Ok (PDict [("target_urls", PList [PStr "https://www.example.com"]);
               ("site_names", PList [PStr "example"]);
               ("steps", PList [raw_step "EXECUTION" "open example.com";
                                raw_step "EXECUTION" "log in";
                                raw_step "end" "done"])])
  else if String.eqb text "repaired plan" then
    Ok (PDict [("steps", PList [raw_step "EXECUTION" "log in with the visible form";
                                raw_step "end" "done"])])
  else Raise "Expecting value: line 1 column 1 (char 0)".

#[export] Instance sample_builtins : Builtins :=
  {| py_repr := fun _ => "[...]";
     urlparse_netloc := fun _ => Ok "www.example.com";
     load_json := sample_load_json;
     json_dumps := fun _ => "{}" |}.

Definition sample_step (n : Z) (agent query : string) : pyval :=
  PDict [("step_number", PInt n); ("agent", PStr agent); ("query", PStr query);
         ("content", PNone); ("rag_message", PNone)].

Definition with_state_plan (p : list pyval) (index : nat) (s : AgentState) : AgentState :=
  {| user_input := user_input s; urls := urls s; site_names := site_names s;
     step_index := index; plan := p; messages := messages s;
     execution_messages := execution_messages s; rag_messages := rag_messages s;
     output_agent_messages := output_agent_messages s;
     output_content := output_content s; Output := Output s;
     last_error := last_error s; current_model_index := current_model_index s;
     llm_provider := llm_provider s |}.

(** Scenario A of the specification. *)
Definition scenario_A : AgentState :=
  with_state_plan
    [sample_step 1 "EXECUTION" "search";
     sample_step 2 "OUTPUT_FORMATTING" "format";
     sample_step 3 "end" "done"]
    0 (initial_state "search and format").

(** Scenario E of the specification. *)
Definition scenario_E : AgentState :=
  with_state_plan
    [sample_step 1 "EXECUTION" "search"; sample_step 2 "UNKNOWN_TAG" "stray"]
    1 (initial_state "search").

Definition no_browser : browser_manager :=
  {| _page := None; _browser := None; _playwright := None;
     _current_site_name := None; _headless_mode := false |}.

Definition open_browser_at (address : string) : browser_manager :=
  {| _page := Some {| is_closed := false; url := Ok address |};
     _browser := Some tt; _playwright := Some tt;
     _current_site_name := Some "example"; _headless_mode := false |}.

(** A store whose [add_documents] fails. *)
Definition locked_store : vector_store :=
  {| documents := []; add_error := fun _ => Some "database is locked" |}.

Definition sample_world (store : option vector_store) : world :=
  {| browser := open_browser_at "https://www.example.com/login";
     vector_db := store;
     tavily_api_key := Some "tvly-key" |}.

(** The state in which the redirector has just dispatched a [RAG] step. *)
Definition rag_dispatched : AgentState :=
  {| user_input := "log in and remember the page";
     urls := []; site_names := [];
     step_index := 1;
     plan := [sample_step 1 "RAG" "remember the login page"; sample_step 2 "end" "done"];
     messages := []; execution_messages := [];
     rag_messages := [text_message Human "remember the login page"];
     output_agent_messages := []; output_content := []; Output := "";
     last_error := None; current_model_index := 0; llm_provider := None |}.

(** The state in which the redirector has just dispatched an [EXECUTION]
    step. *)
Definition execution_dispatched : AgentState :=
  {| user_input := "log in";
     urls := []; site_names := [];
     step_index := 1;
     plan := [sample_step 1 "EXECUTION" "log in"; sample_step 2 "end" "done"];
     messages := [];
     execution_messages := [text_message Human "log in"];
     rag_messages := [];
     output_agent_messages := []; output_content := []; Output := "";
     last_error := None; current_model_index := 0; llm_provider := None |}.

(** A model call that answers [text] and leaves the browser on the login
    page. *)
Definition answers (text : string) : attempt agent_result :=
  {| outcome := Ok {| res_output := Some text; res_intermediate_steps := Some [] |};
     browser_after := open_browser_at "https://www.example.com/login" |}.

Definition fails_with {A : Type} (msg : string) : attempt A :=
  {| outcome := Raise msg;
     browser_after := open_browser_at "https://www.example.com/login" |}.

(** A planning model that answers with the text [text]. *)
Definition plans (text : string) : attempt (option string) :=
  {| outcome := Ok (Some text);
     browser_after := open_browser_at "https://www.example.com/login" |}.

(** The collaborators of a run whose first plan fails at its second step:
    the planner gets the first plan, the execution model reports a failed
    log-in. *)
Definition failing_login : env :=
  {| planner_invoke := fun _ => plans "first plan";
     execution_rotation := Ok (build_main sample_router None);
     execution_invoke := fun _ => answers "Login failed: couldn't locate field";
     formatter_invoke := fun _ => fails_with "Error code: 429" |}.

(** The state of that run when the planner is entered again. *)
Definition after_failed_login : AgentState :=
  {| user_input := "log in to example.com";
     urls := [PStr "https://www.example.com"];
     site_names := [PStr "example"];
     step_index := 1;
     plan := [sample_step 1 "EXECUTION" "open example.com";
              sample_step 2 "EXECUTION" "log in";
              sample_step 3 "end" "done"];
     messages := [text_message Human "[Planner]: Plan updated. Phase steps: 3."];
     execution_messages := [text_message Human "open example.com"];
     rag_messages := [];
     output_agent_messages := []; output_content := []; Output := "";
     last_error := Some "Login failed: couldn't locate field";
     current_model_index := 0; llm_provider := None |}.

End Samples.

Export Samples.

(** ** The outcomes of opening a session *)

Module Outcomes.

(** What [start_browser] answers and leaves behind, from the manager [bm]:
    the open page navigated, a profile launched, or the error reported. *)
Inductive started (isalnum : Ascii.ascii -> bool) (pw : playwright)
    (url site_name : string) (bm : browser_manager)
    : string -> browser_manager -> Prop :=
| started_navigated (p p' : page) :
    _page bm = Some p -> is_closed p = false ->
    (_browser bm = None \/ _current_site_name bm = Some (safe_site_name isalnum site_name)) ->
    goto_page pw p url = Ok p' ->
    started isalnum pw url site_name bm ("Navigated to " +:+ url) (set_page (Some p') bm)
| started_launched (first_page p' : page) (bm' : browser_manager) :
    launch_persistent_context pw
      ("./profiles/" +:+ safe_site_name isalnum site_name +:+ "_profile")
      (_headless_mode bm) = Ok first_page ->
    goto_page pw first_page url = Ok p' ->
    _page bm' = Some p' ->
    _browser bm' = Some tt ->
    _playwright bm' = Some tt ->
    _current_site_name bm' = Some (safe_site_name isalnum site_name) ->
    _headless_mode bm' = _headless_mode bm ->
    started isalnum pw url site_name bm
      ("Browser started for " +:+ safe_site_name isalnum site_name) bm'
| started_failed (e : string) :
    started isalnum pw url site_name bm ("Error opening browser: " +:+ e)
      (close_browser bm).1.

End Outcomes.

Export Outcomes.

(** ** Further configurations *)

Module MoreSamples.

(** An environment with two Gemini keys (the second one empty) and one
    Groq key. *)
Definition sample_getenv (name : string) : option string :=
  if String.eqb name "GOOGLE_API_KEY1" then Some "g-key-1"
  else if String.eqb name "GOOGLE_API_KEY2" then Some ""
  else if String.eqb name "GOOGLE_API_KEY7" then Some "g-key-7"
  else if String.eqb name "GROQ_API_KEY3" then Some "q-key-3"
  else None.

(** [str.isalnum] on the ASCII range. *)
Definition ascii_isalnum (c : Ascii.ascii) : bool :=
  let n := Ascii.nat_of_ascii c in
  ((48 <=? n) && (n <=? 57) || (65 <=? n) && (n <=? 90) || (97 <=? n) && (n <=? 122))%nat.

(** A Playwright that starts, launches a blank page and navigates. *)
Definition sample_playwright : playwright :=
  {| goto_page := fun _ address => Ok {| is_closed := false; url := Ok address |};
     ensure_dir := fun _ => Ok tt;
     start_playwright := Ok tt;
     launch_persistent_context :=
       fun _ _ => Ok {| is_closed := false; url := Ok "about:blank" |} |}.

(** An open session on the profile of [github]. *)
Definition github_session : browser_manager :=
  {| _page := Some {| is_closed := false; url := Ok "https://github.com" |};
     _browser := Some tt; _playwright := Some tt;
     _current_site_name := Some "github"; _headless_mode := true |}.

(** The state in which the redirector has just dispatched an
    [OUTPUT_FORMATTING] step. *)
Definition formatting_dispatched : AgentState :=
  {| user_input := "search and format";
     urls := []; site_names := [];
     step_index := 2;
     plan := [sample_step 1 "EXECUTION" "search";
              sample_step 2 "OUTPUT_FORMATTING" "format";
              sample_step 3 "end" "done"];
     messages := []; execution_messages := [text_message Human "search"];
     rag_messages := [];
     output_agent_messages := [text_message Human "format"];
     output_content := [PStr "{'title': 'Example Domain'}"]; Output := "";
     last_error := None; current_model_index := 0; llm_provider := None |}.

(** A formatting model rate limited on its first candidate and refused,
    for an invalid key, on the others. *)
Definition formatter_refused (idx : nat) : attempt string :=
  if (idx =? 0)%nat then fails_with "Error code: 429 - rate limit reached"
  else fails_with "Error code: 401 - invalid api key".


(** The state of the run of [failing_login] when its executor is entered:
    the first plan is stored and its first step dispatched. *)
Definition first_step_dispatched : AgentState :=
  {| user_input := "log in to example.com";
     urls := [PStr "https://www.example.com"];
     site_names := [PStr "example"];
     step_index := 1;
     plan := [sample_step 1 "EXECUTION" "open example.com";
              sample_step 2 "EXECUTION" "log in";
              sample_step 3 "end" "done"];
     messages := [text_message Human "[Planner]: Plan updated. Phase steps: 3."];
     execution_messages := [text_message Human "open example.com"];
     rag_messages := [];
     output_agent_messages := []; output_content := []; Output := "";
     last_error := None;
     current_model_index := 0; llm_provider := None |}.

(** A configuration with no API key at all. *)
Definition no_keys_router : router :=
  {| gemini_provider := sample_provider "gemini" "gemini-2.0-flash";
     groq_provider := sample_provider "groq" "llama-3.3-70b-versatile";
     sambanova_provider := sample_provider "sambanova" "Meta-Llama-3.3-70B-Instruct";
     ollama_provider := sample_provider "ollama" "llama3.2";
     gemini_keys := []; groq_keys := []; sambanova_keys := [];
     ollama_available := false |}.

(** A plan whose memory step carries no [rag_message] key. *)
Definition bare_rag_step : list (string * pyval) :=
  [("step_number", PInt 1); ("agent", PStr "RAG"); ("query", PStr "remember the page")].

Definition bare_rag_state : AgentState :=
  with_state_plan [PDict bare_rag_step; sample_step 2 "end" "done"] 0
    (initial_state "remember the page").

(** The formatting step of scenario A is next, one item is stored. *)
Definition formatting_step : list (string * pyval) :=
  [("step_number", PInt 2); ("agent", PStr "OUTPUT_FORMATTING"); ("query", PStr "format");
   ("content", PStr "as a table"); ("rag_message", PNone)].

Definition formatting_next : AgentState :=
  {| user_input := "search and format";
     urls := []; site_names := [];
     step_index := 1;
     plan := [sample_step 1 "EXECUTION" "search"; PDict formatting_step;
              sample_step 3 "end" "done"];
     messages := []; execution_messages := [text_message Human "search"];
     rag_messages := []; output_agent_messages := [];
     output_content := [PStr "{'title': 'Example Domain'}"]; Output := "";
     last_error := None; current_model_index := 0; llm_provider := None |}.

(** The collaborators of [failing_login] with the rotation call of the
    executor as the repository has it. *)
Definition login_as_shipped : env :=
  {| planner_invoke := fun _ => plans "first plan";
     execution_rotation := get_execution_llm_with_rotation sample_router 0 None;
     execution_invoke := fun _ => answers "Login failed: couldn't locate field";
     formatter_invoke := fun _ => fails_with "Error code: 429" |}.

(** Scenario E with a stray step that carries no query, and with one
    whose query is a number. *)
Definition stray_without_query : AgentState :=
  with_state_plan
    [sample_step 1 "EXECUTION" "search";
     PDict [("step_number", PInt 2); ("agent", PStr "UNKNOWN_TAG")]]
    1 (initial_state "search").

Definition stray_with_number : AgentState :=
  with_state_plan
    [sample_step 1 "EXECUTION" "search";
     PDict [("step_number", PInt 2); ("agent", PStr "UNKNOWN_TAG"); ("query", PInt 7)]]
    1 (initial_state "search").

End MoreSamples.

Export MoreSamples.

(** * Properties *)

(** Unfolding of the two monads. *)
Ltac unfold_result :=
  unfold base.mbind, base.mret, result_bind, result_ret, bind in *.

(** Case analysis on the innermost scrutinee of the goal. *)
Ltac destruct_inner :=
  match goal with
  | |- context [match ?x with _ => _ end] =>
      lazymatch x with
      | context [match _ with _ => _ end] => fail
      | _ => destruct x eqn:?
      end
  end.

Ltac destruct_hyp H :=
  match type of H with
  | context [match ?x with _ => _ end] =>
      lazymatch x with
      | context [match _ with _ => _ end] => fail
      | _ => destruct x eqn:?; cbn in H; try discriminate H
      end
  end.

Ltac split_result H :=
  unfold mbind, mret, result_bind, result_ret, bind in H; cbn in H;
  repeat match type of H with
         | context [match ?x with _ => _ end] =>
             destruct x eqn:?; cbn in H; try discriminate H
         | context [if ?b then _ else _] =>
             destruct b eqn:?; cbn in H; try discriminate H
         end.

Ltac unfold_st :=
  unfold base.mbind, base.mret, ST_bind, ST_ret, st_bind, st_ret,
    get, put, lift, modify, raise, call, try_catch, try_finally,
    result_bind, result_ret, bind in *.

(** ** Rotation *)

Section RotationFacts.
Context {A : Type}.
Implicit Types l : list A.

Lemma mod_wrap (n x : nat) : n <= x -> x < 2 * n -> x mod n = x - n.
Proof.
  intros Hle Hlt.
  symmetry. apply (Nat.mod_unique x n 1); lia.
Qed.

Lemma rotate_length l k : length (rotate l k) = length l.
Proof.
  unfold rotate. rewrite length_app, length_drop, length_take. lia.
Qed.

Lemma rotate_lookup l k i :
  k <= length l -> i < length l ->
  rotate l k !! i = l !! ((k + i) mod length l).
Proof.
  intros Hk Hi. unfold rotate.
  destruct (decide (i < length l - k)) as [Hlt|Hge].
  - rewrite lookup_app_l by (rewrite length_drop; lia).
    rewrite lookup_drop, Nat.mod_small by lia. reflexivity.
  - rewrite lookup_app_r by (rewrite length_drop; lia).
    rewrite length_drop, lookup_take_lt by lia.
    rewrite mod_wrap by lia. f_equal. lia.
Qed.

Lemma rotate_0 l : rotate l 0 = l.
Proof. unfold rotate. rewrite drop_0. simpl. apply app_nil_r. Qed.

Lemma rotate_beyond l k : length l <= k -> rotate l k = l.
Proof.
  intros Hk. unfold rotate. rewrite drop_ge, take_ge by lia. reflexivity.
Qed.

Lemma rotate_rotate l a b :
  a <= length l -> b <= length l ->
  rotate (rotate l a) b = rotate l ((a + b) mod length l).
Proof.
  intros Ha Hb.
  destruct (decide (length l = 0)) as [Hz|Hnz].
  { destruct l; [|discriminate]. simpl in *.
    replace a with 0 by lia. replace b with 0 by lia. reflexivity. }
  assert (Hm : (a + b) mod length l < length l) by (apply Nat.mod_upper_bound; lia).
  apply list_eq. intros i.
  destruct (decide (i < length l)) as [Hi|Hi].
  - rewrite rotate_lookup by (rewrite ?rotate_length; lia).
    rewrite rotate_length.
    assert (Hbi : (b + i) mod length l < length l) by (apply Nat.mod_upper_bound; lia).
    rewrite !rotate_lookup by lia.
    f_equal.
    rewrite Nat.Div0.add_mod_idemp_r, Nat.Div0.add_mod_idemp_l.
    f_equal. lia.
  - rewrite !lookup_ge_None_2 by (rewrite ?rotate_length; lia). reflexivity.
Qed.

End RotationFacts.

Lemma rotate_keys_rotate keys k : rotate_keys keys k = rotate keys k.
Proof.
  unfold rotate_keys.
  destruct keys as [|x keys]; [by destruct k|].
  rewrite bool_decide_false by discriminate. simpl.
  destruct k; [by rewrite rotate_0 | reflexivity].
Qed.

(** C4 (amended): for a non-empty built list and a start index up to its
    length, [get_main_llm_with_rotation] returns the cyclic rotation,
    [rotated[i] = built[(start_index + i) mod len(built)]]; start index 0
    returns the built list, [rotated[0] = built[k]] for [0 < k < len], and
    rotations by [a] and [b], both at most [len], compose to the rotation
    by [(a + b) mod len]; [rotate_keys] is the same rotation. *)
Theorem rotation_within_length (r : router) (start_index : nat) (provider : option string) :
  build_main r provider <> [] ->
  start_index <= length (build_main r provider) ->
  exists rotated,
    get_main_llm_with_rotation r start_index provider = Ok rotated /\
    (forall i, i < length (build_main r provider) ->
       rotated !! i =
       build_main r provider !! ((start_index + i) mod length (build_main r provider))) /\
    get_main_llm_with_rotation r 0 provider = Ok (build_main r provider) /\
    (0 < start_index < length (build_main r provider) ->
       head rotated = build_main r provider !! start_index) /\
    (forall a b, a <= length (build_main r provider) -> b <= length (build_main r provider) ->
       rotate (rotate (build_main r provider) a) b =
       rotate (build_main r provider) ((a + b) mod length (build_main r provider))) /\
    (forall keys k i, k <= length keys -> i < length keys ->
       rotate_keys keys k !! i = keys !! ((k + i) mod length keys)).
Proof.
  intros Hne Hk.
  unfold get_main_llm_with_rotation.
  rewrite bool_decide_false by assumption.
  exists (rotate (build_main r provider) start_index).
  split; [|split; [|split; [|split; [|split]]]].
  - destruct start_index; [by rewrite rotate_0 | reflexivity].
  - intros i Hi. by apply rotate_lookup.
  - reflexivity.
  - intros [Hpos Hlt].
    rewrite head_lookup, rotate_lookup by lia.
    rewrite Nat.add_0_r, Nat.mod_small by lia. reflexivity.
  - intros a b Ha Hb. by apply rotate_rotate.
  - intros keys k i Hk' Hi. rewrite rotate_keys_rotate. by apply rotate_lookup.
Qed.

(** C4: the amended statement at three keys and start index 2. *)
Lemma rotation_within_length_witness :
  exists rotated,
    get_main_llm_with_rotation sample_router 2 None = Ok rotated /\
    (forall i, i < length (build_main sample_router None) ->
       rotated !! i =
       build_main sample_router None !! ((2 + i) mod length (build_main sample_router None))) /\
    get_main_llm_with_rotation sample_router 0 None = Ok (build_main sample_router None) /\
    (0 < 2 < length (build_main sample_router None) ->
       head rotated = build_main sample_router None !! 2) /\
    (forall a b, a <= length (build_main sample_router None) ->
       b <= length (build_main sample_router None) ->
       rotate (rotate (build_main sample_router None) a) b =
       rotate (build_main sample_router None)
         ((a + b) mod length (build_main sample_router None))) /\
    (forall keys k i, k <= length keys -> i < length keys ->
       rotate_keys keys k !! i = keys !! ((k + i) mod length keys)).
Proof.
  apply (rotation_within_length sample_router 2 None).
  - vm_compute. discriminate.
  - vm_compute. lia.
Defined.

(** C4 as stated fails: with three candidates and start index 4 the list
    comes back unrotated, so its head is not [built[(4 + 0) mod 3]]. *)
Lemma rotation_beyond_length_unchanged :
  get_main_llm_with_rotation sample_router 4 None = Ok (build_main sample_router None) /\
  build_main sample_router None !! 0 <>
  build_main sample_router None !! ((4 + 0) mod length (build_main sample_router None)).
Proof.
  split; [reflexivity|]. vm_compute. discriminate.
Qed.

(** ** Browser identity *)

Section BrowserInfo.
Context `{!Builtins}.

Lemma site_name_fallback (netloc : string) :
  (if String.eqb (replace "www." "" netloc) ""
   then "local_or_unknown" else replace "www." "" netloc) <> "".
Proof.
  destruct (String.eqb (replace "www." "" netloc) "") eqn:E; [discriminate|].
  by apply String.eqb_neq.
Qed.

Lemma browser_info_returns (bm : browser_manager) :
  exists current_url site_name, get_current_browser_info bm = Ok (current_url, site_name).
Proof.
  unfold get_current_browser_info, get_page.
  destruct (_page bm) as [p|]; [|by eexists _, _].
  destruct (is_closed p); simpl; [by eexists _, _|].
  destruct (url p) as [u|e]; simpl; [|by eexists _, _].
  destruct (urlparse_netloc u); simpl; by eexists _, _.
Qed.

(** C10: [get_current_browser_info] returns a pair of strings for every
    browser state and never raises; without a page, with a closed page, or
    when the URL cannot be read or parsed, the pair is
    [("unknown_url", "unknown_site")]; an empty host gives the site name
    ["local_or_unknown"]; the site name is never empty. *)
Theorem browser_info_total (bm : browser_manager) :
  exists current_url site_name,
    get_current_browser_info bm = Ok (current_url, site_name) /\
    site_name <> "" /\
    (get_page bm = None -> (current_url, site_name) = ("unknown_url", "unknown_site")) /\
    (forall p, get_page bm = Some p -> is_closed p = true ->
       (current_url, site_name) = ("unknown_url", "unknown_site")) /\
    (forall p e, get_page bm = Some p -> url p = Raise e ->
       (current_url, site_name) = ("unknown_url", "unknown_site")) /\
    (forall p u e, get_page bm = Some p -> url p = Ok u -> urlparse_netloc u = Raise e ->
       (current_url, site_name) = ("unknown_url", "unknown_site")) /\
    (forall p u, get_page bm = Some p -> is_closed p = false -> url p = Ok u ->
       urlparse_netloc u = Ok "" ->
       (current_url, site_name) = (u, "local_or_unknown")).
Proof.
  unfold get_current_browser_info, get_page.
  destruct (_page bm) as [p|];
    [destruct (is_closed p) eqn:Hc; simpl;
     [|destruct (url p) as [u|e] eqn:Hu; simpl;
       [destruct (urlparse_netloc u) as [netloc|e] eqn:Hn; simpl|]]|];
    eexists _, _; (split; [reflexivity|]);
    (split; [first [apply site_name_fallback | discriminate]|]);
    repeat split; intros; simplify_eq; try reflexivity; try congruence.
  rewrite Hu in *. simplify_eq. rewrite Hn in *. by simplify_eq.
Qed.

End BrowserInfo.

(** ** Redirector *)

Section Redirector.
Context `{!Builtins}.

Lemma prefix_app (w s : string) : String.prefix w (w +:+ s) = true.
Proof.
  induction w as [|c w IH]; simpl.
  - by destruct s.
  - destruct (Ascii.ascii_dec c c); [exact IH | congruence].
Qed.

Lemma contains_prefix (w s : string) : String.prefix w s = true -> contains w s = true.
Proof. intros Hp. destruct s; cbn [contains]; rewrite Hp; reflexivity. Qed.

Lemma contains_app_r (p w s : string) :
  contains w s = true -> contains w (p +:+ s) = true.
Proof.
  intros Hs. induction p as [|c p IH]; [exact Hs|].
  change (String c p +:+ s) with (String c (p +:+ s)).
  cbn [contains]. rewrite IH. apply orb_true_r.
Qed.

Lemma contains_app (p w s : string) : contains w (p +:+ w +:+ s) = true.
Proof. apply contains_app_r, contains_prefix, prefix_app. Qed.

Lemma prefix_refl (w : string) : String.prefix w w = true.
Proof.
  induction w as [|c w IH]; [reflexivity|]. simpl.
  destruct (Ascii.ascii_dec c c); [exact IH | congruence].
Qed.

Lemma contains_suffix (p w : string) : contains w (p +:+ w) = true.
Proof. apply contains_app_r, contains_prefix, prefix_refl. Qed.

Lemma list_item_lookup {A : Type} (l : list A) (i : nat) (x : A) :
  l !! i = Some x -> list_item l i = Ok x.
Proof. unfold list_item. by intros ->. Qed.

Lemma known_tag_false (agent : pyval) :
  known_tag agent = false ->
  eq_str agent "PLANNER" = false /\ eq_str agent "RAG" = false /\
  eq_str agent "EXECUTION" = false /\ eq_str agent "OUTPUT_FORMATTING" = false /\
  eq_str agent "end" = false.
Proof.
  unfold known_tag, known_tags. simpl.
  rewrite !orb_false_iff. tauto.
Qed.

(** The command for a step with an unknown tag, in both copies of the
    redirector; only the copy that logs the step slices its query. *)
Lemma redirector_unknown (log_slice : bool) (state : AgentState) (step agent query : pyval) :
  plan state !! step_index state = Some step ->
  getitem step "agent" = Ok agent ->
  getitem step "query" = Ok query ->
  (if log_slice then check_sliceable query else Ok tt) = Ok tt ->
  known_tag agent = false ->
  redirector_of log_slice state =
  Ok {| goto := planner;
        cmd_update :=
          with_messages
            [text_message (Chat "redirector")
               ("Error at step " +:+ str_nat (step_index state) +:+
                ": Unknown agent " +:+ py_str agent)]
            no_update |}.
Proof.
  intros Hstep Hagent Hquery Hslice Hunknown.
  apply known_tag_false in Hunknown as (H1 & H2 & H3 & H4 & H5).
  unfold redirector_of.
  assert (Hlt : step_index state < length (plan state))
    by (apply lookup_lt_is_Some; eauto).
  destruct (Nat.leb_spec (length (plan state)) (step_index state)) as [Hle|_]; [lia|].
  rewrite (list_item_lookup _ _ _ Hstep). simpl.
  rewrite Hagent. simpl. rewrite Hquery. simpl.
  rewrite Hslice.
  simpl. rewrite H1, H2, H3, H4, H5. reflexivity.
Qed.

(** C8 (amended): when the step at an in-range [step_index] carries a
    query and an agent tag outside the five known ones, the redirector
    routes to the planner with a message that contains the step index and
    the tag, and the update leaves [plan] and [step_index] as they were.
    The copy in [agents/redirector.py] does so for any query; the copy in
    [orchestration.py] slices the query for its log first and does so
    when the query is a string or a list. *)
Theorem redirector_unknown_tag (state : AgentState) (step agent query : pyval) :
  plan state !! step_index state = Some step ->
  getitem step "agent" = Ok agent ->
  getitem step "query" = Ok query ->
  known_tag agent = false ->
  exists text state',
    (check_sliceable query = Ok tt ->
     Orchestration.redirector state =
       Ok {| goto := planner;
             cmd_update := with_messages [text_message (Chat "redirector") text] no_update |}) /\
    Agents.redirector state =
      Ok {| goto := planner;
            cmd_update := with_messages [text_message (Chat "redirector") text] no_update |} /\
    contains (str_nat (step_index state)) text = true /\
    contains (py_str agent) text = true /\
    apply_update state
      (with_messages [text_message (Chat "redirector") text] no_update) = Ok state' /\
    plan state' = plan state /\
    step_index state' = step_index state.
Proof.
  intros Hstep Hagent Hquery Hunknown.
  eexists _, _.
  split; [intros Hslice; by eapply redirector_unknown|].
  split; [by eapply redirector_unknown|].
  split; [apply contains_app|].
  split.
  - do 2 apply contains_app_r. apply contains_suffix.
  - split; [reflexivity|]. split; reflexivity.
Qed.

Lemma eq_str_true (v : pyval) (t : string) : eq_str v t = true -> v = PStr t.
Proof.
  destruct v; simpl; try discriminate.
  intros E. apply String.eqb_eq in E. by subst.
Qed.

(** C7 (amended): whenever the redirector returns a command, it never asks
    both to advance [step_index] by 1 and to reset it to 0; it asks for
    exactly one of the two when the step at [step_index] carries one of the
    five known tags (reset for [PLANNER] and [end], advance for [RAG],
    [EXECUTION] and [OUTPUT_FORMATTING]); past the end of the plan and for
    an unknown tag it leaves [step_index] alone. *)
Theorem redirector_index_change (log_slice : bool) (state : AgentState) (c : Command) :
  redirector_of log_slice state = Ok c ->
  ~ (advances state c /\ resets c) /\
  (forall step agent,
     plan state !! step_index state = Some step -> getitem step "agent" = Ok agent ->
     (eq_str agent "PLANNER" || eq_str agent "end" = true -> resets c) /\
     (eq_str agent "RAG" || eq_str agent "EXECUTION" || eq_str agent "OUTPUT_FORMATTING" = true ->
        advances state c) /\
     (known_tag agent = true -> advances state c \/ resets c) /\
     (known_tag agent = false -> u_step_index (cmd_update c) = None)) /\
  (plan state !! step_index state = None -> u_step_index (cmd_update c) = None).
Proof.
  intros Hr. unfold redirector_of, list_item in Hr.
  destruct (Nat.leb_spec (length (plan state)) (step_index state)) as [Hle|Hlt].
  - simplify_eq. unfold advances, resets. simpl.
    split; [intros [? ?]; discriminate|].
    split; [|reflexivity].
    intros step agent Hstep. apply lookup_lt_Some in Hstep. lia.
  - destruct (plan state !! step_index state) as [step|] eqn:Hstep; simpl in Hr;
      [|discriminate].
    destruct (getitem step "agent") as [agent|] eqn:Hagent; simpl in Hr; [|discriminate].
    destruct (getitem step "query") as [query|] eqn:Hquery; simpl in Hr; [|discriminate].
    destruct (if log_slice then check_sliceable query else Ok tt); simpl in Hr;
      [|discriminate].
    assert (Hk : known_tag agent =
                 eq_str agent "RAG" || eq_str agent "EXECUTION" ||
                 eq_str agent "OUTPUT_FORMATTING" || eq_str agent "PLANNER" ||
                 eq_str agent "end").
    { unfold known_tag, known_tags. simpl. rewrite orb_false_r, !orb_assoc. reflexivity. }
    destruct (eq_str agent "PLANNER") eqn:E1;
      [|destruct (eq_str agent "RAG") eqn:E2;
        [|destruct (eq_str agent "EXECUTION") eqn:E3;
          [|destruct (eq_str agent "OUTPUT_FORMATTING") eqn:E4;
            [|destruct (eq_str agent "end") eqn:E5]]]];
      split_result Hr; simplify_eq;
      unfold advances, resets; simpl;
      (split; [intros [? ?]; simplify_eq; lia|]);
      (split; [|discriminate]);
      intros step' agent' Hs' Ha'; simplify_eq;
      rewrite Hagent in Ha'; simplify_eq;
      rewrite Hk, ?E1, ?E2, ?E3, ?E4, ?E5; simpl;
      repeat split; intros; simplify_eq; auto;
      repeat match goal with
             | E : eq_str _ _ = true |- _ => apply eq_str_true in E; subst
             end;
      simpl in *; try discriminate.
Qed.

End Redirector.

(** C8 at scenario E: step 1 is tagged [UNKNOWN_TAG]. *)
Lemma redirector_unknown_tag_witness :
  exists text state',
    (check_sliceable (PStr "stray") = Ok tt ->
     Orchestration.redirector scenario_E =
       Ok {| goto := planner;
             cmd_update := with_messages [text_message (Chat "redirector") text] no_update |}) /\
    Agents.redirector scenario_E =
      Ok {| goto := planner;
            cmd_update := with_messages [text_message (Chat "redirector") text] no_update |} /\
    contains (str_nat (step_index scenario_E)) text = true /\
    contains (py_str (PStr "UNKNOWN_TAG")) text = true /\
    apply_update scenario_E
      (with_messages [text_message (Chat "redirector") text] no_update) = Ok state' /\
    plan state' = plan scenario_E /\
    step_index state' = step_index scenario_E.
Proof.
  apply (redirector_unknown_tag scenario_E (sample_step 2 "UNKNOWN_TAG" "stray")
           (PStr "UNKNOWN_TAG") (PStr "stray")); reflexivity.
Defined.

(** C8 as stated fails: a step with an unknown tag and no query makes
    both copies of the redirector raise [KeyError] instead of routing to
    the planner, and one whose query is a number makes the copy in
    [orchestration.py] raise [TypeError] from the slice it logs. *)
Lemma redirector_unknown_tag_needs_query :
  known_tag (PStr "UNKNOWN_TAG") = false /\
  (exists step,
     plan stray_without_query !! step_index stray_without_query = Some step /\
     getitem step "agent" = Ok (PStr "UNKNOWN_TAG")) /\
  Orchestration.redirector stray_without_query = Raise "'query'" /\
  Agents.redirector stray_without_query = Raise "'query'" /\
  (exists step,
     plan stray_with_number !! step_index stray_with_number = Some step /\
     getitem step "agent" = Ok (PStr "UNKNOWN_TAG")) /\
  Orchestration.redirector stray_with_number =
    Raise "'int' object is not subscriptable".
Proof.
  split; [reflexivity|].
  split; [eexists; split; reflexivity|].
  split; [reflexivity|]. split; [reflexivity|].
  split; [eexists; split; reflexivity|].
  reflexivity.
Qed.


(** C7 at scenario A: the first step is an [EXECUTION] step. *)
Lemma redirector_index_change_witness :
  ~ (advances scenario_A
       {| goto := executor;
          cmd_update :=
            with_step_index 1
              (with_execution_messages [text_message Human "search"] no_update) |} /\
     resets
       {| goto := executor;
          cmd_update :=
            with_step_index 1
              (with_execution_messages [text_message Human "search"] no_update) |}) /\
  (forall step agent,
     plan scenario_A !! step_index scenario_A = Some step -> getitem step "agent" = Ok agent ->
     (eq_str agent "PLANNER" || eq_str agent "end" = true ->
        resets
          {| goto := executor;
             cmd_update :=
               with_step_index 1
                 (with_execution_messages [text_message Human "search"] no_update) |}) /\
     (eq_str agent "RAG" || eq_str agent "EXECUTION" || eq_str agent "OUTPUT_FORMATTING" = true ->
        advances scenario_A
          {| goto := executor;
             cmd_update :=
               with_step_index 1
                 (with_execution_messages [text_message Human "search"] no_update) |}) /\
     (known_tag agent = true ->
        advances scenario_A
          {| goto := executor;
             cmd_update :=
               with_step_index 1
                 (with_execution_messages [text_message Human "search"] no_update) |} \/
        resets
          {| goto := executor;
             cmd_update :=
               with_step_index 1
                 (with_execution_messages [text_message Human "search"] no_update) |}) /\
     (known_tag agent = false ->
        u_step_index
          (cmd_update
             {| goto := executor;
                cmd_update :=
                  with_step_index 1
                    (with_execution_messages [text_message Human "search"] no_update) |})
        = None)) /\
  (plan scenario_A !! step_index scenario_A = None ->
   u_step_index
     (cmd_update
        {| goto := executor;
           cmd_update :=
             with_step_index 1
               (with_execution_messages [text_message Human "search"] no_update) |})
   = None).
Proof.
  apply (redirector_index_change true scenario_A). reflexivity.
Defined.

(** C7 as stated fails: on the empty plan of a fresh run the redirector
    goes to the terminal node and asks for neither change. *)
Lemma redirector_neither_change :
  exists c,
    Orchestration.redirector (initial_state "open example.com") = Ok c /\
    ~ advances (initial_state "open example.com") c /\
    ~ resets c.
Proof.
  exists {| goto := END; cmd_update := no_update |}.
  split; [reflexivity|]. split; discriminate.
Qed.

(** ** Memory worker *)

Section Rag.
Context `{!Builtins}.

(** The sibling store in the planner is best effort: whatever the store
    does, [save_error_resolution] returns. *)
Lemma save_error_resolution_returns (state : AgentState) (new_steps : list pyval) (w : world) :
  exists w', save_error_resolution state new_steps w = (Ok tt, w').
Proof.
  unfold save_error_resolution. unfold_st.
  destruct (vector_db w) as [vs|]; [|by eexists].
  repeat match goal with
         | |- context [match ?m with _ => _ end] => destruct m
         end.
  all: try match goal with a : unit |- _ => destruct a end; by eexists.
Qed.

(** The store of [rag] is not: a failing [add_documents] is what the
    worker raises, whenever the worker reaches the store. *)
Lemma rag_store_failure_propagates (state : AgentState) (w : world) (vs : vector_store)
    (msg : message) (e : string) :
  last (rag_messages state) = Some msg ->
  length (plan state) <= step_index state ->
  vector_db w = Some vs ->
  (forall doc, add_error vs doc = Some e) ->
  rag state w = (Raise e, w).
Proof.
  intros Hmsg Hidx Hdb Hfail.
  unfold rag, last_item. unfold_st. rewrite Hmsg.
  destruct (browser_info_returns (browser w)) as (u & site & ->).
  destruct (Nat.ltb_spec (step_index state) (length (plan state))) as [Hlt|_]; [lia|].
  rewrite Hdb. unfold add_documents. rewrite Hfail. reflexivity.
Qed.

End Rag.

(** C9: with a store whose [add_documents] raises, [rag] raises the same
    error instead of returning its command to the redirector. *)
Lemma rag_store_failure_raises :
  rag rag_dispatched (sample_world (Some locked_store)) =
  (Raise "database is locked", sample_world (Some locked_store)).
Proof. reflexivity. Qed.

(** ** Execution worker *)

Section Execution.
Context `{!Builtins}.

Lemma execution_loop_cons (state : AgentState) (invoke : nat -> attempt agent_result)
    (start_index len idx : nat) (cand : string * llm) (rest : list (string * llm))
    (last_err : option string) (w : world) :
  execution_loop state invoke start_index len idx (cand :: rest) last_err w =
  match outcome (invoke idx) with
  | Ok r =>
      (Ok (execution_success start_index len idx r),
       set_browser (browser_after (invoke idx)) w)
  | Raise e =>
      if rotates_on e
      then execution_loop state invoke start_index len (S idx) rest (Some e)
             (set_browser (browser_after (invoke idx)) w)
      else
        (Ok {| goto := planner;
               cmd_update :=
                 with_execution_messages
                   [text_message (Chat "execution_agent") ("AGENT CRASHED: " +:+ e)]
                   (with_messages
                      [text_message (Chat "execution_agent") ("AGENT CRASHED: " +:+ e)]
                      (with_step_index (step_index state)
                         (with_last_error (Some ("AGENT CRASHED: " +:+ e)) no_update))) |},
         set_browser (browser_after (invoke idx)) w)
  end.
Proof.
  cbn [execution_loop]. unfold_st. unfold rotates_on.
  destruct (outcome (invoke idx)) as [r|e]; [reflexivity|].
  destruct (any_in execution_rate_limit (lower e)); [reflexivity|].
  destruct (any_in execution_tool_error (lower e)); reflexivity.
Qed.

Lemma execution_loop_reaches (state : AgentState) (invoke : nat -> attempt agent_result)
    (start_index len : nat) (r : agent_result) (n : nat) :
  forall (idx : nat) (rotation : list (string * llm)) (last_err : option string) (w : world),
    n < length rotation ->
    (forall j, j < n -> exists e,
        outcome (invoke (idx + j)) = Raise e /\ rotates_on e = true) ->
    outcome (invoke (idx + n)) = Ok r ->
    (execution_loop state invoke start_index len idx rotation last_err w).1 =
    Ok (execution_success start_index len (idx + n) r).
Proof.
  induction n as [|n IH]; intros idx rotation last_err w Hlen Hfail Hok;
    (destruct rotation as [|cand rest]; [simpl in Hlen; lia|]);
    rewrite execution_loop_cons.
  - rewrite Nat.add_0_r in *. by rewrite Hok.
  - destruct (Hfail 0) as (e & He & Hrot); [lia|].
    rewrite Nat.add_0_r in He. rewrite He, Hrot.
    replace (idx + S n) with (S idx + n) in * by lia.
    simpl in Hlen.
    apply IH; [lia | | exact Hok].
    intros j Hj. destruct (Hfail (S j)) as (e0 & He0 & Hr0); [lia|].
    exists e0. split; [|exact Hr0].
    replace (S idx + j) with (idx + S j) by lia. exact He0.
Qed.

Lemma trigger_word_found (kw text : string) :
  In kw failure_keywords -> contains kw text = true -> is_Some_b (trigger_word text) = true.
Proof.
  intros Hin Hc. unfold trigger_word.
  destruct (find (fun w => contains w text) failure_keywords) eqn:E; [reflexivity|].
  eapply find_none in E; [|exact Hin]. simpl in E. congruence.
Qed.

(** The code after the rotation call, given candidates: after the first
    model call that succeeds (the candidates before it having failed with
    signatures that rotate), an answer that contains one of [unable],
    [error], [couldn't], [failed], [execution failed] in any letter case
    and does not contain [no error] makes the worker return to the planner
    with [last_error] set to the whole answer and [current_model_index]
    set to the successful rotation index; an answer that contains
    [no error] makes it return to the redirector. *)
Lemma execution_soft_failure_given_rotation (state : AgentState) (w : world)
    (invoke : nat -> attempt agent_result) (rotation : list (string * llm))
    (task_msg : message) (task key : string) (idx : nat) (r : agent_result) :
  last (execution_messages state) = Some task_msg ->
  content task_msg = PStr task ->
  tavily_api_key w = Some key -> key <> "" ->
  idx < length rotation ->
  (forall j, j < idx -> exists e, outcome (invoke j) = Raise e /\ rotates_on e = true) ->
  outcome (invoke idx) = Ok r ->
  ((exists kw, In kw ["unable"; "error"; "couldn't"; "failed"; "execution failed"] /\
               contains kw (lower (default "" (res_output r))) = true) ->
   contains "no error" (lower (default "" (res_output r))) = false ->
   (execution_agent (Ok rotation) invoke state w).1 =
   Ok {| goto := planner;
         cmd_update :=
           with_last_error (Some (default "" (res_output r)))
             (with_current_model_index
                ((current_model_index state + idx) mod length rotation) no_update) |}) /\
  (contains "no error" (lower (default "" (res_output r))) = true ->
   exists c, (execution_agent (Ok rotation) invoke state w).1 = Ok c /\
             goto c = redirector_node /\
             u_last_error (cmd_update c) = None).
Proof.
  intros Hmsg Htask Hkey Hkne Hidx Hfail Hok.
  assert (Hrun : (execution_agent (Ok rotation) invoke state w).1 =
                 Ok (execution_success (current_model_index state) (length rotation) idx r)).
  { pose proof (execution_loop_reaches state invoke (current_model_index state)
                  (length rotation) r idx 0 rotation None) as Hloop.
    unfold execution_agent, last_item, require_tavily_key. unfold_st.
    rewrite Hmsg. cbn. rewrite Htask, Hkey.
    apply String.eqb_neq in Hkne. rewrite Hkne. cbn.
    apply Hloop; assumption. }
  rewrite Hrun. unfold execution_success.
  split.
  - intros (kw & Hin & Hc) Hno.
    rewrite (trigger_word_found kw _ Hin Hc), Hno. reflexivity.
  - intros Hno. rewrite Hno, andb_false_r. eexists. split; [reflexivity|]. by split.
Qed.

(** C5: as the repository stands, [execution_agent] never inspects an
    answer.  Its rotation call raises [AttributeError], so the worker
    raises for every state, every world and every model, and routes
    nowhere; for a string task and a set search key the exception is that
    [AttributeError].  The code behind the call does what the claim says
    once it is given candidates: a soft failure goes to the planner with
    [last_error] and the rotation index, and [no error] suppresses it. *)
Theorem execution_soft_failure (LLMConfig : router) (state : AgentState) (w : world)
    (invoke : nat -> attempt agent_result) :
  (exists e,
     execution_agent
       (get_execution_llm_with_rotation LLMConfig (current_model_index state)
          (llm_provider state)) invoke state w = (Raise e, w)) /\
  (forall task_msg task key,
     last (execution_messages state) = Some task_msg ->
     content task_msg = PStr task ->
     tavily_api_key w = Some key -> key <> "" ->
     execution_agent
       (get_execution_llm_with_rotation LLMConfig (current_model_index state)
          (llm_provider state)) invoke state w =
     (Raise "'LLMRouter' object has no attribute 'get_execution_llm_with_rotation'", w)) /\
  (forall rotation task_msg task key idx r,
     last (execution_messages state) = Some task_msg ->
     content task_msg = PStr task ->
     tavily_api_key w = Some key -> key <> "" ->
     idx < length rotation ->
     (forall j, j < idx -> exists e, outcome (invoke j) = Raise e /\ rotates_on e = true) ->
     outcome (invoke idx) = Ok r ->
     ((exists kw, In kw ["unable"; "error"; "couldn't"; "failed"; "execution failed"] /\
                  contains kw (lower (default "" (res_output r))) = true) ->
      contains "no error" (lower (default "" (res_output r))) = false ->
      (execution_agent (Ok rotation) invoke state w).1 =
      Ok {| goto := planner;
            cmd_update :=
              with_last_error (Some (default "" (res_output r)))
                (with_current_model_index
                   ((current_model_index state + idx) mod length rotation) no_update) |}) /\
     (contains "no error" (lower (default "" (res_output r))) = true ->
      exists c, (execution_agent (Ok rotation) invoke state w).1 = Ok c /\
                goto c = redirector_node /\
                u_last_error (cmd_update c) = None)).
Proof.
  split; [|split].
  - unfold execution_agent, get_execution_llm_with_rotation, last_item,
      require_tavily_key. unfold_st.
    destruct (last (execution_messages state)) as [msg|]; [|by eexists].
    cbn. destruct (content msg); cbn; try by eexists.
    destruct (tavily_api_key w) as [key|]; [|by eexists].
    destruct (String.eqb key ""); by eexists.
  - intros task_msg task key Hmsg Htask Hkey Hkne.
    unfold execution_agent, get_execution_llm_with_rotation, last_item,
      require_tavily_key. unfold_st.
    rewrite Hmsg. cbn. rewrite Htask, Hkey.
    apply String.eqb_neq in Hkne. rewrite Hkne. reflexivity.
  - intros rotation task_msg task key idx r.
    apply execution_soft_failure_given_rotation.
Qed.

End Execution.

(** Scenario B as the repository stands: the run stops at its first
    [EXECUTION] step with the error of the rotation call. *)
Example scenario_B_as_shipped :
  execution_agent (get_execution_llm_with_rotation sample_router 0 None)
    (fun _ => answers "Login failed: couldn't locate field")
    execution_dispatched (sample_world None) =
  (Raise "'LLMRouter' object has no attribute 'get_execution_llm_with_rotation'",
   sample_world None) /\
  (run_agent sample_router (fun _ => login_as_shipped) 25 "log in to example.com"
     (sample_world None)).1 =
  Ok [("error",
       "Error during agent running: 'LLMRouter' object has no attribute 'get_execution_llm_with_rotation'")].
Proof. split; reflexivity. Qed.

(** Scenarios B and C of the specification, evaluated on the code behind
    the rotation call, with the main rotation as its candidates. *)
Example scenario_B_routes_to_planner :
  (execution_agent (Ok (build_main sample_router None))
     (fun _ => answers "Login failed: couldn't locate field")
     execution_dispatched (sample_world None)).1 =
  Ok {| goto := planner;
        cmd_update :=
          with_last_error (Some "Login failed: couldn't locate field")
            (with_current_model_index 0 no_update) |}.
Proof. reflexivity. Qed.

Example scenario_C_routes_to_redirector :
  (execution_agent (Ok (build_main sample_router None))
     (fun idx => match idx with
                 | 0 => fails_with "Error code: 429 - rate limit reached"
                 | _ => answers "No error occurred, proceeding"
                 end)
     execution_dispatched (sample_world None)).1 =
  Ok {| goto := redirector_node;
        cmd_update :=
          with_execution_messages
            [text_message (Chat "execution_agent") "No error occurred, proceeding"]
            (with_messages
               [text_message (Chat "execution_agent") "No error occurred, proceeding"]
               (with_current_model_index 1 no_update)) |}.
Proof. reflexivity. Qed.

(** ** Entry point *)

Section Run.
Context `{!Builtins}.

(** C1: for every instruction, whatever the workers, the models and the
    graph do, [run_agent] raises nothing and returns a dict with a single
    key: [output], holding the [Output] of the final state, exactly when
    the graph returned, and [error], holding the text of the exception,
    exactly when the graph raised.  When it returns, the browser is not
    open: a browser the graph left open was closed, with its page,
    context, Playwright handle and site name dropped, and nothing else
    is touched. *)
Theorem run_agent_returns_dict (LLMConfig : router) (envs : nat -> env)
    (recursion_limit : nat) (input_str : string) (w : world) :
  exists value w',
    (run_agent LLMConfig envs recursion_limit input_str w = (Ok [("output", value)], w') \/
     run_agent LLMConfig envs recursion_limit input_str w = (Ok [("error", value)], w')) /\
    is_browser_open (browser w') = false /\
    (is_browser_open
       (browser (invoke_from LLMConfig envs recursion_limit 0 planner
                   (initial_state input_str) w).2) = true ->
     browser w' =
     (close_browser
        (browser (invoke_from LLMConfig envs recursion_limit 0 planner
                    (initial_state input_str) w).2)).1) /\
    match (invoke_from LLMConfig envs recursion_limit 0 planner
             (initial_state input_str) w).1 with
    | Ok response =>
        run_agent LLMConfig envs recursion_limit input_str w =
        (Ok [("output", Output response)], w')
    | Raise e =>
        run_agent LLMConfig envs recursion_limit input_str w =
        (Ok [("error", "Error during agent running: " +:+ e)], w')
    end /\
    (is_browser_open
       (browser (invoke_from LLMConfig envs recursion_limit 0 planner
                   (initial_state input_str) w).2) = true ->
     _page (browser w') = None /\ _browser (browser w') = None /\
     _playwright (browser w') = None /\ _current_site_name (browser w') = None) /\
    (is_browser_open
       (browser (invoke_from LLMConfig envs recursion_limit 0 planner
                   (initial_state input_str) w).2) = false ->
     w' = (invoke_from LLMConfig envs recursion_limit 0 planner
             (initial_state input_str) w).2) /\
    vector_db w' =
      vector_db (invoke_from LLMConfig envs recursion_limit 0 planner
                   (initial_state input_str) w).2.
Proof.
  unfold run_agent. unfold_st.
  destruct (invoke_from LLMConfig envs recursion_limit 0 planner
              (initial_state input_str) w) as [[response|e] w1]; cbn [fst snd] in *;
    destruct (is_browser_open (browser w1)) eqn:Hopen; cbn;
    eexists _, _; (split; [first [by left | by right]|]);
    repeat split; first [reflexivity | assumption | discriminate | by intros _].
Qed.

(** The two outcomes of the workflow, as [run_agent] reports them. *)
Lemma run_agent_reports (LLMConfig : router) (envs : nat -> env)
    (recursion_limit : nat) (input_str : string) (w : world) :
  match (invoke_from LLMConfig envs recursion_limit 0 planner
           (initial_state input_str) w).1 with
  | Ok response =>
      (run_agent LLMConfig envs recursion_limit input_str w).1 =
      Ok [("output", Output response)]
  | Raise e =>
      (run_agent LLMConfig envs recursion_limit input_str w).1 =
      Ok [("error", "Error during agent running: " +:+ e)]
  end.
Proof.
  unfold run_agent. unfold_st.
  destruct (invoke_from LLMConfig envs recursion_limit 0 planner
              (initial_state input_str) w) as [[response|e] w1]; simpl;
    destruct (is_browser_open (browser w1)); reflexivity.
Qed.

End Run.

(** ** Planner *)

Section Planner.
Context `{!Builtins}.

Lemma dict_set_same (d : list (string * pyval)) (k : string) (v : pyval) :
  dict_get d k = Some v -> dict_set d k v = d.
Proof.
  induction d as [|[k' v'] d IH]; simpl; [discriminate|].
  destruct (String.eqb k' k); intros Hg; simplify_eq; [reflexivity|].
  by rewrite IH.
Qed.

Lemma dict_get_set (d : list (string * pyval)) (k : string) (v : pyval) :
  dict_get (dict_set d k v) k = Some v.
Proof.
  induction d as [|[k' v'] d IH]; simpl.
  - by rewrite String.eqb_refl.
  - destruct (String.eqb k' k) eqn:E; simpl; rewrite E; [reflexivity | exact IH].
Qed.

Lemma numbered_from_nil (i : nat) : numbered_from i [].
Proof. intros j step Hj. by rewrite lookup_nil in Hj. Qed.

Lemma numbered_from_cons (i : nat) (x : pyval) (l : list pyval) :
  numbered_from i (x :: l) <->
  (exists d, x = PDict d /\ dict_get d "step_number" = Some (PInt (Z.of_nat (i + 1)))) /\
  numbered_from (S i) l.
Proof.
  split.
  - intros Hn. split.
    + destruct (Hn 0 x eq_refl) as (d & -> & Hd).
      exists d. split; [reflexivity|]. by rewrite Nat.add_0_r in Hd.
    + intros j step Hj. destruct (Hn (S j) step Hj) as (d & -> & Hd).
      exists d. split; [reflexivity|].
      by replace (S i + j + 1) with (i + S j + 1) by lia.
  - intros [(d & -> & Hd) Hl] [|j] step Hj; simpl in Hj; simplify_eq.
    + exists d. split; [reflexivity|]. by rewrite Nat.add_0_r.
    + destruct (Hl j step Hj) as (d' & -> & Hd').
      exists d'. split; [reflexivity|].
      by replace (i + S j + 1) with (S i + j + 1) by lia.
Qed.

Lemma numbered_from_app (i : nat) (l1 l2 : list pyval) :
  numbered_from i (l1 ++ l2) <->
  numbered_from i l1 /\ numbered_from (i + length l1) l2.
Proof.
  revert i. induction l1 as [|x l1 IH]; intros i; simpl.
  - rewrite Nat.add_0_r. split; [intros Hn; split; [apply numbered_from_nil | exact Hn] | tauto].
  - rewrite !numbered_from_cons, IH.
    replace (i + S (length l1)) with (S i + length l1) by lia. tauto.
Qed.

Lemma numbered_from_take (i keep : nat) (l : list pyval) :
  numbered_from i l -> numbered_from i (take keep l).
Proof.
  intros Hn j step Hj. apply Hn.
  apply lookup_take_Some in Hj. tauto.
Qed.

(** A numbering that runs to the end leaves a numbered list. *)
Lemma renumber_numbered (l : list pyval) :
  forall i l', renumber i l = (l', None) -> numbered_from i l' /\ length l' = length l.
Proof.
  induction l as [|x l IH]; intros i l' Hr; simpl in Hr.
  - simplify_eq. split; [apply numbered_from_nil | reflexivity].
  - destruct x; simpl in Hr; try discriminate.
    destruct (renumber (S i) l) as [rest' e] eqn:Hrest. simplify_eq.
    destruct (IH _ _ Hrest) as [Hn Hlen].
    split; [|simpl; by rewrite Hlen].
    apply numbered_from_cons. split; [|exact Hn].
    eexists. split; [reflexivity|]. apply dict_get_set.
Qed.

(** Numbering a prefix that is numbered already changes nothing. *)
Lemma renumber_fixed (l1 l2 : list pyval) :
  forall i, numbered_from i l1 ->
    renumber i (l1 ++ l2) =
    (l1 ++ (renumber (i + length l1) l2).1, (renumber (i + length l1) l2).2).
Proof.
  induction l1 as [|x l1 IH]; intros i Hn; simpl.
  - rewrite Nat.add_0_r. by destruct (renumber i l2).
  - apply numbered_from_cons in Hn as [(d & -> & Hd) Hn]. simpl.
    rewrite (dict_set_same _ _ _ Hd), (IH _ Hn).
    by replace (i + S (length l1)) with (S i + length l1) by lia.
Qed.

Lemma take_drop_length (keep : nat) (P : list pyval) :
  take keep P ++ drop (length (take keep P)) P = P.
Proof.
  rewrite length_take.
  destruct (Nat.le_ge_cases keep (length P)) as [Hle|Hge].
  - rewrite Nat.min_l by lia. apply take_drop.
  - rewrite Nat.min_r by lia. rewrite take_ge, drop_ge by lia. apply app_nil_r.
Qed.

(** *** The frame of the rotation loop *)

Lemma parse_response_keeps_plan (v : planner_variant)
    (invoke : nat -> attempt (option string)) (idx : nat) (f : frame) :
  f_current_plan (parse_response v invoke idx f).2 = f_current_plan f.
Proof.
  unfold parse_response, in_world. unfold_st. cbn.
  repeat (destruct_inner; cbn); reflexivity.
Qed.

Lemma in_world_keeps_plan {A : Type} (m : M A) (f : frame) :
  f_current_plan (in_world m f).2 = f_current_plan f.
Proof. unfold in_world. by destruct (m (f_world f)). Qed.

Lemma combine_with_completed_spec (v : planner_variant) (keep successful_index : nat)
    (detected_urls detected_sites : pyval) (new_steps : list pyval) (f : frame) :
  numbered_from 0 (take keep (f_current_plan f)) ->
  f_current_plan
    (combine_with_completed v keep successful_index detected_urls detected_sites
       new_steps f).2 = f_current_plan f /\
  forall u,
    (combine_with_completed v keep successful_index detected_urls detected_sites
       new_steps f).1 = Ok u ->
    exists suffix,
      u_plan u = Some (take keep (f_current_plan f) ++ suffix) /\
      u_step_index u = Some (length (take keep (f_current_plan f))) /\
      u_last_error u = Some None /\
      well_numbered (take keep (f_current_plan f) ++ suffix).
Proof.
  intros Hn.
  pose proof (renumber_fixed _ new_steps 0 Hn) as Hfix.
  pose proof (renumber_numbered (take keep (f_current_plan f) ++ new_steps) 0) as Hnum.
  unfold combine_with_completed. unfold_st. cbn.
  rewrite Hfix in *. cbn [fst snd] in *.
  destruct (renumber (0 + length (take keep (f_current_plan f))) new_steps)
    as [suffix stopped]; cbn in *.
  rewrite take_app_length, drop_app_length, take_drop_length.
  destruct stopped as [e|]; cbn; [split; [reflexivity | discriminate]|].
  destruct (logs_new_steps v); cbn;
    [destruct (log_new_steps suffix); cbn|];
    (split; [reflexivity|]); intros u Hu; simplify_eq;
    exists suffix; repeat split; by apply (Hnum _ eq_refl).
Qed.

Lemma planner_attempt_spec (v : planner_variant) (state : AgentState) (keep : nat)
    (invoke : nat -> attempt (option string)) (start_index len idx : nat) (f f' : frame)
    (r : result update) :
  numbered_from 0 (take keep (f_current_plan f)) ->
  planner_attempt v state keep invoke start_index len idx f = (r, f') ->
  f_current_plan f' = f_current_plan f /\
  forall u, r = Ok u ->
    exists suffix,
      u_plan u = Some (take keep (f_current_plan f) ++ suffix) /\
      u_step_index u = Some (length (take keep (f_current_plan f))) /\
      u_last_error u = Some None /\
      well_numbered (take keep (f_current_plan f) ++ suffix).
Proof.
  intros Hn Hrun. unfold planner_attempt in Hrun.
  pose proof (parse_response_keeps_plan v invoke idx f) as Hparse.
  change (base.mbind ?k ?m) with (st_bind m k) in Hrun. unfold st_bind at 1 in Hrun.
  destruct (parse_response v invoke idx f) as [[[[urls sites] new_steps]|e] f1];
    cbn in Hparse; [|simplify_eq; split; [exact Hparse | discriminate]].
  change (base.mbind ?k ?m) with (st_bind m k) in Hrun. unfold st_bind at 1 in Hrun.
  set (save := if truthy_opt (last_error state) && (0 <? length new_steps)%nat
               then in_world (save_error_resolution state new_steps) else mret tt) in Hrun.
  assert (Hsave : f_current_plan (save f1).2 = f_current_plan f1).
  { subst save. destruct (truthy_opt (last_error state) && (0 <? length new_steps)%nat);
      [apply in_world_keeps_plan | reflexivity]. }
  destruct (save f1) as [[[]|e] f2]; cbn in Hsave;
    [|simplify_eq; split; [congruence | discriminate]].
  rewrite <- Hparse, <- Hsave in *.
  destruct (combine_with_completed_spec v keep ((start_index + idx) `mod` len)
              urls sites new_steps f2 Hn) as [Hplan Hok].
  rewrite Hrun in Hplan, Hok. cbn in Hplan, Hok.
  split; [exact Hplan|]. intros u ->. by apply Hok.
Qed.

Lemma planner_loop_spec (v : planner_variant) (state : AgentState) (keep : nat)
    (invoke : nat -> attempt (option string)) (start_index len : nat)
    (rotation : list (string * llm)) :
  forall (idx : nat) (f f' : frame) (r : result (option update)),
    numbered_from 0 (take keep (f_current_plan f)) ->
    planner_loop v state keep invoke start_index len idx rotation f = (r, f') ->
    f_current_plan f' = f_current_plan f /\
    exists done, r = Ok done /\
      forall u, done = Some u ->
        exists suffix,
          u_plan u = Some (take keep (f_current_plan f) ++ suffix) /\
          u_step_index u = Some (length (take keep (f_current_plan f))) /\
          u_last_error u = Some None /\
          well_numbered (take keep (f_current_plan f) ++ suffix).
Proof.
  induction rotation as [|cand rest IH]; intros idx f f' r Hn Hrun.
  - cbn [planner_loop] in Hrun. unfold_st. simplify_eq. split; [reflexivity|].
    exists None. split; [reflexivity | discriminate].
  - cbn [planner_loop] in Hrun. unfold_st.
    destruct (planner_attempt v state keep invoke start_index len idx f)
      as [[u|e] f1] eqn:Hattempt;
      destruct (planner_attempt_spec _ _ _ _ _ _ _ _ _ _ Hn Hattempt) as [Hplan Hok].
    + cbn in Hrun. simplify_eq. split; [exact Hplan|].
      exists (Some u). split; [reflexivity|]. intros u' Hu. simplify_eq. by apply Hok.
    + destruct (any_in (retry_signatures v) (lower e)).
      * rewrite <- Hplan in *. by apply (IH (S idx)).
      * cbn in Hrun. simplify_eq. split; [exact Hplan|].
        exists None. split; [reflexivity | discriminate].
Qed.

(** The fall-back of [orchestration.py] returns the current plan. *)
Lemma planner_fallback_guarded (keep : nat) (f : frame) :
  exists u,
    planner_fallback orchestration_variant keep f = (Ok u, f) /\
    u_plan u = Some (f_current_plan f) /\
    u_step_index u = Some (length (take keep (f_current_plan f))) /\
    u_last_error u = Some None.
Proof.
  unfold planner_fallback, read_local. unfold_st. cbn.
  destruct (f_detected_urls f), (f_detected_sites f); cbn;
    eexists; repeat split.
Qed.

(** The fall-back of [agents/planner.py] reads locals that are unbound
    unless a candidate got as far as assigning them. *)
Lemma planner_fallback_unguarded (keep : nat) (f : frame) :
  f_detected_urls f = None ->
  planner_fallback agents_variant keep f =
  (Raise "cannot access local variable 'detected_urls' where it is not associated with a value",
   f).
Proof.
  intros Hnone. unfold planner_fallback, read_local. unfold_st. cbn.
  by rewrite Hnone.
Qed.

Lemma planner_prologue_world (v : planner_variant) (LLMConfig : router)
    (state : AgentState) (w w' : world) (r : result (list (string * llm))) :
  planner_prologue v LLMConfig state w = (r, w') -> w' = w.
Proof.
  intros Hrun. unfold planner_prologue, require_tavily_key in Hrun. unfold_st.
  repeat destruct_hyp Hrun; by simplify_eq.
Qed.

(** Every return of [central_agent1] ([orchestration.py]) on a state whose
    retained steps are numbered: the retained steps open the new plan. *)
Lemma central_agent1_replanned (LLMConfig : router)
    (invoke : nat -> attempt (option string)) (state : AgentState)
    (w w' : world) (u : update) :
  numbered_from 0 (take (retained state) (plan state)) ->
  central_agent1 LLMConfig invoke state w = (Ok u, w') ->
  replanned (plan state) (retained state) u.
Proof.
  intros Hn Hrun.
  unfold central_agent1, central_agent1_of in Hrun.
  change (base.mbind ?k ?m) with (st_bind m k) in Hrun. unfold st_bind at 1 in Hrun.
  destruct (planner_prologue orchestration_variant LLMConfig state w)
    as [[llm_rotation|err] w0]; [|discriminate].
  unfold with_frame in Hrun. unfold_st.
  match type of Hrun with
  | context [planner_loop ?v ?s ?k ?i ?st ?len ?idx ?rot ?f] =>
      destruct (planner_loop v s k i st len idx rot f) as [rl f1] eqn:Hloop;
      destruct (planner_loop_spec v s k i st len rot idx f f1 rl Hn Hloop)
        as [Hplan (done & -> & Hdone)]
  end.
  cbn in Hplan.
  destruct done as [u0|].
  - simplify_eq. destruct (Hdone u eq_refl) as (suffix & Hp & Hi & He & Hw).
    exists suffix. cbn in *. repeat split; auto.
  - destruct (planner_fallback_guarded (retained state) f1) as (u1 & Hfb & Hp & Hi & He).
    rewrite Hfb in Hrun. simplify_eq.
    exists (drop (length (take (retained state) (plan state))) (plan state)).
    rewrite take_drop_length, <- Hplan. repeat split; auto.
Qed.

(** When the rotation loop of [central_agent1] ([orchestration.py]) ends
    without a return, the planner returns the prior plan, the length of
    the retained prefix as [step_index], and no [last_error]. *)
Lemma planner_exhausted_keeps_plan (LLMConfig : router)
    (invoke : nat -> attempt (option string)) (state : AgentState) (w : world)
    (rotation : list (string * llm)) :
  numbered_from 0 (take (retained state) (plan state)) ->
  (planner_prologue orchestration_variant LLMConfig state w).1 = Ok rotation ->
  (planner_loop orchestration_variant state (retained state) invoke
     (current_model_index state) (length rotation) 0 rotation
     {| f_world := w; f_current_plan := plan state; f_detected_urls := None;
        f_detected_sites := None; f_new_steps := None |}).1 = Ok None ->
  exists u,
    (central_agent1 LLMConfig invoke state w).1 = Ok u /\
    u_plan u = Some (plan state) /\
    u_step_index u = Some (length (take (retained state) (plan state))) /\
    u_last_error u = Some None.
Proof.
  intros Hn Hpro Hexhausted.
  unfold central_agent1, central_agent1_of.
  change (base.mbind ?k ?m) with (st_bind m k). unfold st_bind at 1.
  destruct (planner_prologue orchestration_variant LLMConfig state w)
    as [r w0] eqn:Hp.
  pose proof (planner_prologue_world _ _ _ _ _ _ Hp) as ->.
  cbn in Hpro. subst r.
  unfold with_frame. unfold_st.
  match goal with
  | |- context [planner_loop ?v ?s ?k ?i ?st ?len ?idx ?rot ?f] =>
      destruct (planner_loop v s k i st len idx rot f) as [rl f1] eqn:Hloop;
      destruct (planner_loop_spec v s k i st len rot idx f f1 rl Hn Hloop)
        as [Hplan _]
  end.
  cbn in Hexhausted, Hplan. subst rl.
  destruct (planner_fallback_guarded (retained state) f1) as (u1 & Hfb & Hp1 & Hi & He).
  rewrite Hfb. exists u1. cbn. rewrite <- Hplan. auto.
Qed.

(** *** Candidates whose model call raises *)

Lemma planner_attempt_call_raises (v : planner_variant) (state : AgentState) (keep : nat)
    (invoke : nat -> attempt (option string)) (start_index len idx : nat) (f : frame)
    (e : string) :
  outcome (invoke idx) = Raise e ->
  planner_attempt v state keep invoke start_index len idx f =
  (Raise e, set_world (set_browser (browser_after (invoke idx)) (f_world f)) f).
Proof.
  intros Hcall. unfold planner_attempt, parse_response, in_world. unfold_st.
  by rewrite Hcall.
Qed.

Lemma planner_loop_calls_raise (v : planner_variant) (state : AgentState) (keep : nat)
    (invoke : nat -> attempt (option string)) (start_index len : nat)
    (rotation : list (string * llm)) :
  forall (idx : nat) (f : frame),
    (forall j, j < length rotation -> exists e, outcome (invoke (idx + j)) = Raise e) ->
    exists f',
      planner_loop v state keep invoke start_index len idx rotation f = (Ok None, f') /\
      f_current_plan f' = f_current_plan f /\
      f_detected_urls f' = f_detected_urls f.
Proof.
  induction rotation as [|cand rest IH]; intros idx f Hraise.
  - exists f. by repeat split.
  - destruct (Hraise 0) as (e & He); [simpl; lia|].
    rewrite Nat.add_0_r in He.
    cbn [planner_loop]. unfold try_catch.
    change (base.mbind ?k ?m) with (st_bind m k). unfold st_bind at 1.
    rewrite (planner_attempt_call_raises _ _ _ _ _ _ _ _ _ He).
    destruct (any_in (retry_signatures v) (lower e)).
    + destruct (IH (S idx)
                  (set_world (set_browser (browser_after (invoke idx)) (f_world f)) f))
        as (f' & Hloop & Hplan & Hurls).
      { intros j Hj. destruct (Hraise (S j)) as (e' & He'); [simpl; lia|].
        exists e'. by replace (S idx + j) with (idx + S j) by lia. }
      exists f'. by repeat split.
    + eexists. by repeat split.
Qed.

(** When every candidate's model call raises, the copy in
    [agents/planner.py] raises from its fall-back, whatever the state. *)
Lemma agents_planner_calls_raise (LLMConfig : router)
    (invoke : nat -> attempt (option string)) (state : AgentState) (w : world)
    (rotation : list (string * llm)) :
  (planner_prologue agents_variant LLMConfig state w).1 = Ok rotation ->
  (forall idx, idx < length rotation -> exists e, outcome (invoke idx) = Raise e) ->
  (Agents.central_agent1 LLMConfig invoke state w).1 =
  Raise "cannot access local variable 'detected_urls' where it is not associated with a value".
Proof.
  intros Hpro Hraise.
  unfold Agents.central_agent1, central_agent1_of.
  change (base.mbind ?k ?m) with (st_bind m k). unfold st_bind at 1.
  destruct (planner_prologue agents_variant LLMConfig state w) as [r w0] eqn:Hp.
  pose proof (planner_prologue_world _ _ _ _ _ _ Hp) as ->.
  cbn in Hpro. subst r.
  unfold with_frame.
  change (base.mbind ?k ?m) with (st_bind m k). unfold st_bind at 1.
  match goal with
  | |- context [planner_loop ?v ?s ?k ?i ?st ?len ?idx ?rot ?f] =>
      destruct (planner_loop_calls_raise v s k i st len rot idx f Hraise)
        as (f' & -> & _ & Hurls)
  end.
  by rewrite planner_fallback_unguarded.
Qed.

(** The copy in [orchestration.py] then returns the prior plan, whatever
    the state. *)
Lemma planner_calls_raise (LLMConfig : router)
    (invoke : nat -> attempt (option string)) (state : AgentState) (w : world)
    (rotation : list (string * llm)) :
  (planner_prologue orchestration_variant LLMConfig state w).1 = Ok rotation ->
  (forall idx, idx < length rotation -> exists e, outcome (invoke idx) = Raise e) ->
  exists u,
    (central_agent1 LLMConfig invoke state w).1 = Ok u /\
    u_plan u = Some (plan state) /\
    u_step_index u = Some (length (take (retained state) (plan state))) /\
    u_last_error u = Some None.
Proof.
  intros Hpro Hraise.
  unfold central_agent1, central_agent1_of.
  change (base.mbind ?k ?m) with (st_bind m k). unfold st_bind at 1.
  destruct (planner_prologue orchestration_variant LLMConfig state w) as [r w0] eqn:Hp.
  pose proof (planner_prologue_world _ _ _ _ _ _ Hp) as ->.
  cbn in Hpro. subst r.
  unfold with_frame.
  change (base.mbind ?k ?m) with (st_bind m k). unfold st_bind at 1.
  match goal with
  | |- context [planner_loop ?v ?s ?k ?i ?st ?len ?idx ?rot ?f] =>
      destruct (planner_loop_calls_raise v s k i st len rot idx f Hraise)
        as (f' & -> & Hplan & _)
  end.
  destruct (planner_fallback_guarded (retained state) f') as (u & -> & Hu & Hi & He).
  exists u. cbn in *. rewrite <- Hplan. auto.
Qed.

(** *** What the other workers do to the plan *)

Lemma redirector_plan_update (log_slice : bool) (state : AgentState) (c : Command) :
  redirector_of log_slice state = Ok c ->
  u_plan (cmd_update c) = None \/ u_plan (cmd_update c) = Some [].
Proof.
  intros Hr. unfold redirector_of in Hr.
  split_result Hr; simplify_eq; cbn; auto.
Qed.

Lemma execution_success_plan (start_index len idx : nat) (r : agent_result) :
  u_plan (cmd_update (execution_success start_index len idx r)) = None.
Proof. unfold execution_success. by destruct (_ && _). Qed.

Lemma execution_loop_plan (state : AgentState) (invoke : nat -> attempt agent_result)
    (start_index len : nat) (rotation : list (string * llm)) :
  forall idx last_err w c w',
    execution_loop state invoke start_index len idx rotation last_err w = (Ok c, w') ->
    u_plan (cmd_update c) = None.
Proof.
  induction rotation as [|cand rest IH]; intros idx last_err w c w' Hrun.
  - cbn in Hrun. unfold_st. by simplify_eq.
  - rewrite execution_loop_cons in Hrun.
    destruct (outcome (invoke idx)) as [r|e].
    + simplify_eq. apply execution_success_plan.
    + destruct (rotates_on e); [by eapply IH | by simplify_eq].
Qed.

Lemma execution_agent_plan (rotation : result (list (string * llm)))
    (invoke : nat -> attempt agent_result) (state : AgentState) (w w' : world) (c : Command) :
  execution_agent rotation invoke state w = (Ok c, w') ->
  u_plan (cmd_update c) = None.
Proof.
  intros Hrun. unfold execution_agent, require_tavily_key in Hrun. unfold_st.
  repeat match type of Hrun with
         | context [execution_loop] => fail 1
         | _ => destruct_hyp Hrun
         end.
  all: try discriminate.
  all: repeat match type of Hrun with
         | match ?x with _ => _ end = _ =>
             lazymatch x with
             | context [execution_loop] => fail
             | _ => destruct x eqn:?; try discriminate
             end
         end.
  all: by eapply execution_loop_plan.
Qed.

Lemma formatting_loop_plan (invoke : nat -> attempt string) (start_index len : nat)
    (rotation : list (string * llm)) :
  forall idx last_err w c w',
    formatting_loop invoke start_index len idx rotation last_err w = (Ok c, w') ->
    u_plan (cmd_update c) = None.
Proof.
  induction rotation as [|cand rest IH]; intros idx last_err w c w' Hrun.
  - cbn in Hrun. unfold_st. by simplify_eq.
  - cbn [formatting_loop] in Hrun. unfold_st.
    destruct (outcome (invoke idx)) as [text|e]; [by simplify_eq|].
    destruct (any_in formatting_rate_limit (lower e)); [by eapply IH | by simplify_eq].
Qed.

Lemma output_formatting_agent_plan (LLMConfig : router) (invoke : nat -> attempt string)
    (state : AgentState) (w w' : world) (c : Command) :
  output_formatting_agent LLMConfig invoke state w = (Ok c, w') ->
  u_plan (cmd_update c) = None.
Proof.
  intros Hrun. unfold output_formatting_agent in Hrun. unfold_st.
  destruct (last_item (output_agent_messages state)); [|discriminate].
  destruct (get_main_llm_with_rotation LLMConfig (current_model_index state)
              (llm_provider state)); [|discriminate].
  by eapply formatting_loop_plan.
Qed.

Lemma rag_plan (state : AgentState) (w w' : world) (c : Command) :
  rag state w = (Ok c, w') -> u_plan (cmd_update c) = None.
Proof.
  intros Hrun. unfold rag in Hrun. unfold_st.
  repeat destruct_hyp Hrun; by simplify_eq.
Qed.

Lemma apply_update_plan (s s' : AgentState) (u : update) :
  apply_update s u = Ok s' -> plan s' = default (plan s) (u_plan u).
Proof.
  intros Ha. unfold apply_update in Ha. unfold_result.
  repeat destruct_hyp Ha; by simplify_eq.
Qed.

(** *** The plan of a run *)

(** Every state a run passes through holds a numbered plan. *)
Lemma reachable_well_numbered (LLMConfig : router) (n : node) (s : AgentState) (w : world) :
  reachable LLMConfig n s w -> well_numbered (plan s).
Proof.
  induction 1 as [input_str w|n s w e cmd w' s' Hreach IH Hnode Happly].
  - apply numbered_from_nil.
  - rewrite (apply_update_plan _ _ _ Happly).
    destruct n; cbn in Hnode.
    + unfold_st.
      destruct (central_agent1 LLMConfig (planner_invoke e) s w) as [[u|err] w1] eqn:Hp;
        simplify_eq. cbn.
      destruct (central_agent1_replanned _ _ _ _ _ _
                  (numbered_from_take _ _ _ IH) Hp) as (suffix & -> & _ & _ & [Hw|Heq]);
        cbn; [exact Hw | by rewrite Heq].
    + by rewrite (execution_agent_plan _ _ _ _ _ _ Hnode).
    + by rewrite (output_formatting_agent_plan _ _ _ _ _ _ Hnode).
    + unfold_st. destruct (redirector s) as [c|] eqn:Hr; simplify_eq.
      destruct (redirector_plan_update _ _ _ Hr) as [-> | ->]; cbn;
        [exact IH | apply numbered_from_nil].
    + by rewrite (rag_plan _ _ _ _ Hnode).
    + unfold_st. by simplify_eq.
Qed.

(** [d["step_number"]] of a numbered step *)
Lemma well_numbered_getitem (p : list pyval) (i : nat) (step : pyval) :
  well_numbered p -> p !! i = Some step ->
  getitem step "step_number" = Ok (PInt (Z.of_nat (i + 1))).
Proof.
  intros Hw Hi. destruct (Hw i step Hi) as (d & -> & Hd). cbn. by rewrite Hd.
Qed.

(** C2: in error recovery at [step_index = k], every step of the prior
    plan at a position below [k] stands unchanged at the same position of
    the plan the planner returns. *)
Theorem replan_keeps_completed_steps (LLMConfig : router)
    (invoke : nat -> attempt (option string)) (state : AgentState) (w : world) (u : update) :
  reachable LLMConfig planner state w ->
  error_recovery state = true ->
  (central_agent1 LLMConfig invoke state w).1 = Ok u ->
  exists new_plan,
    u_plan u = Some new_plan /\
    forall i step,
      i < step_index state -> plan state !! i = Some step -> new_plan !! i = Some step.
Proof.
  intros Hreach Hmode Hrun.
  destruct (central_agent1 LLMConfig invoke state w) as [r w'] eqn:Hp.
  cbn in Hrun. subst r.
  pose proof (reachable_well_numbered _ _ _ _ Hreach) as Hw.
  destruct (central_agent1_replanned _ _ _ _ _ _
              (numbered_from_take _ _ _ Hw) Hp) as (suffix & Hplan & _).
  unfold retained in Hplan. rewrite Hmode in Hplan.
  exists (take (step_index state) (plan state) ++ suffix).
  split; [exact Hplan|].
  intros i step Hi Hstep.
  apply lookup_app_l_Some. rewrite lookup_take_lt by exact Hi. exact Hstep.
Qed.

(** C3: every plan the planner returns, in each of its modes and on the
    fall-back after the rotation loop, has [step_number = position + 1] at
    every position. *)
Theorem planner_plan_well_numbered (LLMConfig : router)
    (invoke : nat -> attempt (option string)) (state : AgentState) (w : world) (u : update) :
  reachable LLMConfig planner state w ->
  (central_agent1 LLMConfig invoke state w).1 = Ok u ->
  exists new_plan,
    u_plan u = Some new_plan /\
    well_numbered new_plan /\
    forall i step,
      new_plan !! i = Some step ->
      getitem step "step_number" = Ok (PInt (Z.of_nat (i + 1))).
Proof.
  intros Hreach Hrun.
  destruct (central_agent1 LLMConfig invoke state w) as [r w'] eqn:Hp.
  cbn in Hrun. subst r.
  pose proof (reachable_well_numbered _ _ _ _ Hreach) as Hw.
  destruct (central_agent1_replanned _ _ _ _ _ _
              (numbered_from_take _ _ _ Hw) Hp) as (suffix & Hplan & _ & _ & Hnum).
  assert (Hnew : well_numbered
                   (take (retained state) (plan state) ++ suffix))
    by (destruct Hnum as [Hn|Heq]; [exact Hn | by rewrite Heq]).
  eexists. split; [exact Hplan|]. split; [exact Hnew|].
  intros i step. by apply well_numbered_getitem.
Qed.

End Planner.

(** *** A run that re-enters the planner after a failed step *)

Lemma reach_next `{!Builtins} (LLMConfig : router) (n : node) (s : AgentState) (w : world)
    (e : env) :
  reachable LLMConfig n s w ->
  match run_node LLMConfig e n s w with
  | (Ok cmd, w') =>
      match apply_update s (cmd_update cmd) with
      | Ok s' => reachable LLMConfig (goto cmd) s' w'
      | Raise _ => True
      end
  | (Raise _, _) => True
  end.
Proof.
  intros Hreach.
  destruct (run_node LLMConfig e n s w) as [[cmd|err] w'] eqn:Hnode; [|exact I].
  destruct (apply_update s (cmd_update cmd)) as [s'|err] eqn:Happly; [|exact I].
  by eapply reach_step.
Qed.

Lemma after_failed_login_reachable :
  reachable sample_router planner after_failed_login (sample_world None).
Proof.
  pose proof (reach_start sample_router "log in to example.com" (sample_world None)) as H0.
  pose proof (reach_next _ _ _ _ failing_login H0) as H1. vm_compute in H1.
  pose proof (reach_next _ _ _ _ failing_login H1) as H2. vm_compute in H2.
  pose proof (reach_next _ _ _ _ failing_login H2) as H3. vm_compute in H3.
  exact H3.
Qed.

(** C2 at the run above: the repaired plan keeps the completed first step. *)
Lemma replan_keeps_completed_steps_witness :
  exists u,
    (central_agent1 sample_router (fun _ => plans "repaired plan")
       after_failed_login (sample_world None)).1 = Ok u /\
    exists new_plan,
      u_plan u = Some new_plan /\
      forall i step,
        i < step_index after_failed_login ->
        plan after_failed_login !! i = Some step -> new_plan !! i = Some step.
Proof.
  eexists. split; [reflexivity|].
  apply (replan_keeps_completed_steps sample_router (fun _ => plans "repaired plan")
           after_failed_login (sample_world None)).
  - exact after_failed_login_reachable.
  - reflexivity.
  - reflexivity.
Defined.

(** C3 at the first planning of a run: the model's steps all carry the
    number 0 and come back numbered 1, 2, 3. *)
Lemma planner_plan_well_numbered_witness :
  exists u,
    (central_agent1 sample_router (fun _ => plans "first plan")
       (initial_state "log in to example.com") (sample_world None)).1 = Ok u /\
    exists new_plan,
      u_plan u = Some new_plan /\
      well_numbered new_plan /\
      forall i step,
        new_plan !! i = Some step ->
        getitem step "step_number" = Ok (PInt (Z.of_nat (i + 1))).
Proof.
  eexists. split; [reflexivity|].
  apply (planner_plan_well_numbered sample_router (fun _ => plans "first plan")
           (initial_state "log in to example.com") (sample_world None)).
  - apply reach_start.
  - reflexivity.
Defined.

Example repaired_plan :
  (central_agent1 sample_router (fun _ => plans "repaired plan")
     after_failed_login (sample_world None)).1 =
  Ok (with_plan
        [sample_step 1 "EXECUTION" "open example.com";
         sample_step 2 "EXECUTION" "log in with the visible form";
         sample_step 3 "end" "done"]
        (with_step_index 1
           (with_last_error None
              (with_urls (PList [])
                 (with_site_names (PList [])
                    (with_current_model_index 0
                       (with_messages
                          [text_message Human "[Planner]: Plan updated. Phase steps: 2."]
                          no_update))))))).
Proof. reflexivity. Qed.

(** *** The fall-back after the rotation loop *)

(** X1: in a run, when the rotation loop of [central_agent1]
    ([orchestration.py]) ends without a candidate's return, the planner
    raises nothing and returns the prior plan unmodified, [step_index] equal
    to the length of the retained prefix, and [last_error] cleared. *)
Theorem planner_exhausted_returns_prior_plan `{!Builtins} (LLMConfig : router)
    (invoke : nat -> attempt (option string)) (state : AgentState) (w : world)
    (rotation : list (string * llm)) :
  reachable LLMConfig planner state w ->
  (planner_prologue orchestration_variant LLMConfig state w).1 = Ok rotation ->
  (planner_loop orchestration_variant state (retained state) invoke
     (current_model_index state) (length rotation) 0 rotation
     {| f_world := w; f_current_plan := plan state; f_detected_urls := None;
        f_detected_sites := None; f_new_steps := None |}).1 = Ok None ->
  exists u,
    (central_agent1 LLMConfig invoke state w).1 = Ok u /\
    u_plan u = Some (plan state) /\
    u_step_index u = Some (length (take (retained state) (plan state))) /\
    u_last_error u = Some None.
Proof.
  intros Hreach. apply planner_exhausted_keeps_plan.
  apply numbered_from_take. by eapply reachable_well_numbered.
Qed.

(** X1 at the run above, with every candidate rate limited. *)
Lemma planner_exhausted_returns_prior_plan_witness :
  exists u,
    (central_agent1 sample_router (fun _ => fails_with "Error code: 429 - rate limit reached")
       after_failed_login (sample_world None)).1 = Ok u /\
    u_plan u = Some (plan after_failed_login) /\
    u_step_index u =
      Some (length (take (retained after_failed_login) (plan after_failed_login))) /\
    u_last_error u = Some None.
Proof.
  apply (planner_exhausted_returns_prior_plan sample_router
           (fun _ => fails_with "Error code: 429 - rate limit reached")
           after_failed_login (sample_world None) (build_main sample_router None)).
  - exact after_failed_login_reachable.
  - reflexivity.
  - reflexivity.
Defined.

(** C6: the same state and the same rate-limited candidates, given to the
    two copies of the planner.  The copy in [agents/planner.py] raises from
    its fall-back, where [detected_urls] was never assigned; the copy in
    [orchestration.py] returns the prior plan. *)
Lemma planner_fallback_copies_differ :
  (Agents.central_agent1 sample_router
     (fun _ => fails_with "Error code: 429 - rate limit reached")
     after_failed_login (sample_world None)).1 =
  Raise "cannot access local variable 'detected_urls' where it is not associated with a value"
  /\
  (Orchestration.central_agent1 sample_router
     (fun _ => fails_with "Error code: 429 - rate limit reached")
     after_failed_login (sample_world None)).1 =
  Ok (with_plan (plan after_failed_login)
        (with_step_index 1
           (with_last_error None
              (with_urls (PList [])
                 (with_site_names (PList [])
                    (with_messages
                       [text_message Human "[Planner]: Planning failed. Using existing plan."]
                       no_update)))))).
Proof. split; reflexivity. Qed.

(** * Further properties *)

(** One step into a sequence of the state monad. *)
Ltac step_bind :=
  change (base.mbind ?k ?m) with (st_bind m k); unfold st_bind at 1.

(** ** Rotations keep their candidates *)

Lemma rotate_permutation {A : Type} (l : list A) (k : nat) : rotate l k ≡ₚ l.
Proof.
  unfold rotate. rewrite Permutation_app_comm. by rewrite take_drop.
Qed.

(** X2: whatever the start index, also one beyond the length, the list
    [get_main_llm_with_rotation] returns holds exactly the candidates that
    were built, none dropped and none twice, and it is never empty;
    [rotate_keys] likewise returns a permutation of its keys. *)
Theorem main_rotation_keeps_candidates (r : router) (start_index : nat)
    (provider : option string) (rotated : list (string * llm)) :
  get_main_llm_with_rotation r start_index provider = Ok rotated ->
  rotated ≡ₚ build_main r provider /\
  length rotated = length (build_main r provider) /\
  0 < length rotated /\
  (forall keys k, rotate_keys keys k ≡ₚ keys).
Proof.
  unfold get_main_llm_with_rotation. intros Hrun.
  destruct (bool_decide (build_main r provider = [])) eqn:Hempty; [discriminate|].
  apply bool_decide_eq_false in Hempty.
  assert (Hperm : rotated ≡ₚ build_main r provider).
  { simplify_eq. destruct (0 <? start_index)%nat; [apply rotate_permutation | reflexivity]. }
  split; [exact Hperm|]. split; [by rewrite Hperm|]. split.
  - rewrite Hperm. destruct (build_main r provider); [done | simpl; lia].
  - intros keys k. rewrite rotate_keys_rotate. apply rotate_permutation.
Qed.

(** X2 at three keys and the start index 1: the second key comes first. *)
Lemma main_rotation_keeps_candidates_witness :
  rotate (build_main sample_router None) 1 ≡ₚ build_main sample_router None /\
  length (rotate (build_main sample_router None) 1) =
    length (build_main sample_router None) /\
  0 < length (rotate (build_main sample_router None) 1) /\
  (forall keys k, rotate_keys keys k ≡ₚ keys).
Proof.
  apply (main_rotation_keeps_candidates sample_router 1 None). reflexivity.
Defined.

(** ** Vision rotation *)

(** X3: [get_vision_llm_with_rotation] raises exactly when nothing could be
    built; otherwise it returns a permutation of the built list, which is
    the built list itself for start index 0 or a single candidate.  The
    local model is built first, so it heads the list at start index 0; but
    a start index [0 < k < len] puts [built[k]] at the head, local model
    or not. *)
Theorem vision_rotation (s : vision_sources) (start_index : nat) :
  (build_vision s = [] ->
   get_vision_llm_with_rotation s start_index =
   Raise "No valid vision LLM available (Ollama or Groq)") /\
  (build_vision s <> [] ->
   exists rotated,
     get_vision_llm_with_rotation s start_index = Ok rotated /\
     rotated ≡ₚ build_vision s /\
     (start_index = 0 \/ length (build_vision s) = 1 -> rotated = build_vision s) /\
     (0 < start_index < length (build_vision s) ->
      head rotated = build_vision s !! start_index)) /\
  (forall m, vision_ollama_available s = true -> vision_ollama_model s = Ok m ->
     head (build_vision s) = Some ("ollama_vision", m)).
Proof.
  unfold get_vision_llm_with_rotation.
  split; [intros ->; reflexivity|]. split.
  - intros Hne. rewrite bool_decide_false by exact Hne.
    eexists. split; [reflexivity|]. split; [|split].
    + destruct (_ && _); [apply rotate_permutation | reflexivity].
    + intros [-> | Hone]; [reflexivity|].
      rewrite Hone. simpl. by rewrite andb_false_r.
    + intros [Hpos Hlt].
      assert (H1 : (0 <? start_index)%nat = true) by (apply Nat.ltb_lt; lia).
      assert (H2 : (1 <? length (build_vision s))%nat = true) by (apply Nat.ltb_lt; lia).
      rewrite H1, H2. simpl.
      rewrite head_lookup, rotate_lookup by lia.
      by rewrite Nat.add_0_r, Nat.mod_small by lia.
  - intros m Hav Hm. unfold build_vision. by rewrite Hav, Hm.
Qed.

(** ** Loaded keys *)

Lemma load_range_length (getenv : string -> option string) (name : string) (count : nat) :
  forall i, length (load_range getenv name i count) <= count.
Proof.
  induction count as [|count IH]; intros i; simpl; [lia|].
  specialize (IH (S i)).
  destruct (getenv (name +:+ str_nat i)) as [key|]; [|lia].
  destruct (String.eqb key ""); simpl; lia.
Qed.

Lemma load_range_elem (getenv : string -> option string) (name key : string) (count : nat) :
  forall i,
    key ∈ load_range getenv name i count <->
    exists j, i <= j < i + count /\ getenv (name +:+ str_nat j) = Some key /\ key <> "".
Proof.
  induction count as [|count IH]; intros i; simpl.
  - split; [by intros ?%elem_of_nil | intros (j & ? & _); lia].
  - assert (Hshift : (exists j, S i <= j < S i + count /\
                        getenv (name +:+ str_nat j) = Some key /\ key <> "") ->
                     exists j, i <= j < i + S count /\
                        getenv (name +:+ str_nat j) = Some key /\ key <> "").
    { intros (j & ? & ?). exists j. split; [lia | assumption]. }
    assert (Hrest : forall j, i <= j < i + S count -> j <> i -> S i <= j < S i + count)
      by (intros; lia).
    destruct (getenv (name +:+ str_nat i)) as [k|] eqn:Hk.
    + destruct (String.eqb k "") eqn:Hempty.
      * apply String.eqb_eq in Hempty. subst k. rewrite IH.
        split; [exact Hshift|]. intros (j & Hj & Hget & Hne).
        destruct (decide (j = i)) as [->|Hji]; [congruence|].
        exists j. auto.
      * apply String.eqb_neq in Hempty. rewrite elem_of_cons, IH.
        split.
        -- intros [-> | Hin]; [exists i; repeat split; (lia || assumption) | by apply Hshift].
        -- intros (j & Hj & Hget & Hne).
           destruct (decide (j = i)) as [->|Hji]; [left; congruence|].
           right. exists j. auto.
    + rewrite IH. split; [exact Hshift|]. intros (j & Hj & Hget & Hne).
      destruct (decide (j = i)) as [->|Hji]; [congruence|].
      exists j. auto.
Qed.

Lemma add_keys_length (p : provider) (name : string) (keys : list string) :
  forall idx, length (add_keys p name idx keys) <= length keys.
Proof.
  induction keys as [|key rest IH]; intros idx; simpl; [lia|].
  specialize (IH (S idx)). destruct (get_model p (Some key)); simpl; lia.
Qed.

Lemma build_main_length (r : router) (provider : option string) :
  length (build_main r provider) <=
  Nat.max (length (gemini_keys r) + length (groq_keys r))
    (Nat.max (length (sambanova_keys r)) 1).
Proof.
  pose proof (add_keys_length (gemini_provider r) "gemini_llm" (gemini_keys r) 1) as Hg.
  pose proof (add_keys_length (groq_provider r) "groq_llm" (groq_keys r) 1) as Hq.
  pose proof (add_keys_length (sambanova_provider r) "sambanova" (sambanova_keys r) 1) as Hs.
  unfold build_main. rewrite !length_app.
  destruct provider as [name|]; unfold provider_is, is_none; cbn [orb].
  - repeat case_bool_decide; simplify_eq; cbn [andb orb length];
      try destruct (ollama_available r); cbn [length];
      try destruct (get_model (ollama_provider r) None); cbn [length]; lia.
  - rewrite !bool_decide_false by discriminate. cbn [andb length]. lia.
Qed.

Lemma loaded_elem (getenv : string -> option string) (name key : string) (count : nat) :
  key ∈ load_range getenv name 1 count <->
  exists i, 1 <= i <= count /\ getenv (name +:+ str_nat i) = Some key /\ key <> "".
Proof.
  rewrite load_range_elem.
  split; intros (i & Hi & Hrest); exists i; (split; [lia | exact Hrest]).
Qed.

Lemma loaded_rotation_bound (g q s : nat) :
  g <= 16 -> q <= 5 -> s <= 3 -> Nat.max (g + q) (Nat.max s 1) <= 21.
Proof. lia. Qed.

(** X4: [_load_keys] keeps at most 16 Gemini, 5 Groq and 3 SambaNova keys;
    for each of the three providers a key is loaded exactly when it is
    the non-empty value of one of the numbered variables of that
    provider; and whatever the provider filter, the main rotation built
    from the loaded keys has at most 21 candidates. *)
Theorem loaded_keys_bounded (getenv : string -> option string)
    (gemini groq sambanova ollama : provider) (ollama_is_available : bool)
    (provider : option string) :
  length (_gemini_keys (_load_keys getenv)) <= 16 /\
  length (_groq_keys (_load_keys getenv)) <= 5 /\
  length (_sambanova_keys (_load_keys getenv)) <= 3 /\
  (forall key,
     key ∈ _gemini_keys (_load_keys getenv) <->
     exists i, 1 <= i <= 16 /\
               getenv ("GOOGLE_API_KEY" +:+ str_nat i) = Some key /\ key <> "") /\
  (forall key,
     key ∈ _groq_keys (_load_keys getenv) <->
     exists i, 1 <= i <= 5 /\
               getenv ("GROQ_API_KEY" +:+ str_nat i) = Some key /\ key <> "") /\
  (forall key,
     key ∈ _sambanova_keys (_load_keys getenv) <->
     exists i, 1 <= i <= 3 /\
               getenv ("SAMBANOVA_API_KEY" +:+ str_nat i) = Some key /\ key <> "") /\
  length (build_main
            (router_of (_load_keys getenv) gemini groq sambanova ollama ollama_is_available)
            provider) <= 21.
Proof.
  split; [apply load_range_length|].
  split; [apply load_range_length|].
  split; [apply load_range_length|].
  split; [intros key; exact (loaded_elem getenv "GOOGLE_API_KEY" key 16)|].
  split; [intros key; exact (loaded_elem getenv "GROQ_API_KEY" key 5)|].
  split; [intros key; exact (loaded_elem getenv "SAMBANOVA_API_KEY" key 3)|].
  etransitivity; [apply build_main_length|].
  apply loaded_rotation_bound; apply load_range_length.
Qed.

(** ** Opening a session *)

Section SessionFacts.
Variable isalnum : Ascii.ascii -> bool.
Variable pw : playwright.

Lemma lstrip_chars (P : Ascii.ascii -> Prop) (s : string) :
  Forall P (String.list_ascii_of_string s) -> Forall P (String.list_ascii_of_string (lstrip s)).
Proof.
  induction s as [|c s IH]; simpl; [done|].
  intros Hall. destruct (is_space c); [|exact Hall].
  apply IH. by inversion Hall.
Qed.

Lemma rstrip_chars (P : Ascii.ascii -> Prop) (s : string) :
  Forall P (String.list_ascii_of_string s) -> Forall P (String.list_ascii_of_string (rstrip s)).
Proof.
  induction s as [|c s IH]; simpl; [done|].
  intros Hall. inversion Hall as [|? ? Hc Hs]; subst.
  specialize (IH Hs).
  destruct (rstrip s) as [|c' t] eqn:Hr.
  - destruct (is_space c); simpl; [constructor | by constructor].
  - simpl. by constructor.
Qed.

Lemma keep_chars_chars (f : Ascii.ascii -> bool) (s : string) :
  Forall (fun c => f c = true) (String.list_ascii_of_string (keep_chars f s)).
Proof.
  induction s as [|c s IH]; simpl; [constructor|].
  destruct (f c) eqn:Hf; simpl; [by constructor | exact IH].
Qed.

(** X5: the profile name [start_browser] derives from a site name is never
    empty, and it is either ["default"] or made only of characters that
    are alphanumeric, [-] or [_]: no separator of a path reaches the
    profile directory. *)
Theorem safe_site_name_safe (site_name : string) :
  safe_site_name isalnum site_name <> "" /\
  (safe_site_name isalnum site_name = "default" \/
   Forall (fun c => allowed_char isalnum c = true)
     (String.list_ascii_of_string (safe_site_name isalnum site_name))).
Proof.
  unfold safe_site_name.
  destruct (String.eqb (strip (keep_chars (allowed_char isalnum) site_name)) "") eqn:Hempty.
  - split; [discriminate | by left].
  - apply String.eqb_neq in Hempty. split; [exact Hempty|]. right.
    unfold strip. apply rstrip_chars, lstrip_chars, keep_chars_chars.
Qed.

Lemma closing_spec (bm : browser_manager) :
  closing bm = (Ok tt, (close_browser bm).1).
Proof. reflexivity. Qed.

Lemma launch_spec (url site_name : string) (bm0 bm : browser_manager) :
  _headless_mode bm = _headless_mode bm0 ->
  let safe := safe_site_name isalnum site_name in
  let launch : ST browser_manager string :=
    (lift (ensure_dir pw ("./profiles/" +:+ safe +:+ "_profile"));;
     bm ← get;
     (if is_Some_b (_playwright bm) then mret tt
      else lift (start_playwright pw);; modify set_playwright);;
     bm ← get;
     first_page ← lift (launch_persistent_context pw
                          ("./profiles/" +:+ safe +:+ "_profile") (_headless_mode bm));
     modify (set_context safe);;
     modify (set_page (Some first_page));;
     p' ← lift (goto_page pw first_page url);
     modify (set_page (Some p'));;
     mret ("Browser started for " +:+ safe)) in
  match launch bm with
  | (Ok status, bm') => started isalnum pw url site_name bm0 status bm'
  | (Raise _, bm') => _headless_mode bm' = _headless_mode bm0
  end.
Proof.
  intros Hh. cbv zeta. unfold_st.
  destruct (ensure_dir pw _) as [[]|e]; [|exact Hh].
  destruct (_playwright bm) as [[]|] eqn:Hpw; cbn [is_Some_b].
  - destruct (launch_persistent_context pw _ _) as [first_page|e] eqn:Hl; [|exact Hh].
    destruct (goto_page pw first_page url) as [p'|e] eqn:Hg; [|exact Hh].
    rewrite Hh in Hl. by eapply started_launched.
  - destruct (start_playwright pw) as [[]|e]; [|exact Hh].
    cbn [set_playwright _headless_mode].
    destruct (launch_persistent_context pw _ _) as [first_page|e] eqn:Hl; [|exact Hh].
    destruct (goto_page pw first_page url) as [p'|e] eqn:Hg; [|exact Hh].
    rewrite Hh in Hl. by eapply started_launched.
Qed.

Lemma start_browser_body_spec (url site_name : string) (bm : browser_manager) :
  match start_browser_body isalnum pw url site_name bm with
  | (Ok status, bm') => started isalnum pw url site_name bm status bm'
  | (Raise _, bm') => _headless_mode bm' = _headless_mode bm
  end.
Proof.
  unfold start_browser_body.
  step_bind. cbn [get].
  destruct (is_Some_b (_browser bm) &&
            negb (bool_decide (_current_site_name bm = Some (safe_site_name isalnum site_name))))
    eqn:Hswitch.
  - step_bind. rewrite closing_spec. step_bind.
    cbn [get close_browser fst _page]. step_bind. cbn [base.mret ST_ret st_ret].
    apply (launch_spec url site_name bm). reflexivity.
  - step_bind. cbn [base.mret ST_ret st_ret]. step_bind. cbn [get].
    assert (Hsame : _browser bm = None \/
                    _current_site_name bm = Some (safe_site_name isalnum site_name)).
    { apply andb_false_iff in Hswitch as [Hb | Hn].
      - left. by destruct (_browser bm).
      - right. apply negb_false_iff, bool_decide_eq_true in Hn. exact Hn. }
    destruct (_page bm) as [p|] eqn:Hp.
    + destruct (is_closed p) eqn:Hc; cbn [negb].
      * step_bind. cbn [base.mret ST_ret st_ret].
        apply (launch_spec url site_name bm). reflexivity.
      * step_bind. unfold try_catch.
        step_bind. unfold lift at 1.
        destruct (goto_page pw p url) as [p'|e] eqn:Hg.
        -- step_bind. cbn [modify base.mret ST_ret st_ret].
           by eapply started_navigated.
        -- step_bind. rewrite closing_spec. cbn [base.mret ST_ret st_ret].
           apply (launch_spec url site_name bm). reflexivity.
    + step_bind. cbn [base.mret ST_ret st_ret].
      apply (launch_spec url site_name bm). reflexivity.
Qed.

Lemma start_browser_spec (url site_name : string) (bm : browser_manager) :
  exists status bm',
    start_browser isalnum pw url site_name bm = (Ok status, bm') /\
    started isalnum pw url site_name bm status bm' /\
    _headless_mode bm' = _headless_mode bm.
Proof.
  unfold start_browser, try_catch.
  pose proof (start_browser_body_spec url site_name bm) as Hbody.
  destruct (start_browser_body isalnum pw url site_name bm) as [[status|e] bm'].
  - exists status, bm'. split; [reflexivity|]. split; [exact Hbody|].
    destruct Hbody; try assumption; reflexivity.
  - unfold st_bind, base.mbind, ST_bind, st_bind. rewrite closing_spec.
    cbn [base.mret ST_ret st_ret].
    eexists _, _. split; [reflexivity|].
    assert (Hclose : (close_browser bm').1 = (close_browser bm).1)
      by (cbn [close_browser fst]; by rewrite Hbody).
    rewrite Hclose. split; [apply started_failed | reflexivity].
Qed.

(** X6: [start_browser] never raises and never changes the headless mode.
    It answers in one of three ways: it navigated the open page, which it
    does only when no other site's profile is loaded; or it launched the
    profile of the safe site name with the current headless mode and all
    handles are set; or it reports the error and every handle is dropped. *)
Theorem start_browser_outcome (url site_name : string) (bm : browser_manager) :
  exists status bm',
    start_browser isalnum pw url site_name bm = (Ok status, bm') /\
    started isalnum pw url site_name bm status bm' /\
    _headless_mode bm' = _headless_mode bm.
Proof. apply start_browser_spec. Qed.

(** X7: a session that holds the profile of another site is never reused:
    the old page is not navigated; the call either launches the profile of
    the requested site or ends with every handle dropped. *)
Theorem start_browser_switches_profile (url site_name : string) (bm : browser_manager) :
  _browser bm = Some tt ->
  _current_site_name bm <> Some (safe_site_name isalnum site_name) ->
  exists status bm',
    start_browser isalnum pw url site_name bm = (Ok status, bm') /\
    ((exists first_page p',
        launch_persistent_context pw
          ("./profiles/" +:+ safe_site_name isalnum site_name +:+ "_profile")
          (_headless_mode bm) = Ok first_page /\
        goto_page pw first_page url = Ok p' /\
        status = "Browser started for " +:+ safe_site_name isalnum site_name /\
        _page bm' = Some p' /\
        _current_site_name bm' = Some (safe_site_name isalnum site_name)) \/
     (exists e, status = "Error opening browser: " +:+ e /\
                is_browser_open bm' = false /\ _current_site_name bm' = None)).
Proof.
  intros Hb Hsite.
  destruct (start_browser_spec url site_name bm) as (status & bm' & Hrun & Hst & _).
  exists status, bm'. split; [exact Hrun|].
  destruct Hst as [p p' Hp Hc Hsame Hg | first_page p' bm' Hl Hg Hp Hbr Hpl Hn Hh | e].
  - exfalso. destruct Hsame as [Hnone | Hsame]; congruence.
  - left. exists first_page, p'. auto.
  - right. exists e. auto.
Qed.

End SessionFacts.

(** X7 at a session on the profile of [github] asked for [you/tube]. *)
Lemma start_browser_switches_profile_witness :
  exists status bm',
    start_browser ascii_isalnum sample_playwright "https://www.youtube.com" "you/tube"
      github_session = (Ok status, bm') /\
    ((exists first_page p',
        launch_persistent_context sample_playwright
          ("./profiles/" +:+ safe_site_name ascii_isalnum "you/tube" +:+ "_profile")
          (_headless_mode github_session) = Ok first_page /\
        goto_page sample_playwright first_page "https://www.youtube.com" = Ok p' /\
        status = "Browser started for " +:+ safe_site_name ascii_isalnum "you/tube" /\
        _page bm' = Some p' /\
        _current_site_name bm' = Some (safe_site_name ascii_isalnum "you/tube")) \/
     (exists e, status = "Error opening browser: " +:+ e /\
                is_browser_open bm' = false /\ _current_site_name bm' = None)).
Proof.
  apply (start_browser_switches_profile ascii_isalnum sample_playwright
           "https://www.youtube.com" "you/tube" github_session).
  - reflexivity.
  - vm_compute. discriminate.
Defined.

(** ** Output formatter *)

Section FormatterFacts.
Context `{!Builtins}.

Lemma formatting_loop_cons (invoke : nat -> attempt string)
    (start_index len idx : nat) (cand : string * llm) (rest : list (string * llm))
    (last_err : option string) (w : world) :
  formatting_loop invoke start_index len idx (cand :: rest) last_err w =
  match outcome (invoke idx) with
  | Ok formatted_output =>
      (Ok {| goto := redirector_node;
             cmd_update :=
               with_Output formatted_output
                 (with_current_model_index ((start_index + idx) mod len) no_update) |},
       set_browser (browser_after (invoke idx)) w)
  | Raise e =>
      if any_in formatting_rate_limit (lower e)
      then formatting_loop invoke start_index len (S idx) rest (Some e)
             (set_browser (browser_after (invoke idx)) w)
      else
        (Ok {| goto := redirector_node;
               cmd_update := with_Output ("Formatting failed: " +:+ e) no_update |},
         set_browser (browser_after (invoke idx)) w)
  end.
Proof.
  cbn [formatting_loop]. unfold_st.
  destruct (outcome (invoke idx)) as [r|e]; [reflexivity|].
  destruct (any_in formatting_rate_limit (lower e)); reflexivity.
Qed.

Lemma formatting_loop_returns (invoke : nat -> attempt string) (start_index len : nat)
    (rotation : list (string * llm)) :
  0 < len ->
  forall idx last_err w,
  exists text w',
    (formatting_loop invoke start_index len idx rotation last_err w =
     (Ok {| goto := redirector_node; cmd_update := with_Output text no_update |}, w') \/
     exists i, i < len /\
       formatting_loop invoke start_index len idx rotation last_err w =
       (Ok {| goto := redirector_node;
              cmd_update := with_Output text (with_current_model_index i no_update) |}, w')).
Proof.
  intros Hlen.
  induction rotation as [|cand rest IH]; intros idx last_err w.
  - eexists _, _. left. reflexivity.
  - rewrite formatting_loop_cons.
    destruct (outcome (invoke idx)) as [r|e].
    + eexists _, _. right. eexists. split; [|reflexivity].
      apply Nat.mod_upper_bound. lia.
    + destruct (any_in formatting_rate_limit (lower e)); [apply IH|].
      eexists _, _. left. reflexivity.
Qed.

Lemma main_rotation_length (r : router) (start_index : nat) (provider : option string)
    (rotated : list (string * llm)) :
  get_main_llm_with_rotation r start_index provider = Ok rotated ->
  length rotated = length (build_main r provider) /\ 0 < length rotated.
Proof.
  unfold get_main_llm_with_rotation. intros Hrun.
  destruct (bool_decide (build_main r provider = [])) eqn:Hempty; [discriminate|].
  apply bool_decide_eq_false in Hempty.
  assert (Hlen : length rotated = length (build_main r provider)).
  { simplify_eq. destruct (0 <? start_index)%nat; [apply rotate_length | reflexivity]. }
  split; [exact Hlen|]. rewrite Hlen.
  destruct (build_main r provider); [done | simpl; lia].
Qed.

Lemma output_formatting_agent_spec (LLMConfig : router) (invoke : nat -> attempt string)
    (state : AgentState) (w : world) :
  match output_formatting_agent LLMConfig invoke state w with
  | (Ok cmd, w') =>
      exists text,
        cmd = {| goto := redirector_node; cmd_update := with_Output text no_update |} \/
        exists i,
          i < length (build_main LLMConfig (llm_provider state)) /\
          cmd = {| goto := redirector_node;
                   cmd_update := with_Output text (with_current_model_index i no_update) |}
  | (Raise e, w') =>
      w' = w /\
      (output_agent_messages state = [] \/
       get_main_llm_with_rotation LLMConfig (current_model_index state)
         (llm_provider state) = Raise e)
  end.
Proof.
  unfold output_formatting_agent, last_item.
  step_bind. unfold lift at 1.
  destruct (last (output_agent_messages state)) as [msg|] eqn:Hlast.
  - cbn. step_bind. unfold lift at 1.
    destruct (get_main_llm_with_rotation LLMConfig (current_model_index state)
                (llm_provider state)) as [rotation|e] eqn:Hrot.
    + destruct (main_rotation_length _ _ _ _ Hrot) as [Hlen Hpos].
      destruct (formatting_loop_returns invoke (current_model_index state)
                  (length rotation) rotation Hpos 0 None w)
        as (text & w' & [-> | (i & Hi & ->)]).
      * exists text. by left.
      * exists text. right. exists i. split; [lia | reflexivity].
    + split; [reflexivity | by right].
  - cbn. split; [reflexivity|]. left.
    destruct (output_agent_messages state) as [|m l] using rev_ind; [reflexivity|].
    by rewrite last_snoc in Hlast.
Qed.

(** X8: [output_formatting_agent] raises only before its rotation loop (no
    message in its mailbox, or no candidate), and then the singletons are
    untouched.  Otherwise it always hands over to the redirector with an
    update that sets [Output], and on a success [current_model_index] to
    an index below the number of candidates, and nothing else: a
    formatting failure never sets [last_error] and never sends the run
    back to the planner. *)
Theorem formatting_always_continues (LLMConfig : router) (invoke : nat -> attempt string)
    (state : AgentState) (w : world) :
  match output_formatting_agent LLMConfig invoke state w with
  | (Ok cmd, w') =>
      exists text,
        cmd = {| goto := redirector_node; cmd_update := with_Output text no_update |} \/
        exists i,
          i < length (build_main LLMConfig (llm_provider state)) /\
          cmd = {| goto := redirector_node;
                   cmd_update := with_Output text (with_current_model_index i no_update) |}
  | (Raise e, w') =>
      w' = w /\
      (output_agent_messages state = [] \/
       get_main_llm_with_rotation LLMConfig (current_model_index state)
         (llm_provider state) = Raise e)
  end.
Proof. apply output_formatting_agent_spec. Qed.

Lemma formatting_loop_skips (invoke : nat -> attempt string) (start_index len : nat)
    (k : nat) :
  forall (idx : nat) (rotation : list (string * llm)) (last_err : option string) (w : world),
    k <= length rotation ->
    (forall j, j < k -> exists e,
        outcome (invoke (idx + j)) = Raise e /\
        any_in formatting_rate_limit (lower e) = true) ->
    exists last' w',
      formatting_loop invoke start_index len idx rotation last_err w =
      formatting_loop invoke start_index len (idx + k) (drop k rotation) last' w' /\
      (k = 0 -> last' = last_err) /\
      (forall e, 0 < k -> outcome (invoke (idx + k - 1)) = Raise e -> last' = Some e).
Proof.
  induction k as [|k IH]; intros idx rotation last_err w Hlen Hfail.
  - exists last_err, w. rewrite Nat.add_0_r, drop_0.
    split; [reflexivity|]. split; [done | intros; lia].
  - destruct rotation as [|cand rest]; [simpl in Hlen; lia|].
    rewrite formatting_loop_cons.
    destruct (Hfail 0) as (e & He & Hrate); [lia|].
    rewrite Nat.add_0_r in He. rewrite He, Hrate.
    destruct (IH (S idx) rest (Some e) (set_browser (browser_after (invoke idx)) w))
      as (last' & w' & Heq & Hzero & Hlast).
    { simpl in Hlen. lia. }
    { intros j Hj. destruct (Hfail (S j)) as (e0 & He0 & Hr0); [lia|].
      exists e0. split; [|exact Hr0].
      replace (S idx + j) with (idx + S j) by lia. exact He0. }
    exists last', w'. rewrite Heq.
    replace (S idx + k) with (idx + S k) by lia.
    split; [reflexivity|]. split; [intros; lia|].
    intros e' _ He'.
    destruct k as [|k].
    + rewrite Hzero by reflexivity.
      replace (idx + 1 - 1) with idx in He' by lia. congruence.
    + apply Hlast; [lia|].
      replace (S idx + S k - 1) with (idx + S (S k) - 1) by lia. exact He'.
Qed.

(** X9: the formatter walks its candidates in order, passing over those
    that fail with a rate-limit signature.  The first candidate that
    answers gives [Output] and the rotation index of that candidate; the
    first failure of another kind ends the loop, no later candidate is
    asked, and its text is reported in [Output]; with every candidate
    rate limited, [Output] reports the last of the errors. *)
Theorem formatting_first_decisive (LLMConfig : router) (invoke : nat -> attempt string)
    (state : AgentState) (w : world) (rotation : list (string * llm)) (k : nat) :
  output_agent_messages state <> [] ->
  get_main_llm_with_rotation LLMConfig (current_model_index state)
    (llm_provider state) = Ok rotation ->
  k <= length rotation ->
  (forall j, j < k -> exists e,
      outcome (invoke j) = Raise e /\ any_in formatting_rate_limit (lower e) = true) ->
  (forall text, k < length rotation -> outcome (invoke k) = Ok text ->
     (output_formatting_agent LLMConfig invoke state w).1 =
     Ok {| goto := redirector_node;
           cmd_update :=
             with_Output text
               (with_current_model_index
                  ((current_model_index state + k) mod length rotation) no_update) |}) /\
  (forall e, k < length rotation -> outcome (invoke k) = Raise e ->
     any_in formatting_rate_limit (lower e) = false ->
     (output_formatting_agent LLMConfig invoke state w).1 =
     Ok {| goto := redirector_node;
           cmd_update := with_Output ("Formatting failed: " +:+ e) no_update |}) /\
  (forall e, k = length rotation -> outcome (invoke (k - 1)) = Raise e ->
     (output_formatting_agent LLMConfig invoke state w).1 =
     Ok {| goto := redirector_node;
           cmd_update := with_Output ("Formatting failed: " +:+ e) no_update |}).
Proof.
  intros Hmsg Hrot Hk Hfail.
  destruct (formatting_loop_skips invoke (current_model_index state) (length rotation)
              k 0 rotation None w Hk Hfail) as (last' & w' & Hloop & _ & Hlast).
  assert (Hrun : output_formatting_agent LLMConfig invoke state w =
                 formatting_loop invoke (current_model_index state) (length rotation)
                   k (drop k rotation) last' w').
  { unfold output_formatting_agent, last_item.
    step_bind. unfold lift at 1.
    destruct (last (output_agent_messages state)) as [msg|] eqn:Hl.
    - cbn. step_bind. unfold lift at 1. rewrite Hrot. exact Hloop.
    - destruct (output_agent_messages state) as [|m l] using rev_ind; [done|].
      by rewrite last_snoc in Hl. }
  rewrite Hrun.
  split; [|split].
  - intros text Hlt Hok.
    destruct (drop k rotation) as [|cand rest] eqn:Hdrop.
    { apply (f_equal length) in Hdrop. rewrite length_drop in Hdrop. simpl in Hdrop. lia. }
    rewrite formatting_loop_cons, Hok. reflexivity.
  - intros e Hlt Herr Hrate.
    destruct (drop k rotation) as [|cand rest] eqn:Hdrop.
    { apply (f_equal length) in Hdrop. rewrite length_drop in Hdrop. simpl in Hdrop. lia. }
    rewrite formatting_loop_cons, Herr, Hrate. reflexivity.
  - intros e -> Herr.
    rewrite drop_all.
    destruct (main_rotation_length _ _ _ _ Hrot) as [_ Hpos].
    rewrite (Hlast e Hpos) by (rewrite Nat.add_0_l; exact Herr).
    reflexivity.
Qed.

End FormatterFacts.

(** X9 at three keys, the first of them rate limited and the second
    refused for another reason. *)
Lemma formatting_first_decisive_witness :
  (forall text, 1 < length (build_main sample_router None) ->
     outcome (formatter_refused 1) = Ok text ->
     (output_formatting_agent sample_router formatter_refused formatting_dispatched
        (sample_world None)).1 =
     Ok {| goto := redirector_node;
           cmd_update :=
             with_Output text
               (with_current_model_index
                  ((current_model_index formatting_dispatched + 1) mod
                   length (build_main sample_router None)) no_update) |}) /\
  (forall e, 1 < length (build_main sample_router None) ->
     outcome (formatter_refused 1) = Raise e ->
     any_in formatting_rate_limit (lower e) = false ->
     (output_formatting_agent sample_router formatter_refused formatting_dispatched
        (sample_world None)).1 =
     Ok {| goto := redirector_node;
           cmd_update := with_Output ("Formatting failed: " +:+ e) no_update |}) /\
  (forall e, 1 = length (build_main sample_router None) ->
     outcome (formatter_refused (1 - 1)) = Raise e ->
     (output_formatting_agent sample_router formatter_refused formatting_dispatched
        (sample_world None)).1 =
     Ok {| goto := redirector_node;
           cmd_update := with_Output ("Formatting failed: " +:+ e) no_update |}).
Proof.
  apply (formatting_first_decisive sample_router formatter_refused formatting_dispatched
           (sample_world None) (build_main sample_router None) 1).
  - discriminate.
  - reflexivity.
  - vm_compute. lia.
  - intros j Hj. assert (j = 0) as -> by lia.
    eexists. split; reflexivity.
Defined.

(** ** Execution worker: crashes and exhaustion *)

Section ExecutorFacts.
Context `{!Builtins}.

Lemma last_None_nil {A : Type} (l : list A) : last l = None -> l = [].
Proof.
  destruct l as [|a l] using rev_ind; [done|]. by rewrite last_snoc.
Qed.

Lemma soft_failure_not_empty (text : string) :
  is_Some_b (trigger_word (lower text)) = true -> text <> "".
Proof. intros Htrig ->. discriminate Htrig. Qed.

Lemma execution_success_shape (start_index len idx : nat) (r : agent_result) :
  0 < len ->
  let c := execution_success start_index len idx r in
  (goto c = planner \/ goto c = redirector_node) /\
  u_step_index (cmd_update c) = None /\
  (exists i, u_current_model_index (cmd_update c) = Some i /\ i < len) /\
  (goto c = planner ->
   exists e, u_last_error (cmd_update c) = Some (Some e) /\ e <> "").
Proof.
  intros Hlen. cbv zeta. unfold execution_success.
  assert (Hmod : (start_index + idx) mod len < len) by (apply Nat.mod_upper_bound; lia).
  destruct (is_Some_b (trigger_word (lower (default "" (res_output r))))) eqn:Htrig;
    cbn [andb]; [destruct (negb (contains "no error" (lower (default "" (res_output r)))))|];
    cbn.
  - split; [by left|]. split; [reflexivity|]. split; [by eexists|].
    intros _. eexists. split; [reflexivity|]. by apply soft_failure_not_empty.
  - split; [by right|]. split; [reflexivity|]. split; [by eexists | discriminate].
  - split; [by right|]. split; [reflexivity|]. split; [by eexists | discriminate].
Qed.

(** What a command of the execution worker can be, for [len] candidates
    and the step index [index] of the state. *)
Lemma execution_loop_shape (state : AgentState) (invoke : nat -> attempt agent_result)
    (start_index len : nat) (rotation : list (string * llm)) :
  0 < len \/ rotation = [] ->
  forall idx last_err w,
  exists c w',
    execution_loop state invoke start_index len idx rotation last_err w = (Ok c, w') /\
    (goto c = planner \/ goto c = redirector_node \/ goto c = END) /\
    (u_step_index (cmd_update c) = None \/
     u_step_index (cmd_update c) = Some (step_index state)) /\
    (forall i, u_current_model_index (cmd_update c) = Some i -> i < len) /\
    (goto c = planner ->
     exists e, u_last_error (cmd_update c) = Some (Some e) /\ e <> "") /\
    (goto c = END ->
     exists e, u_last_error (cmd_update c) = Some (Some ("ALL KEYS EXHAUSTED: " +:+ e))).
Proof.
  intros Hlen.
  induction rotation as [|cand rest IH]; intros idx last_err w.
  - eexists _, _. split; [reflexivity|]. cbn.
    split; [by right; right|]. split; [by left|]. split; [discriminate|].
    split; [discriminate|]. intros _. by eexists.
  - destruct Hlen as [Hlen|]; [|discriminate].
    rewrite execution_loop_cons.
    destruct (outcome (invoke idx)) as [r|e].
    + destruct (execution_success_shape start_index len idx r Hlen)
        as (Hgoto & Hstep & (i & Hi & Hlt) & Hplanner).
      eexists _, _. split; [reflexivity|].
      split; [destruct Hgoto; auto|]. split; [by left|].
      split; [intros i' Hi'; congruence|]. split; [exact Hplanner|].
      intros Hend. destruct Hgoto; congruence.
    + destruct (rotates_on e); [apply IH; by left|].
      eexists _, _. split; [reflexivity|]. cbn.
      split; [by left|]. split; [by right|]. split; [discriminate|].
      split; [|discriminate]. intros _. eexists. split; [reflexivity | discriminate].
Qed.

Lemma execution_agent_spec (rotation : result (list (string * llm)))
    (invoke : nat -> attempt agent_result) (state : AgentState) (w : world) :
  match execution_agent rotation invoke state w with
  | (Ok c, w') =>
      (goto c = planner \/ goto c = redirector_node \/ goto c = END) /\
      u_plan (cmd_update c) = None /\
      (u_step_index (cmd_update c) = None \/
       u_step_index (cmd_update c) = Some (step_index state)) /\
      (forall i, u_current_model_index (cmd_update c) = Some i ->
         exists candidates, rotation = Ok candidates /\ i < length candidates) /\
      (goto c = planner ->
       exists e, u_last_error (cmd_update c) = Some (Some e) /\ e <> "") /\
      (goto c = END ->
       exists e, u_last_error (cmd_update c) = Some (Some ("ALL KEYS EXHAUSTED: " +:+ e)))
  | (Raise e, w') =>
      w' = w /\
      (execution_messages state = [] \/
       (exists task_msg, last (execution_messages state) = Some task_msg /\
                         forall task, content task_msg <> PStr task) \/
       tavily_api_key w = None \/ tavily_api_key w = Some "" \/
       rotation = Raise e)
  end.
Proof.
  destruct (execution_agent rotation invoke state w) as [[c|e] w'] eqn:Hrun.
  - pose proof (execution_agent_plan _ _ _ _ _ _ Hrun) as Hplan.
    revert Hrun. unfold execution_agent, last_item, require_tavily_key.
    step_bind. unfold lift at 1.
    destruct (last (execution_messages state)) as [msg|]; [|discriminate].
    cbn match. step_bind.
    destruct (content msg) as [| | |task| |]; cbn; try discriminate.
    step_bind. step_bind. unfold get at 1.
    destruct (tavily_api_key w) as [key|]; [|discriminate].
    destruct (String.eqb key ""); [discriminate|].
    cbn [base.mret ST_ret st_ret]. step_bind. unfold lift at 1.
    destruct rotation as [candidates|err]; [|discriminate].
    intros Hloop.
    assert (Hlen : 0 < length candidates \/ candidates = []).
    { destruct candidates; [by right | left; simpl; lia]. }
    destruct (execution_loop_shape state invoke (current_model_index state)
                (length candidates) candidates Hlen 0 None w)
      as (c0 & w0 & Heq & Hgoto & Hstep & Hidx & Hplanner & Hend).
    rewrite Heq in Hloop. simplify_eq.
    split; [exact Hgoto|]. split; [exact Hplan|]. split; [exact Hstep|].
    split; [|by split].
    intros i Hi. exists candidates. split; [reflexivity | by apply Hidx].
  - revert Hrun. unfold execution_agent, last_item, require_tavily_key.
    step_bind. unfold lift at 1.
    destruct (last (execution_messages state)) as [msg|] eqn:Hlast.
    + cbn match. step_bind.
      destruct (content msg) as [| | |task| |] eqn:Hcontent; cbn;
        try (intros [= <- <-]; split; [reflexivity|]; right; left;
             exists msg; split; [reflexivity|]; intros t; congruence).
      step_bind. step_bind. unfold get at 1.
      destruct (tavily_api_key w) as [key|] eqn:Hkey.
      * destruct (String.eqb key "") eqn:Hempty.
        -- apply String.eqb_eq in Hempty. subst key.
           intros [= <- <-]. split; [reflexivity|]. do 3 right. by left.
        -- cbn [base.mret ST_ret st_ret]. step_bind. unfold lift at 1.
           destruct rotation as [candidates|err].
           ++ assert (Hlen : 0 < length candidates \/ candidates = []).
              { destruct candidates; [by right | left; simpl; lia]. }
              destruct (execution_loop_shape state invoke (current_model_index state)
                          (length candidates) candidates Hlen 0 None w)
                as (c0 & w0 & Heq & _).
              rewrite Heq. discriminate.
           ++ intros [= <- <-]. split; [reflexivity|]. by do 4 right.
      * intros [= <- <-]. split; [reflexivity|]. do 2 right. by left.
    + intros [= <- <-]. split; [reflexivity|]. left. by apply last_None_nil.
Qed.

(** X10: [execution_agent] raises only before its rotation loop (empty
    mailbox, a task that is no string, no search key, no rotation), and
    then leaves the singletons untouched.  Once in the loop it always
    returns a command: to the planner, to the redirector or to the end.
    The command never carries a plan, carries as step index at most the
    one of the state, stores a model index only below the number of
    candidates, and whenever it goes to the planner it carries a
    non-empty [last_error], so that the planner is entered to repair. *)
Theorem execution_outcome (rotation : result (list (string * llm)))
    (invoke : nat -> attempt agent_result) (state : AgentState) (w : world) :
  match execution_agent rotation invoke state w with
  | (Ok c, w') =>
      (goto c = planner \/ goto c = redirector_node \/ goto c = END) /\
      u_plan (cmd_update c) = None /\
      (u_step_index (cmd_update c) = None \/
       u_step_index (cmd_update c) = Some (step_index state)) /\
      (forall i, u_current_model_index (cmd_update c) = Some i ->
         exists candidates, rotation = Ok candidates /\ i < length candidates) /\
      (goto c = planner ->
       exists e, u_last_error (cmd_update c) = Some (Some e) /\ e <> "") /\
      (goto c = END ->
       exists e, u_last_error (cmd_update c) = Some (Some ("ALL KEYS EXHAUSTED: " +:+ e)))
  | (Raise e, w') =>
      w' = w /\
      (execution_messages state = [] \/
       (exists task_msg, last (execution_messages state) = Some task_msg /\
                         forall task, content task_msg <> PStr task) \/
       tavily_api_key w = None \/ tavily_api_key w = Some "" \/
       rotation = Raise e)
  end.
Proof. apply execution_agent_spec. Qed.



End ExecutorFacts.


(** ** The cursor and the mailboxes of a run *)

Section GraphFacts.
Context `{!Builtins}.

(** Every command the redirector can return, with the step it read. *)
Lemma redirector_cases (log_slice : bool) (state : AgentState) (c : Command) :
  redirector_of log_slice state = Ok c ->
  (length (plan state) <= step_index state /\
   c = {| goto := END; cmd_update := no_update |}) \/
  exists step agent query,
    plan state !! step_index state = Some step /\
    getitem step "agent" = Ok agent /\
    getitem step "query" = Ok query /\
    ((agent = PStr "PLANNER" /\ goto c = planner /\
      u_plan (cmd_update c) = None /\ u_step_index (cmd_update c) = Some 0) \/
     (agent = PStr "RAG" /\ goto c = rag_agent /\
      exists m, cmd_update c =
                  with_step_index (step_index state + 1) (with_rag_messages [m] no_update) /\
                msg_role m = Human) \/
     (agent = PStr "EXECUTION" /\
      c = {| goto := executor;
             cmd_update :=
               with_step_index (step_index state + 1)
                 (with_execution_messages
                    [{| msg_role := Human; content := query |}] no_update) |}) \/
     (agent = PStr "OUTPUT_FORMATTING" /\ goto c = output_agent /\
      exists content_list,
        cmd_update c =
          with_step_index (step_index state + 1)
            (with_output_agent_messages [{| msg_role := Human; content := query |}]
               (with_output_content content_list no_update))) \/
     (agent = PStr "end" /\
      c = {| goto := END; cmd_update := with_plan [] (with_step_index 0 no_update) |}) \/
     (known_tag agent = false /\ goto c = planner /\
      u_plan (cmd_update c) = None /\ u_step_index (cmd_update c) = None)).
Proof.
  intros Hr. unfold redirector_of, list_item in Hr.
  destruct (Nat.leb_spec (length (plan state)) (step_index state)) as [Hle|Hlt].
  { left. split; [exact Hle | congruence]. }
  right.
  destruct (plan state !! step_index state) as [step|] eqn:Hstep; simpl in Hr;
    [|discriminate].
  destruct (getitem step "agent") as [agent|] eqn:Hagent; simpl in Hr; [|discriminate].
  destruct (getitem step "query") as [query|] eqn:Hquery; simpl in Hr; [|discriminate].
  destruct (if log_slice then check_sliceable query else Ok tt); simpl in Hr;
    [|discriminate].
  exists step, agent, query.
  split; [first [reflexivity | assumption]|].
  split; [first [reflexivity | assumption]|].
  split; [first [reflexivity | assumption]|].
  destruct (eq_str agent "PLANNER") eqn:E1.
  { apply eq_str_true in E1. left. simplify_eq. by repeat split. }
  destruct (eq_str agent "RAG") eqn:E2.
  { apply eq_str_true in E2. right; left.
    destruct (getitem step "rag_message") as [rm|]; simpl in Hr; [|discriminate].
    unfold new_message in Hr.
    destruct (valid_content (if truthy rm then rm else query)); simpl in Hr;
      [|discriminate].
    simplify_eq. split; [reflexivity|]. split; [reflexivity|].
    eexists. split; reflexivity. }
  destruct (eq_str agent "EXECUTION") eqn:E3.
  { apply eq_str_true in E3. do 2 right; left.
    unfold new_message in Hr. destruct (valid_content query); simpl in Hr; [|discriminate].
    simplify_eq. by split. }
  destruct (eq_str agent "OUTPUT_FORMATTING") eqn:E4.
  { apply eq_str_true in E4. do 3 right; left.
    unfold new_message in Hr. destruct (valid_content query); simpl in Hr; [|discriminate].
    destruct (py_get step "content" (PStr "")) as [content_to_append|]; simpl in Hr;
      [|discriminate].
    simplify_eq. split; [reflexivity|]. split; [reflexivity|].
    eexists. reflexivity. }
  destruct (eq_str agent "end") eqn:E5.
  { apply eq_str_true in E5. do 4 right; left. simplify_eq. by split. }
  do 5 right. simplify_eq.
  split; [|by repeat split].
  unfold known_tag, known_tags. simpl. by rewrite E1, E2, E3, E4, E5.
Qed.

Lemma apply_update_index (s s' : AgentState) (u : update) :
  apply_update s u = Ok s' ->
  step_index s' = default (step_index s) (u_step_index u) /\
  execution_messages s' = execution_messages s ++ u_execution_messages u /\
  rag_messages s' = rag_messages s ++ u_rag_messages u /\
  output_agent_messages s' = output_agent_messages s ++ u_output_agent_messages u.
Proof.
  intros Ha. unfold apply_update in Ha. unfold_result.
  repeat destruct_hyp Ha; by simplify_eq.
Qed.

Lemma rag_shape (state : AgentState) (w w' : world) (c : Command) :
  rag state w = (Ok c, w') ->
  goto c = redirector_node /\ u_step_index (cmd_update c) = None.
Proof.
  intros Hrun. unfold rag in Hrun. unfold_st.
  repeat destruct_hyp Hrun; by simplify_eq.
Qed.

(** Where a node hands over to, and what it asks of the cursor. *)
Lemma worker_shape (LLMConfig : router) (e : env) (n : node) (s : AgentState)
    (w w' : world) (c : Command) :
  n <> redirector_node -> n <> planner ->
  run_node LLMConfig e n s w = (Ok c, w') ->
  (goto c = planner \/ goto c = redirector_node \/ goto c = END) /\
  u_plan (cmd_update c) = None /\
  (u_step_index (cmd_update c) = None \/
   u_step_index (cmd_update c) = Some (step_index s)).
Proof.
  intros Hred Hplanner Hnode. destruct n; cbn in Hnode; try done.
  - pose proof (execution_agent_spec (execution_rotation e) (execution_invoke e) s w) as Hs.
    rewrite Hnode in Hs. destruct Hs as (Hgoto & Hplan & Hstep & _). auto.
  - pose proof (output_formatting_agent_spec LLMConfig (formatter_invoke e) s w) as Hs.
    rewrite Hnode in Hs.
    destruct Hs as (text & [-> | (i & _ & ->)]); cbn; auto.
  - destruct (rag_shape _ _ _ _ Hnode) as [Hgoto Hstep].
    split; [auto|]. split; [by eapply rag_plan | auto].
  - unfold_st. simplify_eq. cbn. auto.
Qed.

Lemma node_cases (n : node) :
  n = planner \/ n = redirector_node \/ (n <> redirector_node /\ n <> planner).
Proof. destruct n; auto; right; right; split; discriminate. Qed.

Lemma reachable_cursor (LLMConfig : router) (n : node) (s : AgentState) (w : world) :
  reachable LLMConfig n s w -> step_index s <= length (plan s).
Proof.
  induction 1 as [input_str w|n s w e cmd w' s' Hreach IH Hnode Happly].
  - simpl. lia.
  - pose proof (reachable_well_numbered _ _ _ _ Hreach) as Hw.
    rewrite (apply_update_plan _ _ _ Happly).
    destruct (apply_update_index _ _ _ Happly) as (-> & _).
    destruct (node_cases n) as [-> | [-> | [Hr Hp]]].
    { cbn in Hnode. unfold_st.
      destruct (central_agent1 LLMConfig (planner_invoke e) s w) as [[u|err] w1] eqn:Hrun;
        simplify_eq. cbn.
      destruct (central_agent1_replanned _ _ _ _ _ _
                  (numbered_from_take _ _ _ Hw) Hrun) as (suffix & -> & -> & _).
      cbn. rewrite length_app. lia. }
    { cbn in Hnode. unfold_st. destruct (redirector s) as [c|] eqn:Hred; simplify_eq.
      apply redirector_cases in Hred
        as [[Hle ->] | (step & agent & query & Hstep & _ & _ & Hcase)]; [exact IH|].
      apply lookup_lt_Some in Hstep.
      destruct Hcase as [(_ & _ & -> & ->) | [(_ & _ & m & -> & _) |
        [(_ & ->) | [(_ & _ & l & ->) | [(_ & ->) | (_ & _ & -> & ->)]]]]]; cbn; lia. }
    destruct (worker_shape _ _ _ _ _ _ _ Hr Hp Hnode) as (_ & -> & [-> | ->]); exact IH.
Qed.

(** X12: at every state a run passes through, [step_index] is at most the
    length of the plan: the planner points behind the steps it keeps, the
    redirector advances only from a step that exists, and no worker moves
    the cursor. *)
Theorem cursor_within_plan (LLMConfig : router) (n : node) (s : AgentState) (w : world) :
  reachable LLMConfig n s w -> step_index s <= length (plan s).
Proof. apply reachable_cursor. Qed.

Lemma last_app_one {A : Type} (l : list A) (x : A) : last (l ++ [x]) = Some x.
Proof. apply last_snoc. Qed.

(** X13: a worker is entered only by a dispatch of the redirector, with
    its task waiting in its mailbox.  When the executor is entered, the
    step just before the cursor is tagged [EXECUTION] and the last
    execution message is a human message with the query of that step; the
    same holds of the formatter for [OUTPUT_FORMATTING]; when the memory
    worker is entered, that step is tagged [RAG] and a human message is
    the last of [rag_messages].  So none of the three reads of
    [state[...][-1]] fails in a run. *)
Theorem worker_entered_with_task (LLMConfig : router) (n : node) (s : AgentState)
    (w : world) :
  reachable LLMConfig n s w ->
  match n with
  | executor =>
      exists step query,
        0 < step_index s /\ plan s !! (step_index s - 1) = Some step /\
        getitem step "agent" = Ok (PStr "EXECUTION") /\
        getitem step "query" = Ok query /\
        last (execution_messages s) = Some {| msg_role := Human; content := query |}
  | output_agent =>
      exists step query,
        0 < step_index s /\ plan s !! (step_index s - 1) = Some step /\
        getitem step "agent" = Ok (PStr "OUTPUT_FORMATTING") /\
        getitem step "query" = Ok query /\
        last (output_agent_messages s) = Some {| msg_role := Human; content := query |}
  | rag_agent =>
      exists step m,
        0 < step_index s /\ plan s !! (step_index s - 1) = Some step /\
        getitem step "agent" = Ok (PStr "RAG") /\
        last (rag_messages s) = Some m /\ msg_role m = Human
  | _ => True
  end.
Proof.
  destruct 1 as [input_str w|n s w e cmd w' s' Hreach Hnode Happly]; [exact I|].
  pose proof (apply_update_plan _ _ _ Happly) as Hplan.
  destruct (apply_update_index _ _ _ Happly) as (Hidx & Hexec & Hrag & Hout).
  destruct (node_cases n) as [-> | [-> | [Hr Hp]]].
  - cbn in Hnode. unfold_st.
    destruct (central_agent1 LLMConfig (planner_invoke e) s w) as [[u|err] w1];
      simplify_eq. exact I.
  - cbn in Hnode. unfold_st. destruct (redirector s) as [c|] eqn:Hred; simplify_eq.
    apply redirector_cases in Hred
      as [[Hle ->] | (step & agent & query & Hstep & Hagent & Hquery & Hcase)]; [exact I|].
    destruct Hcase as [(_ & -> & _) | [(-> & Hgoto & m & Hu & Hm) |
      [(-> & ->) | [(-> & Hgoto & l & Hu) | [(_ & ->) | (_ & -> & _)]]]]];
      try exact I.
    + rewrite Hgoto. rewrite Hu in Hplan, Hidx, Hrag. cbn in Hplan, Hidx, Hrag.
      exists step, m. rewrite Hidx, Hplan, Hrag.
      replace (step_index s + 1 - 1) with (step_index s) by lia.
      split; [lia|]. split; [exact Hstep|]. split; [exact Hagent|].
      split; [apply last_app_one | exact Hm].
    + cbn in Hplan, Hidx, Hexec. cbn [goto].
      exists step, query. rewrite Hidx, Hplan, Hexec.
      replace (step_index s + 1 - 1) with (step_index s) by lia.
      split; [lia|]. split; [exact Hstep|]. split; [exact Hagent|].
      split; [exact Hquery | apply last_app_one].
    + rewrite Hgoto. rewrite Hu in Hplan, Hidx, Hout. cbn in Hplan, Hidx, Hout.
      exists step, query. rewrite Hidx, Hplan, Hout.
      replace (step_index s + 1 - 1) with (step_index s) by lia.
      split; [lia|]. split; [exact Hstep|]. split; [exact Hagent|].
      split; [exact Hquery | apply last_app_one].
  - destruct (worker_shape _ _ _ _ _ _ _ Hr Hp Hnode) as ([-> | [-> | ->]] & _); exact I.
Qed.

End GraphFacts.

Lemma first_step_dispatched_reachable :
  reachable sample_router executor first_step_dispatched (sample_world None).
Proof.
  pose proof (reach_start sample_router "log in to example.com" (sample_world None)) as H0.
  pose proof (reach_next _ _ _ _ failing_login H0) as H1. vm_compute in H1.
  pose proof (reach_next _ _ _ _ failing_login H1) as H2. vm_compute in H2.
  exact H2.
Qed.

(** X12 in the run of [failing_login], back at the planner. *)
Lemma cursor_within_plan_witness :
  step_index after_failed_login <= length (plan after_failed_login).
Proof.
  apply (cursor_within_plan sample_router planner after_failed_login (sample_world None)).
  exact after_failed_login_reachable.
Defined.

(** X13 in the run of [failing_login], at its executor. *)
Lemma worker_entered_with_task_witness :
  exists step query,
    0 < step_index first_step_dispatched /\
    plan first_step_dispatched !! (step_index first_step_dispatched - 1) = Some step /\
    getitem step "agent" = Ok (PStr "EXECUTION") /\
    getitem step "query" = Ok query /\
    last (execution_messages first_step_dispatched) =
      Some {| msg_role := Human; content := query |}.
Proof.
  apply (worker_entered_with_task sample_router executor first_step_dispatched
           (sample_world None)).
  exact first_step_dispatched_reachable.
Defined.

(** ** Dispatch of memory and formatting steps *)

Section DispatchFacts.
Context `{!Builtins}.

(** X14: for a step tagged [RAG], the redirector stores [rag_message] when
    it is truthy and the step's query otherwise; a step that has no
    [rag_message] key at all makes it raise [KeyError], in both copies of
    the redirector. *)
Theorem redirector_rag_message (log_slice : bool) (state : AgentState)
    (d : list (string * pyval)) (query : string) :
  plan state !! step_index state = Some (PDict d) ->
  dict_get d "agent" = Some (PStr "RAG") ->
  dict_get d "query" = Some (PStr query) ->
  (dict_get d "rag_message" = None ->
   redirector_of log_slice state = Raise "'rag_message'") /\
  (forall m, dict_get d "rag_message" = Some m -> truthy m = false ->
     redirector_of log_slice state =
     Ok {| goto := rag_agent;
           cmd_update :=
             with_step_index (step_index state + 1)
               (with_rag_messages [text_message Human query] no_update) |}) /\
  (forall m, dict_get d "rag_message" = Some (PStr m) -> m <> "" ->
     redirector_of log_slice state =
     Ok {| goto := rag_agent;
           cmd_update :=
             with_step_index (step_index state + 1)
               (with_rag_messages [text_message Human m] no_update) |}).
Proof.
  intros Hstep Hagent Hquery.
  assert (Hlt : step_index state < length (plan state))
    by (apply lookup_lt_is_Some; eauto).
  assert (Hrun : forall r,
            (rag_message ← getitem (PDict d) "rag_message";
             new_msg ← new_message Human
                         (if truthy rag_message then rag_message else PStr query);
             Ok {| goto := rag_agent;
                   cmd_update :=
                     with_step_index (step_index state + 1)
                       (with_rag_messages [new_msg] no_update) |}) = r ->
            redirector_of log_slice state = r).
  { intros r <-. unfold redirector_of.
    destruct (Nat.leb_spec (length (plan state)) (step_index state)) as [Hle|_]; [lia|].
    rewrite (list_item_lookup _ _ _ Hstep). cbn. rewrite Hagent. cbn. rewrite Hquery. cbn.
    by destruct log_slice. }
  split; [|split].
  - intros Hnone. apply Hrun. cbn. by rewrite Hnone.
  - intros m Hm Hfalsy. apply Hrun. cbn. rewrite Hm. cbn. by rewrite Hfalsy.
  - intros m Hm Hne. apply Hrun. cbn. rewrite Hm. cbn.
    apply String.eqb_neq in Hne. by rewrite Hne.
Qed.

(** X15: each dispatch of an [OUTPUT_FORMATTING] step doubles what is
    stored in [output_content]: the redirector writes the whole list,
    extended by the step's content when that is truthy, into an update
    that the state's reducer appends to the list already stored. *)
Theorem formatting_dispatch_doubles_content (state : AgentState)
    (d : list (string * pyval)) (query : string) :
  plan state !! step_index state = Some (PDict d) ->
  dict_get d "agent" = Some (PStr "OUTPUT_FORMATTING") ->
  dict_get d "query" = Some (PStr query) ->
  exists c state',
    redirector state = Ok c /\ goto c = output_agent /\
    apply_update state (cmd_update c) = Ok state' /\
    output_content state' =
      output_content state ++ output_content state ++
      (if truthy (default (PStr "") (dict_get d "content"))
       then [default (PStr "") (dict_get d "content")] else []) /\
    length (output_content state) + length (output_content state) <=
      length (output_content state').
Proof.
  intros Hstep Hagent Hquery.
  assert (Hlt : step_index state < length (plan state))
    by (apply lookup_lt_is_Some; eauto).
  unfold redirector, redirector_of.
  destruct (Nat.leb_spec (length (plan state)) (step_index state)) as [Hle|_]; [lia|].
  rewrite (list_item_lookup _ _ _ Hstep). cbn. rewrite Hagent. cbn. rewrite Hquery. cbn.
  eexists _, _. split; [reflexivity|]. split; [reflexivity|].
  split; [reflexivity|]. cbn.
  destruct (truthy (default (PStr "") (dict_get d "content")));
    (split; [first [reflexivity | by rewrite app_nil_r]
            | rewrite !length_app; cbn [length]; lia]).
Qed.

(** ** A run that cannot start *)

(** X16: a missing configuration never reaches a model and never escapes
    as an exception.  With no candidate for the main rotation, and with
    candidates but no [TAVILY_API_KEY], [run_agent] returns the dict with
    the single key [error] that names what is missing. *)
Theorem run_agent_without_keys (LLMConfig : router) (envs : nat -> env)
    (recursion_limit : nat) (input_str : string) (w : world) :
  0 < recursion_limit ->
  (build_main LLMConfig None = [] ->
   (run_agent LLMConfig envs recursion_limit input_str w).1 =
   Ok [("error",
        "Error during agent running: No valid API keys found for main LLM rotation")]) /\
  (build_main LLMConfig None <> [] ->
   tavily_api_key w = None \/ tavily_api_key w = Some "" ->
   (run_agent LLMConfig envs recursion_limit input_str w).1 =
   Ok [("error",
        "Error during agent running: TAVILY_API_KEY not found in environment variables")]).
Proof.
  intros Hlimit.
  destruct recursion_limit as [|limit]; [lia|].
  pose proof (run_agent_reports LLMConfig envs (S limit) input_str w) as Hrep.
  split.
  - intros Hnone.
    assert (Hrun : (invoke_from LLMConfig envs (S limit) 0 planner
                      (initial_state input_str) w).1 =
                   Raise "No valid API keys found for main LLM rotation").
    { cbn [invoke_from]. unfold run_node, central_agent1, central_agent1_of,
        planner_prologue. unfold_st.
      cbn [data_driven error_recovery initial_state output_content step_index
           current_model_index llm_provider].
      unfold get_main_llm_with_rotation. rewrite Hnone. reflexivity. }
    by rewrite Hrun in Hrep.
  - intros Hsome Hkey.
    assert (Hrun : (invoke_from LLMConfig envs (S limit) 0 planner
                      (initial_state input_str) w).1 =
                   Raise "TAVILY_API_KEY not found in environment variables").
    { cbn [invoke_from]. unfold run_node, central_agent1, central_agent1_of,
        planner_prologue, require_tavily_key. unfold_st.
      cbn [data_driven error_recovery initial_state output_content step_index
           current_model_index llm_provider].
      unfold get_main_llm_with_rotation.
      rewrite bool_decide_false by exact Hsome. cbn.
      destruct Hkey as [-> | ->]; reflexivity. }
    by rewrite Hrun in Hrep.
Qed.

(** ** The planner always answers *)

(** X17: in a run, once the planner of [orchestration.py] is past its
    prologue (the steps it reads, the rotation, the search key, the
    message history), nothing that a model call, the parser, the store or
    the numbering raises escapes it: it returns an update that keeps the
    retained prefix of the plan, points [step_index] behind it and clears
    [last_error]. *)
Theorem planner_returns_after_prologue (LLMConfig : router)
    (invoke : nat -> attempt (option string)) (state : AgentState) (w : world)
    (rotation : list (string * llm)) :
  reachable LLMConfig planner state w ->
  (planner_prologue orchestration_variant LLMConfig state w).1 = Ok rotation ->
  exists u w',
    central_agent1 LLMConfig invoke state w = (Ok u, w') /\
    replanned (plan state) (retained state) u.
Proof.
  intros Hreach Hpro.
  assert (Hn : numbered_from 0 (take (retained state) (plan state)))
    by (apply numbered_from_take; by eapply reachable_well_numbered).
  destruct (central_agent1 LLMConfig invoke state w) as [[u|err] w'] eqn:Hrun.
  - exists u, w'. split; [reflexivity|]. by eapply central_agent1_replanned.
  - exfalso.
    unfold central_agent1, central_agent1_of in Hrun.
    change (base.mbind ?k ?m) with (st_bind m k) in Hrun. unfold st_bind at 1 in Hrun.
    destruct (planner_prologue orchestration_variant LLMConfig state w)
      as [[llm_rotation|err0] w0]; [|discriminate Hpro].
    unfold with_frame in Hrun. unfold_st.
    match type of Hrun with
    | context [planner_loop ?v ?s ?k ?i ?st ?len ?idx ?rot ?f] =>
        destruct (planner_loop v s k i st len idx rot f) as [rl f1] eqn:Hloop;
        destruct (planner_loop_spec v s k i st len rot idx f f1 rl Hn Hloop)
          as [Hplan (done & -> & Hdone)]
    end.
    destruct done as [u0|]; [discriminate|].
    destruct (planner_fallback_guarded (retained state) f1) as (u1 & Hfb & _).
    rewrite Hfb in Hrun. discriminate.
Qed.

End DispatchFacts.

(** X14 at a memory step written without the key. *)
Lemma redirector_rag_message_witness :
  (dict_get bare_rag_step "rag_message" = None ->
   redirector_of true bare_rag_state = Raise "'rag_message'") /\
  (forall m, dict_get bare_rag_step "rag_message" = Some m -> truthy m = false ->
     redirector_of true bare_rag_state =
     Ok {| goto := rag_agent;
           cmd_update :=
             with_step_index (step_index bare_rag_state + 1)
               (with_rag_messages [text_message Human "remember the page"] no_update) |}) /\
  (forall m, dict_get bare_rag_step "rag_message" = Some (PStr m) -> m <> "" ->
     redirector_of true bare_rag_state =
     Ok {| goto := rag_agent;
           cmd_update :=
             with_step_index (step_index bare_rag_state + 1)
               (with_rag_messages [text_message Human m] no_update) |}).
Proof.
  apply (redirector_rag_message true bare_rag_state bare_rag_step "remember the page");
    reflexivity.
Defined.

(** X15 at one stored item and a formatting step with content. *)
Lemma formatting_dispatch_doubles_content_witness :
  exists c state',
    redirector formatting_next = Ok c /\ goto c = output_agent /\
    apply_update formatting_next (cmd_update c) = Ok state' /\
    output_content state' =
      output_content formatting_next ++ output_content formatting_next ++
      (if truthy (default (PStr "") (dict_get formatting_step "content"))
       then [default (PStr "") (dict_get formatting_step "content")] else []) /\
    length (output_content formatting_next) + length (output_content formatting_next) <=
      length (output_content state').
Proof.
  apply (formatting_dispatch_doubles_content formatting_next formatting_step "format");
    reflexivity.
Defined.

(** X16 at a configuration without keys. *)
Lemma run_agent_without_keys_witness :
  (build_main no_keys_router None = [] ->
   (run_agent no_keys_router (fun _ => failing_login) 25 "open example.com"
      (sample_world None)).1 =
   Ok [("error",
        "Error during agent running: No valid API keys found for main LLM rotation")]) /\
  (build_main no_keys_router None <> [] ->
   tavily_api_key (sample_world None) = None \/
   tavily_api_key (sample_world None) = Some "" ->
   (run_agent no_keys_router (fun _ => failing_login) 25 "open example.com"
      (sample_world None)).1 =
   Ok [("error",
        "Error during agent running: TAVILY_API_KEY not found in environment variables")]).
Proof.
  apply (run_agent_without_keys no_keys_router (fun _ => failing_login) 25
           "open example.com" (sample_world None)).
  lia.
Defined.

(** X17 at the run of [failing_login], with a model that answers no JSON. *)
Lemma planner_returns_after_prologue_witness :
  exists u w',
    central_agent1 sample_router (fun _ => plans "I cannot help with that")
      after_failed_login (sample_world None) = (Ok u, w') /\
    replanned (plan after_failed_login) (retained after_failed_login) u.
Proof.
  apply (planner_returns_after_prologue sample_router
           (fun _ => plans "I cannot help with that") after_failed_login
           (sample_world None) (build_main sample_router None)).
  - exact after_failed_login_reachable.
  - reflexivity.
Defined.

(** ** Retrieval of past errors *)

Section RetrievalFacts.
Context `{!Builtins}.

Lemma prefix_app_l (w s q : string) :
  String.prefix w s = true -> String.prefix w (s +:+ q) = true.
Proof.
  revert s. induction w as [|c w IH]; intros s Hp; [by destruct (s +:+ q)|].
  destruct s as [|c' s]; [discriminate|].
  change (String c' s +:+ q) with (String c' (s +:+ q)).
  simpl in *. destruct (Ascii.ascii_dec c c'); [by apply IH | discriminate].
Qed.

Lemma contains_app_l (w s q : string) :
  contains w s = true -> contains w (s +:+ q) = true.
Proof.
  induction s as [|c s IH]; intros Hc.
  - cbn [contains] in Hc. rewrite orb_false_r in Hc.
    destruct w; [|discriminate]. by destruct q.
  - change (String c s +:+ q) with (String c (s +:+ q)).
    cbn [contains] in *. apply orb_true_iff in Hc as [Hp | Hc].
    + apply orb_true_iff. left.
      apply (prefix_app_l w (String c s) q Hp).
    + rewrite (IH Hc). apply orb_true_r.
Qed.

Lemma contains_refl (w : string) : contains w w = true.
Proof. apply contains_prefix, prefix_refl. Qed.

Lemma digest_lines_contains (doc : document) (results : list document) :
  doc ∈ results ->
  forall i, contains (page_content doc) (digest_lines i results) = true.
Proof.
  induction 1 as [doc rest|doc other rest Hin IH]; intros i; cbn [digest_lines].
  - do 4 apply contains_app_r. apply contains_app_l, contains_refl.
  - do 6 apply contains_app_r. apply IH.
Qed.

Lemma digest_sites_nothing (similarity_search : pyval -> result (list document))
    (sites : list pyval) :
  (forall site, site ∈ sites ->
     similarity_search site = Ok [] \/ exists e, similarity_search site = Raise e) ->
  digest_sites similarity_search sites = ("", false).
Proof.
  induction sites as [|site rest IH]; intros Hnone; [reflexivity|].
  cbn [digest_sites]. rewrite IH by (intros s Hs; apply Hnone; by right).
  destruct (Hnone site) as [-> | (e & ->)]; [by left | reflexivity..].
Qed.

Lemma digest_sites_found (similarity_search : pyval -> result (list document))
    (sites : list pyval) (site : pyval) (docs : list document) (doc : document) :
  site ∈ sites -> similarity_search site = Ok docs -> doc ∈ docs ->
  (digest_sites similarity_search sites).2 = true /\
  contains (page_content doc) (digest_sites similarity_search sites).1 = true.
Proof.
  intros Hsite Hsearch Hdoc.
  induction sites as [|other rest IH]; [by apply elem_of_nil in Hsite|].
  cbn [digest_sites].
  apply elem_of_cons in Hsite as [<- | Hin].
  - destruct (digest_sites similarity_search rest) as [more found_more].
    rewrite Hsearch. destruct docs as [|d ds]; [by apply elem_of_nil in Hdoc|].
    split; [reflexivity|]. cbn [fst].
    do 5 apply contains_app_r. apply contains_app_l.
    by apply digest_lines_contains.
  - specialize (IH Hin).
    destruct (digest_sites similarity_search rest) as [more found_more].
    destruct IH as [Hfound Hmore]. cbn [fst snd] in Hfound. cbn [fst snd] in Hmore.
    destruct (similarity_search other) as [[|d ds]|e]; cbn [fst snd]; auto.
    split; [reflexivity|]. do 6 apply contains_app_r. exact Hmore.
Qed.

(** X18: [retrieve_errors] answers with one of three fixed sentences when
    no site is known, when there is no store, and when no site has a
    stored lesson (a search that raises counts as none).  Otherwise the
    digest starts with its heading and contains the text of every document
    found for every site: a search that fails for one site never hides
    the lessons of another. *)
Theorem retrieve_errors_digest (similarity_search : pyval -> result (list document))
    (state : AgentState) (w : world) :
  (site_names state = [] ->
   retrieve_errors similarity_search state w = "No specific sites identified yet.") /\
  (site_names state <> [] -> vector_db w = None ->
   retrieve_errors similarity_search state w = "Vector database not available.") /\
  (site_names state <> [] -> vector_db w <> None ->
   (forall site, site ∈ site_names state ->
      similarity_search site = Ok [] \/ exists e, similarity_search site = Raise e) ->
   retrieve_errors similarity_search state w =
   "No previous errors found for these sites.") /\
  (forall site docs doc,
     vector_db w <> None ->
     site ∈ site_names state -> similarity_search site = Ok docs -> doc ∈ docs ->
     String.prefix "PAST ERRORS/LESSONS:" (retrieve_errors similarity_search state w) = true /\
     contains (page_content doc) (retrieve_errors similarity_search state w) = true).
Proof.
  unfold retrieve_errors.
  split; [intros ->; reflexivity|].
  split; [intros Hne ->; by rewrite bool_decide_false|].
  split.
  - intros Hne Hdb Hnone. rewrite bool_decide_false by exact Hne.
    destruct (vector_db w); [|done].
    by rewrite digest_sites_nothing.
  - intros site docs doc Hdb Hsite Hsearch Hdoc.
    assert (Hne : site_names state <> [])
      by (intros Heq; rewrite Heq in Hsite; by apply elem_of_nil in Hsite).
    rewrite bool_decide_false by exact Hne.
    destruct (vector_db w); [|done].
    destruct (digest_sites_found similarity_search _ _ _ _ Hsite Hsearch Hdoc)
      as [Hfound Hin].
    destruct (digest_sites similarity_search (site_names state)) as [text found_any].
    cbn [fst snd] in Hfound, Hin. subst found_any.
    split; [apply prefix_app|].
    do 2 apply contains_app_r. exact Hin.
Qed.

End RetrievalFacts.

(** ** Lazily created singletons *)

(** X19: [OllamaProvider.check_availability] probes the server once per
    process: its first answer is stored with the class and every later
    call returns it without probing, so a server that comes up (or goes
    down) later is not noticed.  The first answer is [True] exactly when
    the probe returned status 200. *)
Theorem availability_checked_once (probe1 probe2 : result nat) (c : ollama_class) :
  check_availability probe2 (check_availability probe1 c).2 =
    check_availability probe1 c /\
  _availability_checked (check_availability probe1 c).2 = true /\
  (_availability_checked c = false ->
   ((check_availability probe1 c).1 = true <-> probe1 = Ok 200)).
Proof.
  unfold check_availability.
  destruct (_availability_checked c) eqn:Hchecked; cbn [fst snd].
  - rewrite Hchecked. split; [reflexivity|]. split; [reflexivity | discriminate].
  - cbn. split; [reflexivity|]. split; [reflexivity|]. intros _.
    destruct probe1 as [status|e]; [|split; discriminate].
    split.
    + intros Heq. apply Nat.eqb_eq in Heq. by subst.
    + intros [= ->]. reflexivity.
Qed.

(** X20: [get_vector_db] never raises and returns what it leaves in the
    module variable.  Without the ChromaDB dependencies it returns [None]
    and builds nothing.  A store that was built is returned by every
    later call without building again; a construction that failed is not
    remembered, and the next call builds again. *)
Theorem vector_db_built_once (construct1 construct2 : result vector_store)
    (instance : option vector_store) :
  (get_vector_db false construct1 instance = (Ok None, instance)) /\
  exists r,
    get_vector_db true construct1 instance = (Ok r, r) /\
    (forall vs, r = Some vs ->
       get_vector_db true construct2 r = (Ok (Some vs), Some vs)) /\
    (r = None ->
       instance = None /\ (exists e, construct1 = Raise e) /\
       forall vs, construct2 = Ok vs ->
         get_vector_db true construct2 r = (Ok (Some vs), Some vs)).
Proof.
  split; [reflexivity|].
  unfold get_vector_db. cbn [negb]. unfold_st.
  destruct instance as [vs|].
  - exists (Some vs). split; [reflexivity|]. split; [|discriminate].
    intros vs' [= <-]. reflexivity.
  - destruct construct1 as [vs|e].
    + exists (Some vs). split; [reflexivity|]. split; [|discriminate].
      intros vs' [= <-]. reflexivity.
    + exists None. split; [reflexivity|]. split; [discriminate|].
      intros _. split; [reflexivity|]. split; [by eexists|].
      intros vs ->. reflexivity.
Qed.
